(** * Expo CLI: Metro bundle options and the Metro terminal reporter

    A shallow embedding of two pieces of [@expo/cli]:

    - [MetroTerminalReporter.ts], embedded from its source: the status line
      of a build ([_getBundleStatusMessage]), the bundle event filter and
      the formatting of module resolution errors;
    - [metroOptions] ([getMetroDirectBundleOptions], [createBundleUrlPath]),
      whose implementation file is not among the sources; it is modelled
      from the specification and checked against the assertions of
      [__tests__/metroOptions.test.ts].

    JavaScript strings are [string]s holding their UTF-8 bytes, JavaScript
    numbers are binary64 floats ([PrimFloat]), bigints are [Z], objects used
    as maps are [gmap]s.  [chalk] and Node's [path] are interfaces; the
    properties hold for every implementation of them, and the examples run
    with colours off and POSIX paths. *)

From Stdlib Require Import ZArith Ascii String List Floats Lia DecimalString.
From Stdlib Require Uint63 DecimalPos DecimalN DecimalFacts.
From stdpp Require Import gmap strings.

(** ** Strings as the JavaScript runtime handles them *)

Module JsString.

(** [haystack.includes(needle)] *)
Fixpoint includes (haystack needle : string) : bool :=
  String.prefix needle haystack ||
  match haystack with
  | EmptyString => false
  | String _ rest => includes rest needle
  end.

(** [s.startsWith(p)], also the regular expressions of the form [/^p/]. *)
Definition startsWith (s p : string) : bool := String.prefix p s.

(** Conversion of a possibly absent string inside a template literal. *)
Definition text (o : option string) : string := default "undefined" o.

(** Truthiness of a possibly absent string: present and not empty. *)
Definition truthy (o : option string) : bool :=
  match o with
  | Some (String _ _) => true
  | _ => false
  end.

(** What [!x] tests on a possibly absent string: absent, or empty. *)
Definition missing (o : option string) : Prop := o = None ∨ o = Some "".

Definition boolText (b : bool) : string := if b then "true" else "false".

(** [s.repeat(n)] for a count that is already a natural number. *)
Fixpoint repeatN (s : string) (n : nat) : string :=
  match n with
  | O => ""
  | S k => s +:+ repeatN s k
  end.

(** [s.padStart(width)]: spaces in front, up to [width] code units. *)
Definition padStart (width : nat) (s : string) : string :=
  repeatN " " (width - String.length s) +:+ s.

(** [s.split(c)] for a one-character separator: always at least one piece. *)
Fixpoint splitOn (c : ascii) (s : string) : list string :=
  match s with
  | EmptyString => [""]
  | String x rest =>
      if Ascii.eqb x c then "" :: splitOn c rest
      else match splitOn c rest with
           | [] => [String x ""]
           | l :: ls => String x l :: ls
           end
  end.

(** [s.split('\n')] *)
Definition splitLines (s : string) : list string := splitOn "010"%char s.

(** [lines.join(sep)] *)
Definition join (sep : string) (l : list string) : string := String.concat sep l.

(** [lines.findIndex(p)]: [None] stands for [-1]. *)
Fixpoint findIndex {A} (p : A → bool) (l : list A) : option nat :=
  match l with
  | [] => None
  | x :: xs => if p x then Some 0 else S <$> findIndex p xs
  end.

(** Does the string start with a JavaScript white space or line terminator?
    Returns the rest of the string after it.  The code points are
    U+0009 to U+000D, U+0020, U+00A0, U+1680, U+2000 to U+200A, U+2028,
    U+2029, U+202F, U+205F, U+3000 and U+FEFF, in their UTF-8 form. *)
Definition afterSpace (s : string) : option string :=
  match s with
  | String c r1 =>
      let n := nat_of_ascii c in
      if ((9 <=? n) && (n <=? 13)) || (n =? 32) then Some r1
      else match r1 with
      | String c2 r2 =>
          let n2 := nat_of_ascii c2 in
          if (n =? 194) && (n2 =? 160) then Some r2
          else match r2 with
          | String c3 r3 =>
              let n3 := nat_of_ascii c3 in
              if (n =? 225) && (n2 =? 154) && (n3 =? 128) then Some r3
              else if (n =? 226) && (n2 =? 128) &&
                      (((128 <=? n3) && (n3 <=? 138)) || (n3 =? 168) || (n3 =? 169) || (n3 =? 175))
                   then Some r3
              else if (n =? 226) && (n2 =? 129) && (n3 =? 159) then Some r3
              else if (n =? 227) && (n2 =? 128) && (n3 =? 128) then Some r3
              else if (n =? 239) && (n2 =? 187) && (n3 =? 191) then Some r3
              else None
          | _ => None
          end
      | _ => None
      end
  | _ => None
  end.

Fixpoint trimStartFuel (fuel : nat) (s : string) : string :=
  match fuel with
  | O => s
  | S k => match afterSpace s with
           | Some r => trimStartFuel k r
           | None => s
           end
  end.

Definition trimStart (s : string) : string := trimStartFuel (String.length s) s.

(** Same test at the end of the string, on the reversed bytes. *)
Definition beforeSpace (r : string) : option string :=
  match r with
  | String c r1 =>
      let n := nat_of_ascii c in
      if ((9 <=? n) && (n <=? 13)) || (n =? 32) then Some r1
      else match r1 with
      | String c2 r2 =>
          let n2 := nat_of_ascii c2 in
          if (n2 =? 194) && (n =? 160) then Some r2
          else match r2 with
          | String c3 r3 =>
              match afterSpace (String c3 (String c2 (String c ""))) with
              | Some EmptyString => Some r3
              | _ => None
              end
          | _ => None
          end
      | _ => None
      end
  | _ => None
  end.

Fixpoint trimEndFuel (fuel : nat) (r : string) : string :=
  match fuel with
  | O => r
  | S k => match beforeSpace r with
           | Some r' => trimEndFuel k r'
           | None => r
           end
  end.

Definition trimEnd (s : string) : string :=
  String.rev (trimEndFuel (String.length s) (String.rev s)).

(** [s.trim()] *)
Definition trim (s : string) : string := trimEnd (trimStart s).

End JsString.

(** ** The bundle options resolver ([metroOptions]) *)

Module MetroOptions.
Import JsString.

Inductive Mode := development | production.

(** The request handed to the resolver.  The tests call the resolver with
    partial objects ([{}], [{ bytecode: true }]), so every field may be
    absent. *)
Module BundleRequest.
Record t := {
  mainModuleName : option string;
  mode : option Mode;
  platform : option string;
  baseUrl : option string;
  isExporting : option bool;
  lazy : option bool;
  bytecode : option bool;
  reactCompiler : option bool;
  serializerIncludeMaps : option bool;
  minify : option bool;
  customTransformOptions : option (gmap string string);
  customResolverOptions : option (gmap string string)
}.

Definition empty : t :=
  {| mainModuleName := None; mode := None; platform := None; baseUrl := None;
     isExporting := None; lazy := None; bytecode := None; reactCompiler := None;
     serializerIncludeMaps := None; minify := None;
     customTransformOptions := None; customResolverOptions := None |}.

(** The same request with [serializer.map=true] forced. *)
Definition withMaps (r : t) : t :=
  {| mainModuleName := mainModuleName r; mode := mode r; platform := platform r;
     baseUrl := baseUrl r; isExporting := isExporting r; lazy := lazy r;
     bytecode := bytecode r; reactCompiler := reactCompiler r;
     serializerIncludeMaps := Some true; minify := minify r;
     customTransformOptions := customTransformOptions r;
     customResolverOptions := customResolverOptions r |}.

End BundleRequest.

(** What the bundler receives. *)
Module DirectBundleOptions.
Record t := {
  entryFile : option string;
  platform : option string;
  dev : bool;
  minify : bool;
  inlineSourceMap : bool;
  unstable_transformProfile : string;
  customTransformOptions : gmap string string;
  customResolverOptions : gmap string string;
  serializerOptions : gmap string bool;
  sourceUrl : option string;
  sourceMapUrl : option string
}.
End DirectBundleOptions.

(** What the resolver reads besides the request: the engine flag set
    elsewhere, the environment toggle and the configured server origin. *)
Record Environment := {
  hermesEnabled : bool;
  EXPO_UNSTABLE_LIVE_BINDINGS : option string;
  serverOrigin : option string
}.

Definition defaultEnvironment : Environment :=
  {| hermesEnabled := false; EXPO_UNSTABLE_LIVE_BINDINGS := None; serverOrigin := None |}.

Inductive Error := InvalidOptionsError (message : string).

Definition isTrue (o : option bool) : bool :=
  match o with Some true => true | _ => false end.

Definition isWeb (o : option string) : bool :=
  match o with Some p => String.eqb p "web" | None => false end.

(** Modelled from the spec: [dev] is derived from [mode == "development"]. *)
Definition devOf (r : BundleRequest.t) : bool :=
  match BundleRequest.mode r with Some development => true | _ => false end.

(** *** Percent-encoding

    Modelled from the spec: query values are percent-encoded per standard
    URL encoding; every byte outside the unreserved set is written as [%XX]. *)

Definition isAlpha (c : ascii) : bool :=
  let n := nat_of_ascii c in
  ((65 <=? n) && (n <=? 90)) || ((97 <=? n) && (n <=? 122)).

Definition isDigit (c : ascii) : bool :=
  let n := nat_of_ascii c in (48 <=? n) && (n <=? 57).

Definition isUnreserved (c : ascii) : bool :=
  isAlpha c || isDigit c ||
  Ascii.eqb c "-" || Ascii.eqb c "." || Ascii.eqb c "_" || Ascii.eqb c "~".

Definition hexDigit (n : nat) : ascii :=
  if n <? 10 then ascii_of_nat (48 + n) else ascii_of_nat (55 + n).

Definition percentEncodeByte (c : ascii) : string :=
  if isUnreserved c then String c ""
  else let n := nat_of_ascii c in
       String "%" (String (hexDigit (n / 16)) (String (hexDigit (n mod 16)) "")).

Fixpoint percentEncode (s : string) : string :=
  match s with
  | EmptyString => ""
  | String c rest => percentEncodeByte c +:+ percentEncode rest
  end.

(** *** Absolute URLs

    Modelled from the spec: a [baseUrl] is absolute when a scheme is
    present. *)

Definition isSchemeChar (c : ascii) : bool :=
  isAlpha c || isDigit c || Ascii.eqb c "+" || Ascii.eqb c "-" || Ascii.eqb c ".".

Fixpoint schemeEnds (s : string) : bool :=
  match s with
  | EmptyString => false
  | String c rest => Ascii.eqb c ":" || (isSchemeChar c && schemeEnds rest)
  end.

Definition isAbsoluteUrl (s : string) : bool :=
  match s with
  | String c rest => isAlpha c && schemeEnds rest
  | EmptyString => false
  end.

(** *** The URL path builder *)

(** Modelled from the spec: the three feature-flag parameters of the
    missing [createBundleUrlPath], in the order in which section 4.1 lists
    them.  The exporting one follows the test [disables lazy when exporting]
    and testable property 5: [lazy] does not suppress it. *)
Definition exportingSegment (r : BundleRequest.t) : string :=
  if isTrue (BundleRequest.isExporting r) then "&resolver.exporting=true" else "".

Definition baseUrlSegment (r : BundleRequest.t) : string :=
  match BundleRequest.baseUrl r with
  | Some b => if isAbsoluteUrl b then "&transform.baseUrl=" +:+ percentEncode b else ""
  | None => ""
  end.

Definition mapSegment (r : BundleRequest.t) : string :=
  if isTrue (BundleRequest.serializerIncludeMaps r) then "&serializer.map=true" else "".

(** Modelled from the spec: [metroOptions.ts], the file that defines
    [createBundleUrlPath], is missing; only its test file is at hand.
    Section 4.1 of the specification gives the shape
    [/<mainModuleName>.<ext>?platform=<platform>&dev=<dev>&hot=false]
    and the appended parameters with their order.  Two points are settled
    by the repository's tests rather than by that section.  The exporting
    parameter follows the test [disables lazy when exporting] (and
    testable property 5 of the specification): with [lazy: true] and
    [isExporting: true] the parameter is present.  An absent field is
    written the way a template literal writes it.  A [baseUrl] without a
    scheme adds nothing to the query string; the path keeps the shape
    above, which the specification states without a condition. *)
Definition createBundleUrlPathWith (ext : string) (r : BundleRequest.t) : string :=
  "/" +:+ text (BundleRequest.mainModuleName r) +:+ "." +:+ ext +:+
  "?platform=" +:+ text (BundleRequest.platform r) +:+
  "&dev=" +:+ boolText (devOf r) +:+
  "&hot=false" +:+
  exportingSegment r +:+ baseUrlSegment r +:+ mapSegment r.

(** Modelled from the spec: [createBundleUrlPath] of the missing
    [metroOptions.ts]; the builder above with the [.bundle] suffix. *)
Definition createBundleUrlPath (r : BundleRequest.t) : string :=
  createBundleUrlPathWith "bundle" r.

Definition DEFAULT_SERVER_ORIGIN : string := "http://localhost:8081".

Definition originOf (env : Environment) : string :=
  default DEFAULT_SERVER_ORIGIN (serverOrigin env).

Fixpoint dropLeadingSlashes (s : string) : string :=
  match s with
  | String c rest => if Ascii.eqb c "/" then dropLeadingSlashes rest else s
  | EmptyString => s
  end.

(** Modelled from the spec: the step of the missing [metroOptions.ts]
    that prefixes a URL path with the server origin.  The test
    [injects source url if serializer options are provided] expects one
    slash between the origin and the entry [/index.js], so the path is
    resolved against the origin as a root-relative one. *)
Definition withOrigin (origin path : string) : string :=
  origin +:+ "/" +:+ dropLeadingSlashes path.

(** *** The direct options *)

(** Modelled from the spec: the two entries merged into
    [customTransformOptions], [baseUrl] if given and [liveBindings] when the
    environment toggle is the literal "0". *)
Definition baseUrlOption (r : BundleRequest.t) : gmap string string :=
  match BundleRequest.baseUrl r with
  | Some b => {[ "baseUrl" := b ]}
  | None => ∅
  end.

Definition liveBindingsOption (env : Environment) : gmap string string :=
  match EXPO_UNSTABLE_LIVE_BINDINGS env with
  | Some v => if String.eqb v "0" then {[ "liveBindings" := "false" ]} else ∅
  | None => ∅
  end.

Definition WEB_MESSAGE : string := "Cannot use bytecode with the web platform".
Definition HERMES_MESSAGE : string := "Bytecode is only supported with the Hermes engine".

(** Modelled from the spec: [getMetroDirectBundleOptions] (the
    specification's [getDirectBundleOptions]) of the missing
    [metroOptions.ts].  The two validations come first, in the order of
    section 4.1; [dev], [minify] and [customTransformOptions] are derived
    as that section says; [customResolverOptions], [serializerOptions],
    [inlineSourceMap] and [unstable_transformProfile] take the values the
    tests [returns basic options] and [injects source url ...] fix, the
    specification giving no rule for them. *)
Definition getMetroDirectBundleOptions (env : Environment) (r : BundleRequest.t)
  : Error + DirectBundleOptions.t :=
  if isTrue (BundleRequest.bytecode r) && isWeb (BundleRequest.platform r) then
    inl (InvalidOptionsError WEB_MESSAGE)
  else if isTrue (BundleRequest.bytecode r) && negb (hermesEnabled env) then
    inl (InvalidOptionsError HERMES_MESSAGE)
  else
    let maps := isTrue (BundleRequest.serializerIncludeMaps r) in
    let url ext :=
      withOrigin (originOf env) (createBundleUrlPathWith ext (BundleRequest.withMaps r)) in
    inr {| DirectBundleOptions.entryFile := BundleRequest.mainModuleName r;
           DirectBundleOptions.platform := BundleRequest.platform r;
           DirectBundleOptions.dev := devOf r;
           DirectBundleOptions.minify := isTrue (BundleRequest.minify r);
           DirectBundleOptions.inlineSourceMap := false;
           DirectBundleOptions.unstable_transformProfile := "default";
           DirectBundleOptions.customTransformOptions :=
             baseUrlOption r ∪ liveBindingsOption env;
           DirectBundleOptions.customResolverOptions := ∅;
           DirectBundleOptions.serializerOptions :=
             if maps then {[ "includeSourceMaps" := true ]} else ∅;
           DirectBundleOptions.sourceUrl := if maps then Some (url "bundle") else None;
           DirectBundleOptions.sourceMapUrl := if maps then Some (url "map") else None |}.

(** The environments of the [live bindings] tests. *)
Definition liveBindingsOff : Environment :=
  {| hermesEnabled := false; EXPO_UNSTABLE_LIVE_BINDINGS := Some "0"; serverOrigin := None |}.

Definition liveBindingsTrue : Environment :=
  {| hermesEnabled := false; EXPO_UNSTABLE_LIVE_BINDINGS := Some "true"; serverOrigin := None |}.

(** The options of a call that did not raise. *)
Definition resolved (res : Error + DirectBundleOptions.t) : option DirectBundleOptions.t :=
  match res with
  | inr opts => Some opts
  | inl _ => None
  end.

(** The requests of [__tests__/metroOptions.test.ts]. *)
Definition bytecodeOnWeb : BundleRequest.t :=
  {| BundleRequest.mainModuleName := None; BundleRequest.mode := None;
     BundleRequest.platform := Some "web"; BundleRequest.baseUrl := None;
     BundleRequest.isExporting := None; BundleRequest.lazy := None;
     BundleRequest.bytecode := Some true; BundleRequest.reactCompiler := None;
     BundleRequest.serializerIncludeMaps := None; BundleRequest.minify := None;
     BundleRequest.customTransformOptions := None;
     BundleRequest.customResolverOptions := None |}.

Definition bytecodeWithoutHermes : BundleRequest.t :=
  {| BundleRequest.mainModuleName := None; BundleRequest.mode := None;
     BundleRequest.platform := None; BundleRequest.baseUrl := None;
     BundleRequest.isExporting := None; BundleRequest.lazy := None;
     BundleRequest.bytecode := Some true; BundleRequest.reactCompiler := None;
     BundleRequest.serializerIncludeMaps := None; BundleRequest.minify := None;
     BundleRequest.customTransformOptions := None;
     BundleRequest.customResolverOptions := None |}.


Definition sourceMapRequest : BundleRequest.t :=
  {| BundleRequest.mainModuleName := Some "/index.js";
     BundleRequest.mode := Some development;
     BundleRequest.platform := Some "ios"; BundleRequest.baseUrl := None;
     BundleRequest.isExporting := Some false; BundleRequest.lazy := None;
     BundleRequest.bytecode := Some false; BundleRequest.reactCompiler := Some false;
     BundleRequest.serializerIncludeMaps := Some true; BundleRequest.minify := None;
     BundleRequest.customTransformOptions := None;
     BundleRequest.customResolverOptions := None |}.

Definition urlRequest (baseUrl : option string) (lazy isExporting : option bool)
  : BundleRequest.t :=
  {| BundleRequest.mainModuleName := Some "index";
     BundleRequest.mode := Some development;
     BundleRequest.platform := Some "ios"; BundleRequest.baseUrl := baseUrl;
     BundleRequest.isExporting := isExporting; BundleRequest.lazy := lazy;
     BundleRequest.bytecode := None; BundleRequest.reactCompiler := None;
     BundleRequest.serializerIncludeMaps := None; BundleRequest.minify := None;
     BundleRequest.customTransformOptions := None;
     BundleRequest.customResolverOptions := None |}.

End MetroOptions.

(** ** Numbers as the JavaScript runtime handles them

    A JavaScript number is an IEEE 754 binary64 value: [float].  The
    arithmetic is the kernel's; conversions to text decode the value exactly
    through [Prim2SF]. *)

Module JsNumber.
Import JsString.

(** What a throwing built-in raises. *)
Inductive JsError := RangeError.

(** [Number(z)] for a bigint [z]: the nearest binary64 value, ties to even. *)
Definition ofBigInt (z : Z) : float :=
  SF2Prim (binary_normalize prec emax z 0 false).

(** Decimal digits of a natural number. *)
Definition decimal (n : N) : string := NilZero.string_of_uint (N.to_uint n).

(** The integer [n] for which [n / 10^f - m * 2^e] is closest to zero, the
    larger one if there are two. *)
Definition scaledNearest (f : nat) (m : positive) (e : Z) : N :=
  let num := (Zpos m * 10 ^ Z.of_nat f)%Z in
  if (0 <=? e)%Z then Z.to_N (num * 2 ^ e)
  else let den := (2 ^ (- e))%Z in Z.to_N ((2 * num + den) / (2 * den)).

(** The digits of [n] with a decimal point before the last [f] of them. *)
Definition fixedDigits (f : nat) (n : N) : string :=
  let digits := decimal n in
  if (f =? 0)%nat then digits
  else
    let padded := repeatN "0" (S f - String.length digits) +:+ digits in
    let k := (String.length padded - f)%nat in
    String.substring 0 k padded +:+ "." +:+ String.substring k f padded.

(** The shortest decimal [s * 10^(n - k)] that still denotes [x], for an
    integer [x]; [lo4] and [hi4] are four times the ends of the interval of
    reals that round to [x], [incl] tells whether the ends belong to it.
    Returns [s] and [n]. *)
Fixpoint shortestFrom (fuel k : nat) (x lo4 hi4 : Z) (incl : bool) (D : nat) : Z * Z :=
  match fuel with
  | O => (x, Z.of_nat D)
  | S fuel' =>
      let p := (10 ^ Z.of_nat (D - k))%Z in
      let q := (x / p)%Z in
      let v1 := (q * p)%Z in
      let v2 := ((q + 1) * p)%Z in
      let inside v :=
        if incl then (lo4 <=? 4 * v)%Z && (4 * v <=? hi4)%Z
        else (lo4 <? 4 * v)%Z && (4 * v <? hi4)%Z in
      let down := (q, Z.of_nat D) in
      let up :=
        if (q + 1 =? 10 ^ Z.of_nat k)%Z then ((10 ^ (Z.of_nat k - 1))%Z, Z.of_nat (S D))
        else ((q + 1)%Z, Z.of_nat D) in
      match inside v1, inside v2 with
      | true, true =>
          if (x - v1 <? v2 - x)%Z then down
          else if (v2 - x <? x - v1)%Z then up
          else if Z.even q then down else up
      | true, false => down
      | false, true => up
      | false, false => shortestFrom fuel' (S k) x lo4 hi4 incl D
      end
  end.

(** [Number::toString] for a finite value [m * 2^e] that is at least
    [10^21]: always the exponent form. *)
Definition toStringLarge (m : positive) (e : Z) : string :=
  let x := (Zpos m * 2 ^ e)%Z in
  let half := (2 * 2 ^ e)%Z in
  let hi4 := (4 * x + half)%Z in
  let lo4 := if (Zpos m =? 2 ^ 52)%Z then (4 * x - 2 ^ e)%Z else (4 * x - half)%Z in
  let D := String.length (decimal (Z.to_N x)) in
  let '(s, n) := shortestFrom D 1 x lo4 hi4 (Z.even (Zpos m)) D in
  match decimal (Z.to_N s) with
  | String d EmptyString => String d "" +:+ "e+" +:+ decimal (Z.to_N (n - 1))
  | String d rest => String d "" +:+ "." +:+ rest +:+ "e+" +:+ decimal (Z.to_N (n - 1))
  | EmptyString => ""
  end.

(** [x.toFixed(f)], for [f] up to 100. *)
Definition toFixed (f : nat) (x : float) : string :=
  match Prim2SF x with
  | S754_nan => "NaN"
  | S754_infinity s => if s then "-Infinity" else "Infinity"
  | S754_zero _ => fixedDigits f 0
  | S754_finite s m e =>
      (if s then "-" else "") +:+
      (if (0 <=? e)%Z && (10 ^ 21 <=? Zpos m * 2 ^ e)%Z then toStringLarge m e
       else fixedDigits f (scaledNearest f m e))
  end.

(** The number 16, decoded. *)
Definition sixteen : spec_float := S754_finite false 4503599627370496 (-48).

(** [Math.floor(x)] *)
Definition Math_floor (x : float) : float :=
  match Prim2SF x with
  | S754_finite s m e =>
      if (0 <=? e)%Z then x
      else SF2Prim (binary_normalize prec emax (cond_Zopp s (Zpos m) / 2 ^ (- e)) 0 false)
  | _ => x
  end.

(** The exact integer part, rounded down, of [c] times the real number that
    a finite [x] denotes; 0 for the other values. *)
Definition floorOfScaled (c : Z) (x : float) : Z :=
  match Prim2SF x with
  | S754_finite s m e =>
      if (0 <=? e)%Z then (c * cond_Zopp s (Zpos m) * 2 ^ e)%Z
      else (c * cond_Zopp s (Zpos m) / 2 ^ (- e))%Z
  | _ => 0%Z
  end.

(** [s.repeat(count)]: the count is truncated to an integer first; a negative
    or infinite count raises [RangeError].  The engine's own limit on the
    length of a string is not part of the model. *)
Definition String_repeat (s : string) (count : float) : JsError + string :=
  match Prim2SF count with
  | S754_nan | S754_zero _ => inr ""
  | S754_infinity _ => inl RangeError
  | S754_finite sg m e =>
      let n := if (0 <=? e)%Z then (Zpos m * 2 ^ e)%Z else (Zpos m / 2 ^ (- e))%Z in
      if sg && (0 <? n)%Z then inl RangeError
      else inr (repeatN s (Z.to_nat n))
  end.

(** *** Checking a property of floats on a range of integers

    [holdsFrom P len n] evaluates [P] on the binary64 values of the [len]
    integers from [n] on, with machine integers and floats;
    [holdsFromBlocks] does so for consecutive blocks. *)

Definition one63 : PrimInt63.int := Eval cbv in Uint63.of_Z 1.

Fixpoint holdsFrom (P : float → bool) (len : nat) (n : PrimInt63.int) : bool :=
  match len with
  | O => true
  | S k => P (PrimFloat.of_uint63 n) && holdsFrom P k (PrimInt63.add n one63)
  end.

Fixpoint holdsFromBlocks (P : float → bool) (blocks len : nat) (n : PrimInt63.int) : bool :=
  match blocks with
  | O => true
  | S b => holdsFrom P len n &&
           holdsFromBlocks P b len (PrimInt63.add n (Uint63.of_Z (Z.of_nat len)))
  end.

(** The value of a finite binary64 number in units of 2^-1074. *)
Definition scaled (m : positive) (e : Z) : Z := Zpos m * 2 ^ (e + 1074).

End JsNumber.

(** ** The libraries the reporter calls *)

(** [chalk]: each style turns a text into a styled text.  The reporter uses
    these eight styles. *)
Module chalk.

Class Chalk := {
  bold : string → string;
  dim : string → string;
  green : string → string;
  red : string → string;
  reset_dim : string → string;
  cyan_bold : string → string;
  green_bgGreen : string → string;
  bgWhite_white : string → string
}.

(** Colours switched off: every style leaves the text as it is. *)
Definition plain : Chalk :=
  {| bold := id; dim := id; green := id; red := id; reset_dim := id;
     cyan_bold := id; green_bgGreen := id; bgWhite_white := id |}.

End chalk.

(** Node's [path] module. *)
Module path.
Import JsString.

Class Path := {
  sep : string;
  isAbsolute : string → bool;
  relative : string → string → string;
  dirname : string → string;
  basename : string → string
}.

(** The POSIX flavour, for a process whose working directory is [cwd]. *)
Definition isSlash (c : ascii) : bool := Ascii.eqb c "/".

Fixpoint dropWhile {A} (p : A → bool) (l : list A) : list A :=
  match l with
  | x :: xs => if p x then dropWhile p xs else l
  | [] => []
  end.

Fixpoint takeWhile {A} (p : A → bool) (l : list A) : list A :=
  match l with
  | x :: xs => if p x then x :: takeWhile p xs else []
  | [] => []
  end.

Definition posix_isAbsolute (p : string) : bool :=
  match p with
  | String c _ => isSlash c
  | EmptyString => false
  end.

Definition posix_basename (p : string) : string :=
  let r := dropWhile isSlash (rev (list_ascii_of_string p)) in
  string_of_list_ascii (rev (takeWhile (λ c, negb (isSlash c)) r)).

Definition posix_dirname (p : string) : string :=
  match list_ascii_of_string p with
  | [] => "."
  | c0 :: rest =>
      let r := dropWhile isSlash (rev rest) in
      let r2 := dropWhile (λ c, negb (isSlash c)) r in
      match r, r2 with
      | [], _ | _, [] => if isSlash c0 then "/" else "."
      | _ :: _, _ :: _ =>
          let stop := length r2 in
          if isSlash c0 && (stop =? 1)%nat then "//"
          else string_of_list_ascii (take stop (c0 :: rest))
      end
  end.

Fixpoint normalizeSegments (segments acc : list string) : list string :=
  match segments with
  | [] => rev acc
  | s :: rest =>
      if String.eqb s "" || String.eqb s "." then normalizeSegments rest acc
      else if String.eqb s ".." then normalizeSegments rest (tail acc)
      else normalizeSegments rest (s :: acc)
  end.

Definition resolveSegments (cwd p : string) : list string :=
  normalizeSegments (splitOn "/" (if posix_isAbsolute p then p else cwd +:+ "/" +:+ p)) [].

Fixpoint afterCommonPrefix (a b : list string) : list string * list string :=
  match a, b with
  | x :: a', y :: b' => if String.eqb x y then afterCommonPrefix a' b' else (a, b)
  | _, _ => (a, b)
  end.

Definition posix_relative (cwd from to : string) : string :=
  let '(up, down) := afterCommonPrefix (resolveSegments cwd from) (resolveSegments cwd to) in
  join "/" (((λ _, "..") <$> up) ++ down).

Definition posix (cwd : string) : Path :=
  {| sep := "/"; isAbsolute := posix_isAbsolute; relative := posix_relative cwd;
     dirname := posix_dirname; basename := posix_basename |}.

End path.

(** ** The terminal reporter ([MetroTerminalReporter.ts]) *)

Module MetroTerminalReporter.
Import JsString JsNumber.

Definition MAX_PROGRESS_BAR_CHAR_WIDTH : float := 16.
Definition DARK_BLOCK_CHAR : string := "▓".
Definition LIGHT_BLOCK_CHAR : string := "░".

(** A value of a custom transform option: a string, or anything else. *)
Inductive Mixed := MString (s : string) | MOther.

Record CustomTransformOptions := {
  environment : option Mixed;
  dom : option Mixed
}.

Record BundleDetails := {
  entryFile : string;
  platform : option string;
  buildID : option string;
  customTransformOptions : option CustomTransformOptions;
  bundleType : string
}.

Record BundleProgress := {
  bundleDetails : BundleDetails;
  transformedFileCount : N;
  totalFileCount : N;
  ratio : float
}.

Inductive BuildPhase := in_progress | done | failed.

(** A property of an object: missing, or there, holding a value that may be
    null or undefined. *)
Inductive Property (A : Type) := Missing | Held (v : option A).
Arguments Missing {A}.
Arguments Held {A} v.

(** An event, as far as the bundle filter looks at it. *)
Record TerminalReportableEvent := {
  type : string;
  event_bundleDetails : Property BundleDetails
}.

Record Cause := { _expoImportStack : option string }.

Record SnippetError := {
  message : option string;
  targetModuleName : option string;
  originModulePath : option string;
  cause : option Cause
}.

(** The reporter: its project root and the timers of the base reporter,
    from [buildID] to the clock value at the start of the build. *)
Record t := {
  projectRoot : string;
  _bundleTimers : gmap (option string) Z
}.

(** What [_logBundlingError] ends with: a line on the terminal, or the base
    reporter's [_logBundlingError] on the error. *)
Inductive BundlingErrorLog :=
  | terminal_log (message : string)
  | super_logBundlingError (error : SnippetError).

(** [s.replace(/^(\.?\.[\\/])+/, '')]: the leading [./], [../], [.\] and
    [..\] are removed. *)
Fixpoint stripLeadingDots (s : string) : string :=
  match s with
  | String "." (String "." (String c rest)) =>
      if Ascii.eqb c "/" || Ascii.eqb c "\" then stripLeadingDots rest else s
  | String "." (String c rest) =>
      if Ascii.eqb c "/" || Ascii.eqb c "\" then stripLeadingDots rest else s
  | _ => s
  end.

(** [/^node:/.test(moduleName) || NODE_STDLIB_MODULES.includes(moduleName)] *)
Definition isNodeStdLibraryModule (NODE_STDLIB_MODULES : list string) (moduleName : string)
  : bool :=
  startsWith moduleName "node:" || bool_decide (moduleName ∈ NODE_STDLIB_MODULES).

(** Remove the Metro cache clearing steps if they exist; what is left is the
    code frame. *)
Definition stripMetroInfo (errorMessage : string) : option string :=
  if negb (includes errorMessage "4. Remove the cache") then None
  else
    let lines := splitLines errorMessage in
    match findIndex (λ line, includes line "4. Remove the cache") lines with
    | None => None
    | Some index => Some (join (String "010" "") (drop (S index) lines))
    end.

(** If the code frame can be found then append it to the existing message. *)
Definition maybeAppendCodeFrame (message rawMessage : string) : string :=
  match stripMetroInfo rawMessage with
  | Some (String c codeFrame) => message +:+ String "010" "" +:+ String c codeFrame
  | _ => message
  end.

Definition shouldFilterBundleEvent (event : TerminalReportableEvent) : bool :=
  match event_bundleDetails event with
  | Held (Some details) => String.eqb (bundleType details) "map"
  | _ => false
  end.

Definition _getElapsedTime (hrtime startTime : Z) : Z := hrtime - startTime.

(** The operand of [toFixed(0)] in the sub-millisecond branch of the
    elapsed time (line 154), and the two branches of the test of line 151 as
    checks on the converted [bigint]: [subMillisecond lo hi] also places the
    operand in [lo, hi). *)
Definition tenthsOfMillisecond (x : float) : float :=
  PrimFloat.div (PrimFloat.mul (PrimFloat.div x 1000) 10) 1000.

Definition subMillisecond (lo hi x : float) : bool :=
  PrimFloat.leb (PrimFloat.div x 1000000) 0.5
  && PrimFloat.leb lo (tenthsOfMillisecond x)
  && PrimFloat.ltb (tenthsOfMillisecond x) hi.

Definition wholeMilliseconds (x : float) : bool :=
  negb (PrimFloat.leb (PrimFloat.div x 1000000) 0.5).

Section Reporter.
Context `{chalk.Chalk} `{path.Path}.
Variable NODE_STDLIB_MODULES : list string.
Variable learnMore : string → string.

Definition QUOTE : string := String (ascii_of_nat 34) "".

Definition DOCS_PAGE_URL : string :=
  "https://docs.expo.dev/workflow/using-libraries/#using-third-party-libraries".

(** Platform specific tag for a [BundleDetails] object.  The lookup table
    has the three keys of the source; a platform named after a member of
    [Object.prototype] is not part of the model. *)
Definition getPlatformTagForBuildDetails (bundleDetails : option BundleDetails) : string :=
  match bundleDetails ≫= platform with
  | Some (String c p) =>
      let platform := String c p in
      let formatted :=
        if String.eqb platform "ios" then "iOS"
        else if String.eqb platform "android" then "Android"
        else if String.eqb platform "web" then "Web"
        else platform in
      chalk.bold formatted +:+ " "
  | _ => ""
  end.

(** Environment tag for a [BundleDetails] object. *)
Definition getEnvironmentForBuildDetails (bundleDetails : option BundleDetails) : string :=
  let options := bundleDetails ≫= customTransformOptions in
  let env := options ≫= environment in
  match env with
  | Some (MString "node") => chalk.bold "λ" +:+ " "
  | Some (MString "react-server") =>
      chalk.bold ("RSC(" +:+ trim (getPlatformTagForBuildDetails bundleDetails) +:+ ")") +:+ " "
  | _ =>
      match options ≫= dom with
      | Some (MString (String _ _)) => chalk.bold "DOM" +:+ " "
      | _ => ""
      end
  end.

(** [env || getPlatformTagForBuildDetails(progress.bundleDetails)] *)
Definition platformTag (details : BundleDetails) : string :=
  let env := getEnvironmentForBuildDetails (Some details) in
  match env with
  | String _ _ => env
  | EmptyString => getPlatformTagForBuildDetails (Some details)
  end.

(** The elapsed time of a finished build, [elapsed] in nanoseconds. *)
Definition elapsedTimeText (elapsed : Z) : string :=
  let micro := PrimFloat.div (ofBigInt elapsed) 1000 in
  let converted := PrimFloat.div (ofBigInt elapsed) 1000000 in
  if PrimFloat.leb converted 0.5 then
    let tenthFractionOfMicro := toFixed 0 (PrimFloat.div (PrimFloat.mul micro 10) 1000) in
    chalk.cyan_bold ("0." +:+ tenthFractionOfMicro +:+ "ms")
  else
    chalk.dim (toFixed 0 converted +:+ "ms").

(** The progress bar with the percentage and the counts. *)
Definition progressBar (progress : BundleProgress) : JsError + string :=
  let filledBar := Math_floor (PrimFloat.mul (ratio progress) MAX_PROGRESS_BAR_CHAR_WIDTH) in
  match String_repeat DARK_BLOCK_CHAR filledBar with
  | inl e => inl e
  | inr dark =>
      match String_repeat LIGHT_BLOCK_CHAR
              (PrimFloat.sub MAX_PROGRESS_BAR_CHAR_WIDTH filledBar) with
      | inl e => inl e
      | inr light =>
          inr (chalk.green_bgGreen dark +:+
               chalk.bgWhite_white light +:+
               chalk.bold (" " +:+ padStart 4 (toFixed 1 (PrimFloat.mul 100 (ratio progress)))
                           +:+ "% ") +:+
               chalk.dim ("(" +:+
                          padStart (String.length (decimal (totalFileCount progress)))
                                   (decimal (transformedFileCount progress)) +:+
                          "/" +:+ decimal (totalFileCount progress) +:+ ")"))
      end
  end.

(** The path shown for a bundle. *)
Definition localPathOf (self : t) (progress : BundleProgress) : string :=
  let fromEntry :=
    let inputFile := entryFile (bundleDetails progress) in
    if path.isAbsolute inputFile then path.relative (projectRoot self) inputFile
    else inputFile in
  match customTransformOptions (bundleDetails progress) ≫= dom with
  | Some (MString d) => if includes d path.sep then stripLeadingDots d else fromEntry
  | _ => fromEntry
  end.

(** Extends the bundle progress to include the current platform that we're
    bundling.  [hrtime] is what [process.hrtime.bigint()] returns during the
    call. *)
Definition _getBundleStatusMessage (self : t) (hrtime : Z)
           (progress : BundleProgress) (phase : BuildPhase) : JsError + string :=
  let platform := platformTag (bundleDetails progress) in
  let localPath := localPathOf self progress in
  match phase with
  | in_progress =>
      match progressBar progress with
      | inl e => inl e
      | inr _progress =>
          inr (platform +:+
               chalk.reset_dim (path.dirname localPath +:+ path.sep) +:+
               chalk.bold (path.basename localPath) +:+
               " " +:+
               _progress)
      end
  | _ =>
      let status := match phase with done => "Bundled " | _ => "Bundling failed " end in
      let color := match phase with done => chalk.green | _ => chalk.red end in
      let time :=
        match _bundleTimers self !! buildID (bundleDetails progress) with
        | Some startTime => elapsedTimeText (_getElapsedTime hrtime startTime)
        | None => ""
        end in
      let plural := if (totalFileCount progress =? 1)%N then "" else "s" in
      inr (color (platform +:+ status) +:+
           time +:+
           chalk.reset_dim (" " +:+ localPath +:+ " (" +:+ decimal (totalFileCount progress)
                            +:+ " module" +:+ plural +:+ ")"))
  end.

(** Formats an error where the user is attempting to import a module from
    the Node.js standard library.  [None] is [null]. *)
Definition formatUsingNodeStandardLibraryError (projectRoot : string) (error : SnippetError)
  : option string :=
  if negb (truthy (message error)) then None
  else if negb (truthy (targetModuleName error)) || negb (truthy (originModulePath error))
  then None
  else
    let targetModuleName := text (targetModuleName error) in
    let originModulePath := text (originModulePath error) in
    let relativePath := path.relative projectRoot originModulePath in
    if isNodeStdLibraryModule NODE_STDLIB_MODULES targetModuleName then
      if includes originModulePath "node_modules" then
        Some (join (String "010" "")
          [ "The package at " +:+ QUOTE +:+ chalk.bold relativePath +:+ QUOTE +:+
            " attempted to import the Node standard library module " +:+ QUOTE +:+
            chalk.bold targetModuleName +:+ QUOTE +:+ ".";
            "It failed because the native React runtime does not include the Node standard library.";
            learnMore DOCS_PAGE_URL ])
      else
        Some (join (String "010" "")
          [ "You attempted to import the Node standard library module " +:+ QUOTE +:+
            chalk.bold targetModuleName +:+ QUOTE +:+ " from " +:+ QUOTE +:+
            chalk.bold relativePath +:+ QUOTE +:+ ".";
            "It failed because the native React runtime does not include the Node standard library.";
            learnMore DOCS_PAGE_URL ])
    else
      Some ("Unable to resolve " +:+ QUOTE +:+ targetModuleName +:+ QUOTE +:+
            " from " +:+ QUOTE +:+ relativePath +:+ QUOTE).

Definition importStackOf (error : SnippetError) : option string :=
  match cause error ≫= _expoImportStack with
  | Some (String c stack) => Some (String c stack)
  | _ => None
  end.

Definition _logBundlingError (self : t) (error : SnippetError) : BundlingErrorLog :=
  let moduleResolutionError := formatUsingNodeStandardLibraryError (projectRoot self) error in
  match moduleResolutionError with
  | Some (String c m) =>
      let message := maybeAppendCodeFrame (String c m) (text (message error)) in
      match importStackOf error with
      | Some stack => terminal_log (message +:+ String "010" (String "010" "") +:+ stack)
      | None => terminal_log message
      end
  | _ =>
      match importStackOf error with
      | Some stack =>
          super_logBundlingError
            {| message := Some (text (message error) +:+ String "010" (String "010" "") +:+ stack);
               targetModuleName := targetModuleName error;
               originModulePath := originModulePath error;
               cause := cause error |}
      | None => super_logBundlingError error
      end
  end.

End Reporter.

(** A reporter, a bundle and an error to run the functions on; the bundle is
    the one of the comment above [_getBundleStatusMessage] in the source:
    [iOS path/to/bundle.js ▓▓▓▓▓░░░░░░░░░░░ 36.6% (4790/7922)]. *)
Definition sampleReporter : t :=
  {| projectRoot := "/app"; _bundleTimers := {[ Some "build-1" := 1000%Z ]} |}.

Definition sampleDetails : BundleDetails :=
  {| entryFile := "/app/path/to/bundle.js"; platform := Some "ios";
     buildID := Some "build-1"; customTransformOptions := None; bundleType := "bundle" |}.

Definition sampleProgress : BundleProgress :=
  {| bundleDetails := sampleDetails; transformedFileCount := 4790;
     totalFileCount := 7922; ratio := PrimFloat.div 366 1000 |}.

Definition sampleStdlibModules : list string := ["fs"; "path"; "crypto"].

Definition sampleLearnMore (url : string) : string := "Learn more: " +:+ url.

Definition sampleError (target : string) : SnippetError :=
  {| message := Some "Unable to resolve module";
     targetModuleName := Some target;
     originModulePath := Some "/app/src/index.js";
     cause := None |}.

End MetroTerminalReporter.

(** ** Lines of a text *)

Module JsLines.

(** A string without the character [c]: a piece of what [split(c)] gives. *)
Fixpoint lacks (c : ascii) (s : string) : bool :=
  match s with
  | EmptyString => true
  | String x rest => negb (Ascii.eqb x c) && lacks c rest
  end.

(** The marker that [stripMetroInfo] looks for. *)
Definition CACHE_STEP : string := "4. Remove the cache".

End JsLines.

(** ** The terminal reporter: the events it logs *)

Module MetroTerminalReporterLog.
Import JsString MetroTerminalReporter.

(** A value of [event.data]: a string, [null], [undefined], or another
    value together with the text that converting it to a string gives.
    Symbols and objects whose conversion throws are not part of the
    model. *)
Inductive Datum :=
  | DString (s : string)
  | DNull
  | DUndefined
  | DOther (asString : string).

(** [String(d)]: what [RegExp.prototype.test] matches against. *)
Definition toText (d : Datum) : string :=
  match d with
  | DString s => s
  | DNull => "null"
  | DUndefined => "undefined"
  | DOther s => s
  end.

(** The text of an element inside [Array.prototype.join]: [null] and
    [undefined] give the empty string. *)
Definition joinText (d : Datum) : string :=
  match d with
  | DString s => s
  | DNull | DUndefined => ""
  | DOther s => s
  end.

(** [data.join(sep)] *)
Definition joinData (sep : string) (data : list Datum) : string :=
  join sep (joinText <$> data).

(** A letter as a regular expression with the [i] flag (and without the [u]
    flag) compares it: an ASCII capital is its small letter, every other
    byte is itself. *)
Definition lowerAscii (c : ascii) : ascii :=
  let n := nat_of_ascii c in
  if (65 <=? n)%nat && (n <=? 90)%nat then ascii_of_nat (n + 32) else c.

Fixpoint lowerCase (s : string) : string :=
  match s with
  | EmptyString => EmptyString
  | String c rest => String (lowerAscii c) (lowerCase rest)
  end.

(** [message.match(/JavaScript logs have moved/)] *)
Definition isLogsHaveMovedNotice (message : string) : bool :=
  includes message "JavaScript logs have moved".

(** [message.match(/Connection (closed|established|failed|terminated)/i)] *)
Definition isConnectionNotice (message : string) : bool :=
  let m := lowerCase message in
  includes m "connection closed" || includes m "connection established"
  || includes m "connection failed" || includes m "connection terminated".

(** Whether the message matches the initial startup log. *)
Definition isAppRegistryStartupMessage (body : list Datum) : bool :=
  match body with
  | [first] =>
      startsWith (toText first)
        ("Running application " +:+ QUOTE +:+ "main" +:+ QUOTE +:+ " with appParams:")
      || startsWith (toText first) ("Running " +:+ QUOTE +:+ "main" +:+ QUOTE +:+ " with {")
  | _ => false
  end.

(** The events, as far as [_log] looks at them.  The data of a server log
    may be missing; when there, they are an array. *)
Inductive LogEvent :=
  | unstable_server_log (data : option (list Datum))
  | client_log (data : list Datum) (level mode : option string)
  | other_event (event : TerminalReportableEvent).

(** [event.data?.[0]] when [typeof] gives ['string'] for it. *)
Definition firstString (data : option (list Datum)) : option string :=
  match data with
  | Some (DString message :: _) => Some message
  | _ => None
  end.

Definition shouldFilterClientLog (data : list Datum) : bool :=
  isAppRegistryStartupMessage data.

(** [event.mode === 'NOBRIDGE' || event.mode === 'BRIDGE' ? '' : (event.mode ?? '')] *)
Definition modeOf (mode : option string) : string :=
  match mode with
  | Some m => if String.eqb m "NOBRIDGE" || String.eqb m "BRIDGE" then "" else m
  | None => ""
  end.

Section Log.
Context `{chalk.Chalk}.
(** What [parseErrorStringToObject] of [serverLogLikeMetro] returns. *)
Variable ParsedError : Type.
Variable parseErrorStringToObject : string → option ParsedError.

(** What [_log] does with an event: nothing, a call of [logLikeMetro] on the
    terminal, the symbolication of a parsed error (whose result is logged
    with [logLikeMetro], or the [fallback] data if it fails), or the call of
    the base reporter's [_log]. *)
Inductive LogOutcome :=
  | ignored
  | logLikeMetro (level mode : string) (data : list Datum)
  | symbolicated (projectRoot level : string) (parsed : ParsedError)
                 (mode : string) (fallback : list Datum)
  | super_log (event : LogEvent).

(** [EXPO_DEBUG] is [env.EXPO_DEBUG]. *)
Definition _log (EXPO_DEBUG : bool) (self : t) (event : LogEvent) : LogOutcome :=
  match event with
  | unstable_server_log data =>
      match firstString data with
      | Some message =>
          if isLogsHaveMovedNotice message then ignored
          else if negb EXPO_DEBUG && isConnectionNotice message then ignored
          else super_log event
      | None => super_log event
      end
  | client_log data level mode =>
      if shouldFilterClientLog data then ignored
      else
        match level with
        | Some (String c l) =>
            let level := String c l in
            let mode := modeOf mode in
            let plain := logLikeMetro level mode data in
            if String.eqb level "warn" || String.eqb level "error" then
              let msg := joinData (String "010" "") data in
              if includes msg ".bundle//&platform=" then
                match parseErrorStringToObject msg with
                | Some parsed => symbolicated (projectRoot self) level parsed mode data
                | None => plain
                end
              else plain
            else plain
        | _ => super_log event
        end
  | other_event _ => super_log event
  end.

(** The line of [_logInitializing], whatever the port. *)
Definition _logInitializing (port : float) (hasReducedPerformance : bool) : list string :=
  [chalk.dim "Starting Metro Bundler"].

(** The message handed to [logWarning] by [transformCacheReset]. *)
Definition transformCacheReset : string :=
  "Bundler cache is empty, rebuilding " +:+ chalk.dim "(this may take a minute)".

(** The lines of [dependencyGraphLoading]. *)
Definition dependencyGraphLoading (hasReducedPerformance : bool) : list string :=
  if hasReducedPerformance then
    [chalk.red (join (String "010" "")
                  [ "Metro is operating with reduced performance.";
                    "Fix the problem above and restart Metro." ])]
  else [].

End Log.

Arguments ignored {ParsedError}.
Arguments logLikeMetro {ParsedError} level mode data.
Arguments symbolicated {ParsedError} projectRoot level parsed mode fallback.
Arguments super_log {ParsedError} event.
Arguments _log {ParsedError} parseErrorStringToObject EXPO_DEBUG self event.

(** [./] and [../] groups, with either slash, at the start of a path. *)
Definition startsWithDotSegment (s : string) : bool :=
  startsWith s "./" || startsWith s "../" || startsWith s ".\" || startsWith s "..\".

(** A DOM component and a React Server bundle. *)
Definition sampleDomProgress : BundleProgress :=
  {| bundleDetails :=
       {| entryFile := "/app/node_modules/expo/dom/entry.js"; platform := Some "web";
          buildID := Some "build-2";
          customTransformOptions :=
            Some {| environment := None; dom := Some (MString "./../components/Map.tsx") |};
          bundleType := "bundle" |};
     transformedFileCount := 12; totalFileCount := 345; ratio := PrimFloat.div 12 345 |}.

Definition sampleServerDetails : BundleDetails :=
  {| entryFile := "/app/index.js"; platform := Some "ios"; buildID := Some "build-3";
     customTransformOptions :=
       Some {| environment := Some (MString "react-server"); dom := None |};
     bundleType := "bundle" |}.

End MetroTerminalReporterLog.


(** ** Properties of the string functions *)

Module JsStringProps.
Import JsString.
#[local] Arguments String.append : simpl nomatch.

Lemma prefix_append (a b : string) : String.prefix a (a +:+ b) = true.
Proof.
  induction a as [|c a IH]; simpl.
  - now destruct b.
  - destruct (ascii_dec c c) as [_|n]; [exact IH | now destruct n].
Qed.

Lemma append_assoc (a b c : string) : (a +:+ b) +:+ c = a +:+ (b +:+ c).
Proof. induction a as [|x a IH]; simpl; [reflexivity | now rewrite IH]. Qed.

Lemma append_nil_r (s : string) : s +:+ "" = s.
Proof. induction s as [|c s IH]; simpl; [reflexivity | now rewrite IH]. Qed.

Lemma includes_self (s : string) : includes s s = true.
Proof.
  assert (Hp : String.prefix s s = true).
  { induction s as [|c s IH]; simpl; [reflexivity|].
    destruct (ascii_dec c c) as [_|n]; [exact IH | now destruct n]. }
  destruct s as [|c s]; [reflexivity|].
  cbn [includes]. now rewrite Hp.
Qed.

End JsStringProps.

(** ** Properties of the bundle options resolver *)

Module MetroOptionsProps.
Import JsString JsStringProps MetroOptions.
#[local] Arguments String.append : simpl nomatch.

Lemma isTrue_spec (o : option bool) : isTrue o = true ↔ o = Some true.
Proof. destruct o as [[|]|]; simpl; split; congruence. Qed.

Lemma isWeb_spec (o : option string) : isWeb o = true ↔ o = Some "web".
Proof.
  destruct o as [p|]; simpl; [|split; congruence].
  rewrite String.eqb_eq. split; congruence.
Qed.

Lemma liveBindingsOption_lookup (env : Environment) :
  liveBindingsOption env !! "liveBindings" =
    if bool_decide (EXPO_UNSTABLE_LIVE_BINDINGS env = Some "0") then Some "false" else None.
Proof.
  unfold liveBindingsOption.
  destruct (EXPO_UNSTABLE_LIVE_BINDINGS env) as [v|]; [|reflexivity].
  destruct (String.eqb_spec v "0") as [->|Hne].
  - reflexivity.
  - rewrite bool_decide_eq_false_2 by congruence. apply lookup_empty.
Qed.

Lemma baseUrlOption_lookup (r : BundleRequest.t) :
  baseUrlOption r !! "liveBindings" = None.
Proof. unfold baseUrlOption. now destruct (BundleRequest.baseUrl r). Qed.

(** The three ways a call can go. *)
Lemma getMetroDirectBundleOptions_cases (env : Environment) (r : BundleRequest.t) :
  (BundleRequest.bytecode r = Some true ∧ BundleRequest.platform r = Some "web" ∧
   getMetroDirectBundleOptions env r = inl (InvalidOptionsError WEB_MESSAGE))
  ∨ (BundleRequest.bytecode r = Some true ∧ BundleRequest.platform r ≠ Some "web" ∧
     hermesEnabled env = false ∧
     getMetroDirectBundleOptions env r = inl (InvalidOptionsError HERMES_MESSAGE))
  ∨ ((BundleRequest.bytecode r ≠ Some true ∨
      (BundleRequest.platform r ≠ Some "web" ∧ hermesEnabled env = true)) ∧
     ∃ opts, getMetroDirectBundleOptions env r = inr opts).
Proof.
  unfold getMetroDirectBundleOptions.
  pose proof (isTrue_spec (BundleRequest.bytecode r)) as Hb.
  pose proof (isWeb_spec (BundleRequest.platform r)) as Hw.
  destruct (isTrue (BundleRequest.bytecode r)) eqn:Eb; simpl.
  - destruct (isWeb (BundleRequest.platform r)) eqn:Ew; simpl.
    + left. repeat split; [now apply Hb | now apply Hw].
    + assert (BundleRequest.platform r ≠ Some "web") as Hnw.
      { intros H. apply Hw in H. discriminate H. }
      destruct (hermesEnabled env) eqn:Eh; simpl.
      * right; right. split; [right; now split | eexists; reflexivity].
      * right; left. repeat split; [now apply Hb | exact Hnw].
  - right; right. split; [|eexists; reflexivity].
    left. intros H. apply Hb in H. discriminate H.
Qed.

(** C1.  The resolver raises [InvalidOptionsError] exactly when bytecode is
    requested and either the platform is "web" or the Hermes engine flag is
    off.  Every raise is one of those two cases and carries the message of
    its case; bytecode on the web platform always yields the message
    "Cannot use bytecode with the web platform". *)
Theorem getMetroDirectBundleOptions_raises_iff (env : Environment) (r : BundleRequest.t) :
  ((∃ msg, getMetroDirectBundleOptions env r = inl (InvalidOptionsError msg)) ↔
     BundleRequest.bytecode r = Some true ∧
     (BundleRequest.platform r = Some "web" ∨ hermesEnabled env = false))
  ∧ (∀ msg, getMetroDirectBundleOptions env r = inl (InvalidOptionsError msg) →
       (BundleRequest.platform r = Some "web" ∧
        includes msg "Cannot use bytecode with the web platform" = true)
       ∨ (hermesEnabled env = false ∧
          includes msg "Bytecode is only supported with the Hermes engine" = true))
  ∧ (BundleRequest.bytecode r = Some true → BundleRequest.platform r = Some "web" →
       ∃ msg, getMetroDirectBundleOptions env r = inl (InvalidOptionsError msg) ∧
              includes msg "Cannot use bytecode with the web platform" = true)
  ∧ (BundleRequest.bytecode r = Some true → BundleRequest.platform r ≠ Some "web" →
     hermesEnabled env = false →
       ∃ msg, getMetroDirectBundleOptions env r = inl (InvalidOptionsError msg) ∧
              includes msg "Bytecode is only supported with the Hermes engine" = true).
Proof.
  destruct (getMetroDirectBundleOptions_cases env r)
    as [(Hb & Hw & Hr) | [(Hb & Hw & Hh & Hr) | (Hc & opts & Hr)]]; rewrite Hr.
  - refine (conj (conj _ _) (conj _ (conj _ _))).
    + intros _. split; [exact Hb | now left].
    + intros _. eexists; reflexivity.
    + intros msg [= <-]. left. split; [exact Hw | apply includes_self].
    + intros _ _. eexists. split; [reflexivity | apply includes_self].
    + intros _ Hn. now destruct Hn.
  - refine (conj (conj _ _) (conj _ (conj _ _))).
    + intros _. split; [exact Hb | now right].
    + intros _. eexists; reflexivity.
    + intros msg [= <-]. right. split; [exact Hh | apply includes_self].
    + intros _ Hw'. now destruct Hw.
    + intros _ _ _. eexists. split; [reflexivity | apply includes_self].
  - refine (conj (conj _ _) (conj _ (conj _ _))).
    + intros [msg Hm]. discriminate Hm.
    + intros [Hb [Hw | Hh]]; destruct Hc as [Hc | [Hc1 Hc2]]; congruence.
    + intros msg Hm. discriminate Hm.
    + intros Hb Hw. destruct Hc as [Hc | [Hc1 Hc2]]; congruence.
    + intros Hb Hw Hh. destruct Hc as [Hc | [Hc1 Hc2]]; congruence.
Qed.

(** The two failing calls of the test file. *)
Example bytecode_on_web_raises :
  getMetroDirectBundleOptions defaultEnvironment bytecodeOnWeb =
    inl (InvalidOptionsError "Cannot use bytecode with the web platform").
Proof. reflexivity. Qed.

Example bytecode_without_hermes_raises :
  getMetroDirectBundleOptions defaultEnvironment bytecodeWithoutHermes =
    inl (InvalidOptionsError "Bytecode is only supported with the Hermes engine").
Proof. reflexivity. Qed.

(** What a successful call returns. *)
Lemma getMetroDirectBundleOptions_inr (env : Environment) (r : BundleRequest.t)
      (opts : DirectBundleOptions.t) :
  getMetroDirectBundleOptions env r = inr opts →
  let maps := isTrue (BundleRequest.serializerIncludeMaps r) in
  let url ext :=
    withOrigin (originOf env) (createBundleUrlPathWith ext (BundleRequest.withMaps r)) in
  opts =
    {| DirectBundleOptions.entryFile := BundleRequest.mainModuleName r;
       DirectBundleOptions.platform := BundleRequest.platform r;
       DirectBundleOptions.dev := devOf r;
       DirectBundleOptions.minify := isTrue (BundleRequest.minify r);
       DirectBundleOptions.inlineSourceMap := false;
       DirectBundleOptions.unstable_transformProfile := "default";
       DirectBundleOptions.customTransformOptions :=
         baseUrlOption r ∪ liveBindingsOption env;
       DirectBundleOptions.customResolverOptions := ∅;
       DirectBundleOptions.serializerOptions :=
         if maps then {[ "includeSourceMaps" := true ]} else ∅;
       DirectBundleOptions.sourceUrl := if maps then Some (url "bundle") else None;
       DirectBundleOptions.sourceMapUrl := if maps then Some (url "map") else None |}.
Proof.
  unfold getMetroDirectBundleOptions.
  destruct (isTrue (BundleRequest.bytecode r) && isWeb (BundleRequest.platform r));
    [discriminate|].
  destruct (isTrue (BundleRequest.bytecode r) && negb (hermesEnabled env));
    [discriminate|].
  intros [= <-]. reflexivity.
Qed.

(** The call of the test [injects source url if serializer options are
    provided], with the object it expects. *)
Example getMetroDirectBundleOptions_source_urls_test :
  getMetroDirectBundleOptions defaultEnvironment sourceMapRequest =
    inr {| DirectBundleOptions.entryFile := Some "/index.js";
           DirectBundleOptions.platform := Some "ios";
           DirectBundleOptions.dev := true;
           DirectBundleOptions.minify := false;
           DirectBundleOptions.inlineSourceMap := false;
           DirectBundleOptions.unstable_transformProfile := "default";
           DirectBundleOptions.customTransformOptions := ∅ ∪ ∅;
           DirectBundleOptions.customResolverOptions := ∅;
           DirectBundleOptions.serializerOptions := {[ "includeSourceMaps" := true ]};
           DirectBundleOptions.sourceUrl :=
             Some "http://localhost:8081/index.js.bundle?platform=ios&dev=true&hot=false&serializer.map=true";
           DirectBundleOptions.sourceMapUrl :=
             Some "http://localhost:8081/index.js.map?platform=ios&dev=true&hot=false&serializer.map=true" |}.
Proof. reflexivity. Qed.



(** The URLs of the test file. *)
Example createBundleUrlPath_basic :
  createBundleUrlPath (urlRequest None None (Some false)) =
    "/index.bundle?platform=ios&dev=true&hot=false".
Proof. reflexivity. Qed.

Example createBundleUrlPath_qualified_baseUrl :
  createBundleUrlPath (urlRequest (Some "https://localhost:8081/dist/") None (Some false)) =
    "/index.bundle?platform=ios&dev=true&hot=false&transform.baseUrl=https%3A%2F%2Flocalhost%3A8081%2Fdist%2F".
Proof. reflexivity. Qed.



(** C6.  On a successful call, [customTransformOptions.liveBindings] is
    "false" when [EXPO_UNSTABLE_LIVE_BINDINGS] is set to "0", and absent
    for every other state of the toggle, unset and "true" included. *)
Theorem getMetroDirectBundleOptions_liveBindings
        (env : Environment) (r : BundleRequest.t) (opts : DirectBundleOptions.t) :
  getMetroDirectBundleOptions env r = inr opts →
  (EXPO_UNSTABLE_LIVE_BINDINGS env = Some "0" →
     DirectBundleOptions.customTransformOptions opts !! "liveBindings" = Some "false")
  ∧ (EXPO_UNSTABLE_LIVE_BINDINGS env ≠ Some "0" →
       DirectBundleOptions.customTransformOptions opts !! "liveBindings" = None).
Proof.
  intros Hr. apply getMetroDirectBundleOptions_inr in Hr. cbv zeta in Hr. subst opts.
  cbn [DirectBundleOptions.customTransformOptions].
  rewrite lookup_union, baseUrlOption_lookup, liveBindingsOption_lookup.
  split; intros Ht.
  - rewrite bool_decide_eq_true_2 by exact Ht. reflexivity.
  - rewrite bool_decide_eq_false_2 by exact Ht. reflexivity.
Qed.

Lemma getMetroDirectBundleOptions_liveBindings_witness :
  ∃ opts, getMetroDirectBundleOptions liveBindingsOff BundleRequest.empty = inr opts
          ∧ DirectBundleOptions.customTransformOptions opts !! "liveBindings" = Some "false".
Proof.
  eexists. split; [reflexivity|].
  exact (proj1 (getMetroDirectBundleOptions_liveBindings
                  liveBindingsOff BundleRequest.empty _ eq_refl) eq_refl).
Defined.

(** The three calls of the [live bindings] tests. *)
Example liveBindings_tests :
  let liveBindings env :=
    (λ opts, DirectBundleOptions.customTransformOptions opts !! "liveBindings") <$>
      resolved (getMetroDirectBundleOptions env BundleRequest.empty) in
  liveBindings defaultEnvironment = Some None
  ∧ liveBindings liveBindingsTrue = Some None
  ∧ liveBindings liveBindingsOff = Some (Some "false").
Proof. repeat split. Qed.

End MetroOptionsProps.

(** ** Properties of binary64 arithmetic used by the reporter *)

Module JsNumberProps.
Import JsString JsNumber.
#[local] Open Scope Z_scope.

(** *** Shifting mantissas *)

Lemma iter_pos_nat {A} (f : A → A) (p : positive) (x : A) :
  SpecFloat.iter_pos f p x = Nat.iter (Pos.to_nat p) f x.
Proof.
  revert x. induction p as [p IH|p IH|]; intros x; cbn [SpecFloat.iter_pos].
  - rewrite !IH, Pos2Nat.inj_xI, <- Nat.iter_succ_r.
    rewrite <- Nat.iter_add. f_equal. lia.
  - rewrite !IH, Pos2Nat.inj_xO, <- Nat.iter_add. f_equal. lia.
  - reflexivity.
Qed.

Lemma shiftl_nat_S (q : positive) (k : nat) :
  Pos.shiftl_nat q (S k) = ((Pos.shiftl_nat q k)~0)%positive.
Proof. reflexivity. Qed.

Lemma shiftl_nat_value (q : positive) (k : nat) :
  Zpos (Pos.shiftl_nat q k) = Zpos q * 2 ^ Z.of_nat k.
Proof.
  induction k as [|k IH]; [cbn; lia|].
  rewrite shiftl_nat_S, Pos2Z.inj_xO, IH, Nat2Z.inj_succ, Z.pow_succ_r by lia. lia.
Qed.

Lemma shiftl_nat_digits (q : positive) (k : nat) :
  Zpos (digits2_pos (Pos.shiftl_nat q k)) = Zpos (digits2_pos q) + Z.of_nat k.
Proof.
  induction k as [|k IH]; [cbn; lia|].
  rewrite shiftl_nat_S. cbn [digits2_pos]. rewrite Pos2Z.inj_succ, IH. lia.
Qed.

Lemma shiftl_nat_add (q : positive) (a b : nat) :
  Pos.shiftl_nat q (a + b) = Pos.shiftl_nat (Pos.shiftl_nat q b) a.
Proof. unfold Pos.shiftl_nat. apply Nat.iter_add. Qed.

(** Shifting out zero bits loses nothing. *)
Lemma shr_1_exact (q : positive) (k : nat) :
  Nat.iter k shr_1 (Build_shr_record (Zpos (Pos.shiftl_nat q k)) false false)
  = Build_shr_record (Zpos q) false false.
Proof.
  induction k as [|k IH]; [reflexivity|].
  rewrite Nat.iter_succ_r, shiftl_nat_S. exact IH.
Qed.

Lemma digits2_pos_size (m : positive) : digits2_pos m = Pos.size m.
Proof. induction m; simpl; congruence. Qed.

Lemma mantissa_lt_pow (m : positive) : Zpos m < 2 ^ Zpos (digits2_pos m).
Proof.
  rewrite digits2_pos_size.
  pose proof (Pos.size_gt m) as H.
  apply Pos2Z.pos_lt_pos in H. now rewrite Pos2Z.inj_pow in H.
Qed.

(** *** Multiplying by 16 is exact *)

Lemma SFmul_16 (m : positive) (e : Z) :
  bounded prec emax m e = true → e <= -52 →
  ∃ j : nat,
    (j <= 4)%nat ∧
    SF64mul (S754_finite false m e) sixteen
    = S754_finite false (Pos.shiftl_nat m j) (e + 4 - Z.of_nat j).
Proof.
  intros Hb He.
  unfold bounded, canonical_mantissa, fexp, SpecFloat.emin, prec, emax in Hb.
  apply andb_true_iff in Hb as [Hc Hmax].
  apply Z.eqb_eq in Hc. apply Z.leb_le in Hmax.
  set (d := Zpos (digits2_pos m)) in *.
  assert (Hd : 1 <= d) by (unfold d; lia).
  assert (Hj : ∃ j : nat, (j <= 4)%nat ∧
            Z.max (d + e + 4 - 53) (-1074) = e + 4 - Z.of_nat j).
  { assert (d + e + 4 - 53 <= -1074 ∨ d + e + 4 - 53 = -1073 ∨ d + e + 4 - 53 = -1072
            ∨ d + e + 4 - 53 = -1071 ∨ -1070 <= d + e + 4 - 53) as Hcase by lia.
    destruct Hcase as [Hq|[Hq|[Hq|[Hq|Hq]]]];
      [exists 4%nat | exists 3%nat | exists 2%nat | exists 1%nat | exists 0%nat]; lia. }
  destruct Hj as (j & Hj4 & Hj). exists j. split; [exact Hj4|].
  unfold SF64mul, SFmul, sixteen. cbn [xorb].
  replace (m * 4503599627370496)%positive with (Pos.shiftl_nat m 52)
    by (rewrite Pos.mul_comm; reflexivity).
  replace 52%nat with ((52 - j) + j)%nat by lia.
  rewrite shiftl_nat_add.
  set (m' := Pos.shiftl_nat m j).
  assert (Hd' : Zpos (digits2_pos m') = d + Z.of_nat j) by apply shiftl_nat_digits.
  unfold binary_round_aux, shr_fexp.
  cbn [Zdigits2]. rewrite shiftl_nat_digits, Hd'.
  unfold fexp, SpecFloat.emin, prec, emax.
  replace (Z.max (d + Z.of_nat j + Z.of_nat (52 - j) + (e + -48) - 53) (3 - 1024 - 53)
           - (e + -48))
    with (Zpos (Pos.of_nat (52 - j))) by lia.
  cbn [shr shr_record_of_loc]. rewrite iter_pos_nat, Nat2Pos.id by lia.
  rewrite shr_1_exact. cbn [shr_m loc_of_shr_record round_nearest_even shr_record_of_loc].
  cbn [Zdigits2]. rewrite Hd'.
  replace (Z.max (d + Z.of_nat j + (e + -48 + Zpos (Pos.of_nat (52 - j))) - 53) (3 - 1024 - 53)
           - (e + -48 + Zpos (Pos.of_nat (52 - j))))
    with 0 by lia.
  cbn [shr shr_m].
  replace (e + -48 + Zpos (Pos.of_nat (52 - j))) with (e + 4 - Z.of_nat j) by lia.
  destruct (Z.leb_spec (e + 4 - Z.of_nat j) (1024 - 53)); [reflexivity | lia].
Qed.

(** *** Counts from 0 to 16 *)

Lemma small_counts (k : nat) (s : string) :
  (k <= 16)%nat →
  String_repeat s (ofBigInt (Z.of_nat k)) = inr (repeatN s k)
  ∧ String_repeat s (PrimFloat.sub 16 (ofBigInt (Z.of_nat k))) = inr (repeatN s (16 - k))
  ∧ PrimFloat.eqb (ofBigInt (Z.of_nat k)) (ofBigInt (Z.of_nat k)) = true.
Proof.
  intros Hk.
  do 17 (destruct k as [|k]; [vm_compute; auto|]).
  lia.
Qed.

(** *** The floor of sixteen times a ratio *)

Lemma unit_interval (r : float) :
  PrimFloat.leb 0 r = true → PrimFloat.leb r 1 = true →
  (∃ s, Prim2SF r = S754_zero s)
  ∨ (∃ m e, Prim2SF r = S754_finite false m e ∧ bounded prec emax m e = true ∧
            (e < -52 ∨ (e = -52 ∧ Zpos m <= 2 ^ 52))).
Proof.
  rewrite !FloatAxioms.leb_spec. intros H0 H1.
  pose proof (Prim2SF_valid r) as Hv.
  change (Prim2SF 0) with (S754_zero false) in H0.
  change (Prim2SF 1) with (S754_finite false 4503599627370496 (-52)) in H1.
  destruct (Prim2SF r) as [s|s| |s m e].
  - left. now exists s.
  - destruct s; [discriminate H0 | discriminate H1].
  - discriminate H0.
  - destruct s; [discriminate H0|].
    right. exists m, e. split; [reflexivity|]. split; [exact Hv|].
    unfold SFleb, SFcompare in H1.
    destruct (Z.compare_spec e (-52)) as [->|Hlt|Hgt].
    + right. split; [reflexivity|].
      change (2 ^ 52) with (Zpos 4503599627370496).
      apply Pos2Z.pos_le_pos. unfold Pos.le, Pos.compare.
      destruct (Pos.compare_cont Eq m 4503599627370496); [discriminate | discriminate | discriminate H1].
    + now left.
    + discriminate H1.
Qed.

Lemma floor_mul_16 (r : float) :
  PrimFloat.leb 0 r = true → PrimFloat.leb r 1 = true →
  ∃ k : nat,
    (k <= 16)%nat
    ∧ Z.of_nat k = floorOfScaled 16 r
    ∧ PrimFloat.eqb (Math_floor (PrimFloat.mul r 16)) (ofBigInt (Z.of_nat k)) = true
    ∧ (∀ s, String_repeat s (Math_floor (PrimFloat.mul r 16)) = inr (repeatN s k))
    ∧ (∀ s, String_repeat s (PrimFloat.sub 16 (Math_floor (PrimFloat.mul r 16)))
            = inr (repeatN s (16 - k))).
Proof.
  intros H0 H1.
  destruct (unit_interval r H0 H1) as [[s Er] | (m & e & Er & Hb & He)].
  - exists 0%nat.
    assert (Ey : Prim2SF (PrimFloat.mul r 16) = S754_zero s).
    { rewrite FloatAxioms.mul_spec, Er. now destruct s. }
    assert (Ef : Math_floor (PrimFloat.mul r 16) = PrimFloat.mul r 16).
    { unfold Math_floor. now rewrite Ey. }
    rewrite Ef. repeat split.
    + lia.
    + unfold floorOfScaled. now rewrite Er.
    + rewrite FloatAxioms.eqb_spec, Ey. now destruct s.
    + intros t. unfold String_repeat. now rewrite Ey.
    + intros t. unfold String_repeat. rewrite FloatAxioms.sub_spec, Ey. now destruct s.
  - assert (He' : e <= -52) by lia.
    destruct (SFmul_16 m e Hb He') as (j & Hj & Hprod).
    assert (Ey : Prim2SF (PrimFloat.mul r 16)
                 = S754_finite false (Pos.shiftl_nat m j) (e + 4 - Z.of_nat j)).
    { rewrite FloatAxioms.mul_spec, Er. exact Hprod. }
    set (K := Zpos m / 2 ^ (- e - 4)).
    assert (HK : Zpos (Pos.shiftl_nat m j) / 2 ^ (- (e + 4 - Z.of_nat j)) = K).
    { rewrite shiftl_nat_value.
      replace (- (e + 4 - Z.of_nat j)) with ((- e - 4) + Z.of_nat j) by lia.
      rewrite Z.pow_add_r by lia.
      apply Z.div_mul_cancel_r; apply Z.pow_nonzero; lia. }
    assert (HK16 : 16 * Zpos m / 2 ^ (- e) = K).
    { replace (- e) with (4 + (- e - 4)) by lia.
      rewrite Z.pow_add_r by lia. change (2 ^ 4) with 16.
      apply Z.div_mul_cancel_l; [apply Z.pow_nonzero; lia | lia]. }
    assert (Hrange : 0 <= K <= 16).
    { split; [apply Z.div_pos; [lia | apply Z.pow_pos_nonneg; lia]|].
      unfold K. destruct He as [Hlt | [-> Hm]].
      - pose proof (mantissa_lt_pow m) as Hm.
        unfold bounded, canonical_mantissa, fexp, SpecFloat.emin, prec, emax in Hb.
        apply andb_true_iff in Hb as [Hc _]. apply Z.eqb_eq in Hc.
        assert (Zpos (digits2_pos m) <= 53) by lia.
        assert (Zpos m < 2 ^ 53).
        { eapply Z.lt_le_trans; [exact Hm | apply Z.pow_le_mono_r; lia]. }
        assert (Zpos m / 2 ^ (- e - 4) <= Zpos m / 2 ^ 49).
        { apply Z.div_le_compat_l; [lia|].
          split; [apply Z.pow_pos_nonneg; lia | apply Z.pow_le_mono_r; lia]. }
        assert (Zpos m / 2 ^ 49 < 16) by (apply Z.div_lt_upper_bound; lia).
        lia.
      - change (- -52 - 4) with 48.
        apply Z.div_le_upper_bound; lia. }
    assert (Ef : Math_floor (PrimFloat.mul r 16) = ofBigInt K).
    { unfold Math_floor. rewrite Ey.
      destruct (Z.leb_spec 0 (e + 4 - Z.of_nat j)); [lia|].
      cbn [cond_Zopp]. now rewrite HK. }
    assert (Hk : ∃ k : nat, (k <= 16)%nat ∧ K = Z.of_nat k).
    { exists (Z.to_nat K). lia. }
    destruct Hk as (k & Hk & EK). clearbody K.
    exists k. rewrite Ef, EK.
    destruct (small_counts k "" Hk) as (_ & _ & Heq).
    refine (conj Hk (conj _ (conj Heq (conj _ _)))).
    + unfold floorOfScaled. rewrite Er.
      destruct (Z.leb_spec 0 e); [lia|]. cbn [cond_Zopp]. lia.
    + intros t. apply (small_counts k t Hk).
    + intros t. apply (small_counts k t Hk).
Qed.

(** *** Enumerating integers on machine numbers *)

Lemma ofBigInt_uint63 (n : PrimInt63.int) : ofBigInt (Uint63.to_Z n) = PrimFloat.of_uint63 n.
Proof. unfold ofBigInt. rewrite <- of_uint63_spec. apply SF2Prim_Prim2SF. Qed.

Lemma holdsFrom_spec (P : float → bool) (len : nat) (n : PrimInt63.int) :
  holdsFrom P len n = true →
  Uint63.to_Z n + Z.of_nat len < 2 ^ 63 →
  ∀ e, Uint63.to_Z n <= e < Uint63.to_Z n + Z.of_nat len → P (ofBigInt e) = true.
Proof.
  revert n. induction len as [|len IH]; intros n Hall Hfit e He; [lia|].
  cbn [holdsFrom] in Hall. apply andb_true_iff in Hall as [Hn Hrest].
  pose proof (Uint63.to_Z_bounded n) as Hb.
  change Uint63.wB with (2 ^ 63) in *.
  assert (Hnext : Uint63.to_Z (PrimInt63.add n one63) = Uint63.to_Z n + 1).
  { rewrite Uint63.add_spec. change (Uint63.to_Z one63) with 1.
    change Uint63.wB with (2 ^ 63). apply Z.mod_small. lia. }
  destruct (Z.eq_dec e (Uint63.to_Z n)) as [->|Hne].
  - now rewrite ofBigInt_uint63.
  - apply (IH _ Hrest); rewrite Hnext; lia.
Qed.

Lemma holdsFromBlocks_spec (P : float → bool) (blocks len : nat) (n : PrimInt63.int) :
  holdsFromBlocks P blocks len n = true →
  Uint63.to_Z n + Z.of_nat blocks * Z.of_nat len < 2 ^ 63 →
  ∀ e, Uint63.to_Z n <= e < Uint63.to_Z n + Z.of_nat blocks * Z.of_nat len →
       P (ofBigInt e) = true.
Proof.
  revert n. induction blocks as [|b IH]; intros n Hall Hfit e He; [lia|].
  cbn [holdsFromBlocks] in Hall. apply andb_true_iff in Hall as [Hn Hrest].
  pose proof (Uint63.to_Z_bounded n) as Hb.
  change Uint63.wB with (2 ^ 63) in *.
  assert (Hnext : Uint63.to_Z (PrimInt63.add n (Uint63.of_Z (Z.of_nat len)))
                  = Uint63.to_Z n + Z.of_nat len).
  { rewrite Uint63.add_spec, Uint63.of_Z_spec. change Uint63.wB with (2 ^ 63).
    rewrite (Z.mod_small (Z.of_nat len)) by nia. apply Z.mod_small. nia. }
  destruct (Z_lt_le_dec e (Uint63.to_Z n + Z.of_nat len)) as [Hlt|Hge].
  - apply (holdsFrom_spec P len n Hn); nia.
  - apply (IH _ Hrest); rewrite Hnext; nia.
Qed.

Lemma holdsFromBlocks_range (P : float → bool) (blocks len : nat) (start : Z) :
  holdsFromBlocks P blocks len (Uint63.of_Z start) = true →
  0 <= start → start + Z.of_nat blocks * Z.of_nat len < 2 ^ 63 →
  ∀ e, start <= e < start + Z.of_nat blocks * Z.of_nat len → P (ofBigInt e) = true.
Proof.
  intros Hall H0 Hfit e He.
  assert (Hs : Uint63.to_Z (Uint63.of_Z start) = start).
  { rewrite Uint63.of_Z_spec. change Uint63.wB with (2 ^ 63). apply Z.mod_small. nia. }
  apply (holdsFromBlocks_spec P blocks len _ Hall); rewrite Hs; assumption.
Qed.


(** *** Comparing floats through their values *)

Lemma mantissa_ge_pow (m : positive) : 2 ^ (Zpos (digits2_pos m) - 1) <= Zpos m.
Proof.
  rewrite digits2_pos_size.
  pose proof (Pos.size_le m) as H.
  apply Pos2Z.pos_le_pos in H. rewrite Pos2Z.inj_pow in H.
  replace (Zpos (Pos.size m)) with (Zpos (Pos.size m) - 1 + 1) in H by lia.
  rewrite Z.pow_add_r in H by lia. lia.
Qed.

Lemma bounded_range (m : positive) (e : Z) :
  bounded prec emax m e = true →
  -1074 <= e <= 971 ∧ Zpos m < 2 ^ 53 ∧ (-1074 < e → 2 ^ 52 <= Zpos m).
Proof.
  unfold bounded, canonical_mantissa, fexp, SpecFloat.emin, prec, emax.
  intros Hb. apply andb_true_iff in Hb as [Hc Hmax].
  apply Z.eqb_eq in Hc. apply Z.leb_le in Hmax.
  pose proof (mantissa_lt_pow m) as Hlt. pose proof (mantissa_ge_pow m) as Hge.
  set (d := Zpos (digits2_pos m)) in *.
  assert (Hd : 1 <= d <= 53) by (unfold d; lia).
  split; [lia|]. split.
  - eapply Z.lt_le_trans; [exact Hlt | apply Z.pow_le_mono_r; lia].
  - intros He. replace d with 53 in Hge by lia. exact Hge.
Qed.

Lemma SFcompare_value (m1 m2 : positive) (e1 e2 : Z) :
  bounded prec emax m1 e1 = true → bounded prec emax m2 e2 = true →
  SFcompare (S754_finite false m1 e1) (S754_finite false m2 e2)
  = Some (scaled m1 e1 ?= scaled m2 e2).
Proof.
  intros H1 H2.
  destruct (bounded_range m1 e1 H1) as (He1 & Hm1 & Hn1).
  destruct (bounded_range m2 e2 H2) as (He2 & Hm2 & Hn2).
  unfold SFcompare, scaled. f_equal.
  change (Pos.compare_cont Eq m1 m2) with (Zpos m1 ?= Zpos m2).
  destruct (Z.compare_spec e1 e2) as [->|Hlt|Hgt].
  - assert (0 < 2 ^ (e2 + 1074)) by (apply Z.pow_pos_nonneg; lia).
    destruct (Z.compare_spec (Zpos m1) (Zpos m2)); symmetry;
      [apply Z.compare_eq_iff | apply Z.compare_lt_iff | apply Z.compare_gt_iff]; nia.
  - symmetry. apply Z.compare_lt_iff.
    assert (0 < 2 ^ (e1 + 1074)) by (apply Z.pow_pos_nonneg; lia).
    assert (2 * 2 ^ (e1 + 1074) <= 2 ^ (e2 + 1074)).
    { rewrite <- Z.pow_succ_r by lia. apply Z.pow_le_mono_r; lia. }
    specialize (Hn2 ltac:(lia)). change (2 ^ 53) with (2 * 2 ^ 52) in Hm1. nia.
  - symmetry. apply Z.compare_gt_iff.
    assert (0 < 2 ^ (e2 + 1074)) by (apply Z.pow_pos_nonneg; lia).
    assert (2 * 2 ^ (e2 + 1074) <= 2 ^ (e1 + 1074)).
    { rewrite <- Z.pow_succ_r by lia. apply Z.pow_le_mono_r; lia. }
    specialize (Hn1 ltac:(lia)). change (2 ^ 53) with (2 * 2 ^ 52) in Hm2. nia.
Qed.

(** *** [toFixed(0)] of a value below 2^52 *)

Lemma toFixed_0_value (t : float) (m : positive) (e : Z) :
  Prim2SF t = S754_finite false m e → -1074 <= e < 0 →
  toFixed 0 t = decimal (Z.to_N ((2 * scaled m e + 2 ^ 1074) / 2 ^ 1075)).
Proof.
  intros Et He. unfold toFixed. rewrite Et.
  destruct (Z.leb_spec 0 e); [lia|]. cbn [andb fixedDigits Nat.eqb].
  unfold scaledNearest. destruct (Z.leb_spec 0 e); [lia|].
  change (if false then "-" else "") with "". change ("" +:+ ?x) with x.
  do 2 f_equal. unfold scaled.
  assert (Hc : 2 ^ (e + 1074) <> 0) by (apply Z.pow_nonzero; lia).
  assert (Hp : 2 ^ (- e) * 2 ^ (e + 1074) = 2 ^ 1074).
  { rewrite <- Z.pow_add_r by lia. f_equal. lia. }
  rewrite <- (Z.div_mul_cancel_r _ (2 * 2 ^ (- e)) (2 ^ (e + 1074)));
    [| apply Z.neq_mul_0; split; [lia | apply Z.pow_nonzero; lia] | exact Hc].
  f_equal.
  - change (Z.of_nat 0) with 0. rewrite Z.pow_0_r. nia.
  - change (2 ^ 1075) with (2 * 2 ^ 1074). nia.
Qed.

Lemma toFixed_0_between (lo hi t : float) (k : Z) (mlo mhi : positive) (elo ehi : Z) :
  Prim2SF lo = S754_finite false mlo elo →
  Prim2SF hi = S754_finite false mhi ehi →
  scaled mlo elo = (2 * k - 1) * 2 ^ 1073 →
  scaled mhi ehi = (2 * k + 1) * 2 ^ 1073 →
  1 <= k <= 2 ^ 50 →
  PrimFloat.leb lo t = true → PrimFloat.ltb t hi = true →
  toFixed 0 t = decimal (Z.to_N k).
Proof.
  intros Elo Ehi Vlo Vhi Hk.
  rewrite FloatAxioms.leb_spec, FloatAxioms.ltb_spec.
  pose proof (Prim2SF_valid lo) as Blo. pose proof (Prim2SF_valid hi) as Bhi.
  pose proof (Prim2SF_valid t) as Bt.
  rewrite Elo in *. rewrite Ehi in *.
  destruct (Prim2SF t) as [s|s| |s m e] eqn:Et; intros Hle Hlt.
  - discriminate Hle.
  - destruct s; [discriminate Hle | discriminate Hlt].
  - discriminate Hle.
  - destruct s; [discriminate Hle|].
    cbn [valid_binary] in Blo, Bhi, Bt.
    unfold SFleb in Hle. unfold SFltb in Hlt.
    rewrite SFcompare_value in Hle, Hlt by assumption.
    rewrite Vlo in Hle. rewrite Vhi in Hlt.
    set (V := scaled m e) in *. set (P := 2 ^ 1073) in *.
    assert (HP : 0 < P) by (apply Z.pow_pos_nonneg; lia).
    assert (Hlo : (2 * k - 1) * P <= V).
    { destruct (Z.compare_spec ((2 * k - 1) * P) V); [lia | lia | discriminate Hle]. }
    assert (Hhi : V < (2 * k + 1) * P).
    { destruct (Z.compare_spec V ((2 * k + 1) * P)); [discriminate Hlt | lia | discriminate Hlt]. }
    destruct (bounded_range m e Bt) as (He & Hm & Hn).
    assert (Hneg : e < 0).
    { destruct (Z_lt_le_dec e 0) as [Hx|Hx]; [exact Hx | exfalso].
      specialize (Hn ltac:(lia)).
      assert (2 ^ 1074 <= 2 ^ (e + 1074)) by (apply Z.pow_le_mono_r; lia).
      change (2 ^ 1074) with (2 * P) in *. change (2 ^ 50) with 1125899906842624 in Hk.
      change (2 ^ 52) with 4503599627370496 in Hn.
      unfold V, scaled in Hhi. nia. }
    rewrite (toFixed_0_value t m e Et) by lia. fold V.
    change (2 ^ 1074) with (2 * P). change (2 ^ 1075) with (4 * P).
    do 2 f_equal.
    apply Z.le_antisymm.
    + apply Z.lt_succ_r. apply Z.div_lt_upper_bound; lia.
    + apply Z.div_le_lower_bound; lia.
Qed.

Lemma toFixed_0_below_half (t : float) :
  PrimFloat.leb 0 t = true → PrimFloat.ltb t 0.5 = true → toFixed 0 t = "0".
Proof.
  rewrite FloatAxioms.leb_spec, FloatAxioms.ltb_spec.
  pose proof (Prim2SF_valid t) as Bt.
  change (Prim2SF 0) with (S754_zero false).
  change (Prim2SF 0.5) with (S754_finite false 4503599627370496 (-53)).
  destruct (Prim2SF t) as [s|s| |s m e] eqn:Et; intros Hle Hlt.
  - unfold toFixed. now rewrite Et.
  - destruct s; [discriminate Hle | discriminate Hlt].
  - discriminate Hle.
  - destruct s; [discriminate Hle|].
    cbn [valid_binary] in Bt.
    unfold SFltb in Hlt. rewrite SFcompare_value in Hlt by (assumption || reflexivity).
    change (scaled 4503599627370496 (-53)) with (2 ^ 1073) in Hlt.
    set (V := scaled m e) in *. set (P := 2 ^ 1073) in *.
    assert (HP : 0 < P) by (apply Z.pow_pos_nonneg; lia).
    assert (Hhi : V < P).
    { destruct (Z.compare_spec V P); [discriminate Hlt | lia | discriminate Hlt]. }
    assert (HV : 0 <= V) by (unfold V, scaled; apply Z.mul_nonneg_nonneg; [lia | apply Z.pow_nonneg; lia]).
    destruct (bounded_range m e Bt) as (He & Hm & Hn).
    assert (Hneg : e < 0).
    { destruct (Z_lt_le_dec e 0) as [Hx|Hx]; [exact Hx | exfalso].
      specialize (Hn ltac:(lia)).
      assert (2 ^ 1074 <= 2 ^ (e + 1074)) by (apply Z.pow_le_mono_r; lia).
      change (2 ^ 1074) with (2 * P) in *.
      change (2 ^ 52) with 4503599627370496 in Hn.
      unfold V, scaled in Hhi. nia. }
    rewrite (toFixed_0_value t m e Et) by lia. fold V.
    change (2 ^ 1074) with (2 * P). change (2 ^ 1075) with (4 * P).
    replace ((2 * V + 2 * P) / (4 * P)) with 0; [reflexivity|].
    symmetry. apply Z.div_small. lia.
Qed.


(** *** Rounding a mantissa of at least 53 bits *)

Lemma shr_1_half (mrs : shr_record) :
  0 <= shr_m mrs → shr_m (shr_1 mrs) = shr_m mrs / 2.
Proof.
  destruct mrs as [m r s]. cbn [shr_m]. intros Hm.
  rewrite <- Z.div2_div.
  destruct m as [|[p|p|]|p]; try reflexivity. lia.
Qed.

Lemma shr_1_iter (k : nat) (mrs : shr_record) :
  0 <= shr_m mrs → shr_m (Nat.iter k shr_1 mrs) = shr_m mrs / 2 ^ Z.of_nat k.
Proof.
  intros Hm. induction k as [|k IH].
  - cbn. now rewrite Z.div_1_r.
  - change (Nat.iter (S k) shr_1 mrs) with (shr_1 (Nat.iter k shr_1 mrs)).
    rewrite shr_1_half.
    + rewrite IH, Z.div_div by (try apply Z.pow_pos_nonneg; lia).
      rewrite Nat2Z.inj_succ, Z.pow_succ_r by lia. f_equal. lia.
    + rewrite IH. apply Z.div_pos; [lia | apply Z.pow_pos_nonneg; lia].
Qed.

Lemma shr_shift (mrs : shr_record) (e n : Z) :
  0 <= shr_m mrs → 0 <= n →
  snd (shr mrs e n) = e + n ∧ shr_m (fst (shr mrs e n)) = shr_m mrs / 2 ^ n.
Proof.
  intros Hm Hn. unfold shr. destruct n as [|p|p]; [| |lia].
  - cbn. split; [lia | now rewrite Z.div_1_r].
  - cbn [fst snd]. split; [reflexivity|].
    rewrite iter_pos_nat, shr_1_iter by assumption.
    now rewrite positive_nat_Z.
Qed.

Lemma round_nearest_even_cases (m : Z) (l : location) :
  round_nearest_even m l = m ∨ round_nearest_even m l = m + 1.
Proof.
  unfold round_nearest_even.
  destruct l as [|[| |]]; auto. destruct (Z.even m); auto.
Qed.

Lemma digits_of_range (p : positive) (d : Z) :
  2 ^ (d - 1) <= Zpos p < 2 ^ d → 1 <= d → Zpos (digits2_pos p) = d.
Proof.
  intros [Hlo Hhi] Hd.
  pose proof (mantissa_lt_pow p) as H1. pose proof (mantissa_ge_pow p) as H2.
  set (x := Zpos (digits2_pos p)) in *.
  assert (1 <= x) by (unfold x; lia).
  assert (x - 1 < d).
  { apply (Z.pow_lt_mono_r_iff 2); [lia | lia | lia]. }
  assert (d - 1 < x).
  { apply (Z.pow_lt_mono_r_iff 2); [lia | lia | lia]. }
  lia.
Qed.

Lemma shr_record_of_loc_m (m : Z) (l : location) : shr_m (shr_record_of_loc m l) = m.
Proof. now destruct l as [|[| |]]. Qed.

Lemma binary_round_aux_large_eq (mx : positive) (ex : Z) (lx : location) :
  53 <= Zpos (digits2_pos mx) → -1074 <= ex →
  ∃ m e, binary_round_aux prec emax false (Zpos mx) ex lx
         = (if e <=? 1024 - 53 then S754_finite false m e else S754_infinity false)
         ∧ Zpos (digits2_pos m) = 53
         ∧ ex + Zpos (digits2_pos mx) - 53 <= e.
Proof.
  intros HD Hex.
  pose proof (mantissa_lt_pow mx) as Hlt. pose proof (mantissa_ge_pow mx) as Hge.
  set (D := Zpos (digits2_pos mx)) in *.
  unfold binary_round_aux, shr_fexp.
  cbn [Zdigits2]. fold D.
  unfold fexp at 1. unfold SpecFloat.emin, prec, emax.
  replace (Z.max (D + ex - 53) (3 - 1024 - 53) - ex) with (D - 53) by lia.
  destruct (shr_shift (shr_record_of_loc (Zpos mx) lx) ex (D - 53)) as [He1 Hm1];
    [rewrite shr_record_of_loc_m; lia | lia |].
  destruct (shr (shr_record_of_loc (Zpos mx) lx) ex (D - 53)) as [mrs1 e1].
  cbn [fst snd] in He1, Hm1. rewrite shr_record_of_loc_m in Hm1.
  set (m1 := shr_m mrs1) in *.
  assert (Hp : 0 < 2 ^ (D - 53)) by (apply Z.pow_pos_nonneg; lia).
  assert (Hm1lo : 2 ^ 52 <= m1).
  { rewrite Hm1. apply Z.div_le_lower_bound; [exact Hp|].
    rewrite <- Z.pow_add_r by lia. replace (D - 53 + 52) with (D - 1) by lia. exact Hge. }
  assert (Hm1hi : m1 < 2 ^ 53).
  { rewrite Hm1. apply Z.div_lt_upper_bound; [exact Hp|].
    rewrite <- Z.pow_add_r by lia. replace (D - 53 + 53) with D by lia. exact Hlt. }
  set (m1' := round_nearest_even m1 (loc_of_shr_record mrs1)).
  assert (Hm1' : 2 ^ 52 <= m1' <= 2 ^ 53).
  { unfold m1'. destruct (round_nearest_even_cases m1 (loc_of_shr_record mrs1)) as [->| ->]; lia. }
  destruct m1' as [|p1|p1] eqn:Ep1; [lia| |lia].
  cbn [Zdigits2].
  assert (Hd1 : (Zpos p1 < 2 ^ 53 ∧ Zpos (digits2_pos p1) = 53)
                ∨ (Zpos p1 = 2 ^ 53 ∧ Zpos (digits2_pos p1) = 54)).
  { destruct (Z_lt_le_dec (Zpos p1) (2 ^ 53)) as [Hx|Hx].
    - left. split; [exact Hx|]. apply digits_of_range; [|lia]. change (53 - 1) with 52. lia.
    - right. assert (Zpos p1 = 2 ^ 53) as Heq by lia. split; [exact Heq|].
      change (2 ^ 53) with (Zpos 9007199254740992) in Heq. injection Heq as ->. reflexivity. }
  unfold fexp, SpecFloat.emin, prec, emax.
  destruct Hd1 as [[Hx Hd]|[Hx Hd]]; rewrite Hd.
  - replace (Z.max (53 + e1 - 53) (3 - 1024 - 53) - e1) with 0 by lia.
    cbn [shr shr_record_of_loc shr_m].
    exists p1, e1. split; [reflexivity|]. split; [exact Hd | lia].
  - replace (Z.max (54 + e1 - 53) (3 - 1024 - 53) - e1) with 1 by lia.
    change (2 ^ 53) with (Zpos 9007199254740992) in Hx. injection Hx as ->.
    cbn [shr shr_record_of_loc shr_m SpecFloat.iter_pos shr_1].
    eexists _, (e1 + 1). split; [reflexivity|]. split; [reflexivity | lia].
Qed.

(** A mantissa of at least 53 bits rounds to a normal number whose exponent
    is not below the exponent of its leading 53 bits, or to infinity. *)
Lemma binary_round_aux_large (mx : positive) (ex : Z) (lx : location) :
  53 <= Zpos (digits2_pos mx) → -1074 <= ex →
  binary_round_aux prec emax false (Zpos mx) ex lx = S754_infinity false
  ∨ ∃ m e, binary_round_aux prec emax false (Zpos mx) ex lx = S754_finite false m e
           ∧ bounded prec emax m e = true
           ∧ ex + Zpos (digits2_pos mx) - 53 <= e.
Proof.
  intros HD Hex.
  destruct (binary_round_aux_large_eq mx ex lx HD Hex) as (m & e & -> & Hd & He).
  destruct (Z.leb_spec e (1024 - 53)); [right | now left].
  exists m, e. split; [reflexivity|]. split; [|exact He].
  unfold bounded, canonical_mantissa, fexp, SpecFloat.emin, prec, emax.
  rewrite Hd. apply andb_true_iff. split; [apply Z.eqb_eq; lia | apply Z.leb_le; lia].
Qed.

(** *** Large integers and their quotient by a million *)

Lemma shl_align_spec (mx : positive) (ex ex' : Z) :
  (ex' < ex →
     snd (shl_align mx ex ex') = ex'
     ∧ Zpos (digits2_pos (fst (shl_align mx ex ex'))) = Zpos (digits2_pos mx) + (ex - ex'))
  ∧ (ex <= ex' → shl_align mx ex ex' = (mx, ex)).
Proof.
  unfold shl_align. split; intros Hlt.
  - destruct (ex' - ex) as [|d|d] eqn:Ed; [lia|lia|].
    cbn [fst snd]. split; [reflexivity|].
    rewrite Pos2Nat.inj_iter.
    change (nat_rect (λ _, positive) mx (λ _, xO) (Pos.to_nat d))
      with (Pos.shiftl_nat mx (Pos.to_nat d)).
    rewrite shiftl_nat_digits, positive_nat_Z. lia.
  - destruct (ex' - ex) as [|d|d] eqn:Ed; [reflexivity|reflexivity|lia].
Qed.

Lemma digits_lower (p : positive) (d : Z) :
  0 <= d → 2 ^ d <= Zpos p → d < Zpos (digits2_pos p).
Proof.
  intros Hd Hp. pose proof (mantissa_lt_pow p) as Hlt.
  apply (Z.pow_lt_mono_r_iff 2); lia.
Qed.

(** An integer of at least 2^20 converts to a normal number of exponent at
    least -32, or to infinity. *)
Lemma ofBigInt_large (e : Z) :
  2 ^ 20 <= e →
  Prim2SF (ofBigInt e) = S754_infinity false
  ∨ ∃ m ex, Prim2SF (ofBigInt e) = S754_finite false m ex
            ∧ bounded prec emax m ex = true ∧ -32 <= ex.
Proof.
  intros He. destruct e as [|pe|pe]; [lia| |lia].
  pose proof (digits_lower pe 20 ltac:(lia) He) as Hd.
  unfold ofBigInt, binary_normalize, binary_round.
  set (d := Zpos (digits2_pos pe)) in *.
  set (ex' := fexp prec emax (d + 0)).
  assert (Hex' : ex' = d - 53).
  { unfold ex', fexp, SpecFloat.emin, prec, emax. lia. }
  clearbody ex'. subst ex'.
  destruct (shl_align_spec pe 0 (d - 53)) as [Hshift Hkeep].
  destruct (shl_align pe 0 (d - 53)) as [mz ez].
  cbn [fst snd] in Hshift.
  assert (HD : 53 <= Zpos (digits2_pos mz) ∧ -32 <= ez + Zpos (digits2_pos mz) - 53).
  { destruct (Z_lt_le_dec d 53) as [Hlt|Hge].
    - destruct Hshift as [-> ->]; lia.
    - specialize (Hkeep ltac:(lia)). injection Hkeep as -> ->. fold d. lia. }
  destruct HD as [HD Hex].
  assert (Hez : -1074 <= ez).
  { destruct (Z_lt_le_dec d 53) as [Hlt|Hge].
    - destruct Hshift as [-> _]; lia.
    - specialize (Hkeep ltac:(lia)). injection Hkeep as -> ->. lia. }
  destruct (binary_round_aux_large mz ez loc_Exact HD Hez) as [->|(m & ex & -> & Hb & Hx)].
  - left. now apply Prim2SF_SF2Prim.
  - right. exists m, ex. split; [now apply Prim2SF_SF2Prim|]. split; [exact Hb | lia].
Qed.

(** The quotient by a million of a normal number of exponent at least -32
    exceeds one half. *)
Lemma div_million_above_half (x : float) (ma : positive) (ea : Z) :
  Prim2SF x = S754_finite false ma ea → bounded prec emax ma ea = true → -32 <= ea →
  PrimFloat.leb (PrimFloat.div x 1000000) 0.5 = false.
Proof.
  intros Hx Hb Hea.
  destruct (bounded_range ma ea Hb) as (_ & Hhi & Hlo). specialize (Hlo ltac:(lia)).
  assert (Hda : Zpos (digits2_pos ma) = 53).
  { apply digits_of_range; [|lia]. change (53 - 1) with 52. lia. }
  rewrite FloatAxioms.leb_spec, FloatAxioms.div_spec, Hx.
  change (Prim2SF 1000000) with (S754_finite false 8589934592000000 (-33)).
  change (Prim2SF 0.5) with (S754_finite false 4503599627370496 (-53)).
  unfold SF64div, SFdiv, SFdiv_core_binary. cbn [Zdigits2 xorb].
  rewrite Hda.
  change (Zpos (digits2_pos 8589934592000000)) with 53.
  assert (Hf : fexp prec emax (53 + ea - (53 + -33)) = ea - 20).
  { unfold fexp, SpecFloat.emin, prec, emax. lia. }
  rewrite Hf.
  replace (Z.min (ea - 20) (ea - -33)) with (ea - 20) by lia.
  replace (ea - -33 - (ea - 20)) with 53 by lia.
  rewrite Z.shiftl_mul_pow2 by lia.
  pose proof (Z_div_mod (Zpos ma * 2 ^ 53) (Zpos 8589934592000000) ltac:(lia)) as Hdiv.
  destruct (Z.div_eucl (Zpos ma * 2 ^ 53) (Zpos 8589934592000000)) as [q r].
  destruct Hdiv as [Heq Hr].
  assert (Hq : 2 ^ 52 <= q) by lia.
  destruct q as [|qp|qp]; [lia| |lia].
  pose proof (digits_lower qp 52 ltac:(lia) Hq) as Hdq.
  destruct (binary_round_aux_large qp (ea - 20) (new_location (Zpos 8589934592000000) r)
              ltac:(lia) ltac:(lia)) as [->|(m & e & -> & _ & He)]; [reflexivity|].
  unfold SFleb, SFcompare.
  destruct (Z.compare_spec e (-53)); [lia|lia|reflexivity].
Qed.

Lemma above_million (e : Z) :
  2 ^ 20 <= e → PrimFloat.leb (PrimFloat.div (ofBigInt e) 1000000) 0.5 = false.
Proof.
  intros He. destruct (ofBigInt_large e He) as [Hinf|(m & ex & Hx & Hb & Hex)].
  - rewrite FloatAxioms.leb_spec, FloatAxioms.div_spec, Hinf. reflexivity.
  - exact (div_million_above_half _ m ex Hx Hb Hex).
Qed.

End JsNumberProps.

(** ** Properties of the terminal reporter *)

Module MetroTerminalReporterProps.
Import JsString JsStringProps JsNumber JsNumberProps MetroTerminalReporter.
#[local] Arguments String.append : simpl nomatch.

Lemma truthy_false (o : option string) : truthy o = false ↔ missing o.
Proof.
  unfold missing. destruct o as [[|c s]|]; simpl; split; try tauto; try congruence.
  - intros [H|H]; congruence.
Qed.

(** The code frame, if any, comes after the message. *)
Lemma maybeAppendCodeFrame_extends (message rawMessage : string) :
  ∃ frame, maybeAppendCodeFrame message rawMessage = message +:+ frame.
Proof.
  unfold maybeAppendCodeFrame.
  destruct (stripMetroInfo rawMessage) as [[|c codeFrame]|].
  - exists "". now rewrite append_nil_r.
  - eexists. reflexivity.
  - exists "". now rewrite append_nil_r.
Qed.

(** C9.  [shouldFilterBundleEvent] answers true exactly for the events that
    carry a [bundleDetails] whose [bundleType] is "map", and false for every
    other event. *)
Theorem shouldFilterBundleEvent_iff (event : TerminalReportableEvent) :
  (shouldFilterBundleEvent event = true ↔
     ∃ details, event_bundleDetails event = Held (Some details)
                ∧ bundleType details = "map")
  ∧ (shouldFilterBundleEvent event = false ↔
       ¬ ∃ details, event_bundleDetails event = Held (Some details)
                    ∧ bundleType details = "map").
Proof.
  assert (Hiff : shouldFilterBundleEvent event = true ↔
            ∃ details, event_bundleDetails event = Held (Some details)
                       ∧ bundleType details = "map").
  { unfold shouldFilterBundleEvent.
    destruct (event_bundleDetails event) as [|[details|]].
    - split; [discriminate | intros (d & Hd & _); discriminate Hd].
    - rewrite String.eqb_eq. split.
      + intros Hm. now exists details.
      + intros (d & [= <-] & Hm). exact Hm.
    - split; [discriminate | intros (d & Hd & _); discriminate Hd]. }
  split; [exact Hiff|].
  rewrite <- Hiff. destruct (shouldFilterBundleEvent event); split; congruence.
Qed.

(** *** The elapsed time on whole nanoseconds

    The test of line 151 and the digit of line 154 are evaluated on every
    elapsed time up to 2^20 ns; above, the quotient by a million is shown
    to exceed one half. *)

Lemma bucket_0 : holdsFromBlocks (subMillisecond 0 0.5) 50 1000 (Uint63.of_Z 0) = true.
Proof. vm_compute. reflexivity. Qed.

Lemma bucket_1 : holdsFromBlocks (subMillisecond 0.5 1.5) 100 1000 (Uint63.of_Z 50000) = true.
Proof. vm_compute. reflexivity. Qed.

Lemma bucket_2 : holdsFromBlocks (subMillisecond 1.5 2.5) 100 1000 (Uint63.of_Z 150000) = true.
Proof. vm_compute. reflexivity. Qed.

Lemma bucket_3 : holdsFromBlocks (subMillisecond 2.5 3.5) 100 1000 (Uint63.of_Z 250000) = true.
Proof. vm_compute. reflexivity. Qed.

Lemma bucket_4 : holdsFromBlocks (subMillisecond 3.5 4.5) 100 1000 (Uint63.of_Z 350000) = true.
Proof. vm_compute. reflexivity. Qed.

Lemma bucket_5 : holdsFromBlocks (subMillisecond 4.5 5.5) 50 1000 (Uint63.of_Z 450000) = true.
Proof. vm_compute. reflexivity. Qed.

Lemma bucket_5_end : holdsFromBlocks (subMillisecond 4.5 5.5) 1 1 (Uint63.of_Z 500000) = true.
Proof. vm_compute. reflexivity. Qed.

Lemma whole_from_half : holdsFromBlocks wholeMilliseconds 548 1000 (Uint63.of_Z 500001) = true.
Proof. vm_compute. reflexivity. Qed.

Lemma whole_to_million : holdsFromBlocks wholeMilliseconds 1 575 (Uint63.of_Z 1048001) = true.
Proof. vm_compute. reflexivity. Qed.

(** Above half a millisecond the test of line 151 fails. *)
Lemma above_half (e : Z) :
  (500000 < e)%Z → PrimFloat.leb (PrimFloat.div (ofBigInt e) 1000000) 0.5 = false.
Proof.
  intros He.
  destruct (Z_lt_le_dec e 1048001) as [Hlow|Hlow];
    [|destruct (Z_lt_le_dec e (2 ^ 20)) as [Hmid|Hmid]].
  - apply negb_true_iff.
    apply (holdsFromBlocks_range wholeMilliseconds _ _ _ whole_from_half); lia.
  - apply negb_true_iff.
    apply (holdsFromBlocks_range wholeMilliseconds _ _ _ whole_to_million); lia.
  - now apply above_million.
Qed.

Section Elapsed.
Context `{chalk.Chalk}.
#[local] Open Scope Z_scope.

Lemma elapsedTimeText_subMillisecond (lo hi : float) (k : Z) (e : Z) :
  (PrimFloat.leb lo (tenthsOfMillisecond (ofBigInt e)) = true →
   PrimFloat.ltb (tenthsOfMillisecond (ofBigInt e)) hi = true →
   toFixed 0 (tenthsOfMillisecond (ofBigInt e)) = decimal (Z.to_N k)) →
  subMillisecond lo hi (ofBigInt e) = true →
  elapsedTimeText e = chalk.cyan_bold ("0." +:+ decimal (Z.to_N k) +:+ "ms").
Proof.
  intros Hfixed Hcheck. unfold subMillisecond in Hcheck.
  apply andb_true_iff in Hcheck as [Hcheck Hhi].
  apply andb_true_iff in Hcheck as [Htest Hlo].
  unfold elapsedTimeText. rewrite Htest.
  fold (tenthsOfMillisecond (ofBigInt e)). now rewrite (Hfixed Hlo Hhi).
Qed.

Ltac in_bucket lo hi k checked :=
  apply (elapsedTimeText_subMillisecond lo hi k);
  [ intros Hlo Hhi; eapply (toFixed_0_between lo hi _ k);
    [ vm_compute; reflexivity | vm_compute; reflexivity | vm_compute; reflexivity
    | vm_compute; reflexivity | lia | eassumption | eassumption ]
  | apply (holdsFromBlocks_range _ _ _ _ checked); lia ].

(** Up to half a millisecond the text is "0.", the number of tenths of a
    millisecond nearest to the elapsed time (halves upwards) and "ms". *)
Lemma elapsedTimeText_up_to_half (e : Z) :
  (0 <= e <= 500000)%Z →
  elapsedTimeText e
  = chalk.cyan_bold ("0." +:+ decimal (Z.to_N ((e + 50000) / 100000)) +:+ "ms").
Proof.
  intros He.
  assert (Hcases : (0 <= e < 50000 ∧ (e + 50000) / 100000 = 0)
                   ∨ (50000 <= e < 150000 ∧ (e + 50000) / 100000 = 1)
                   ∨ (150000 <= e < 250000 ∧ (e + 50000) / 100000 = 2)
                   ∨ (250000 <= e < 350000 ∧ (e + 50000) / 100000 = 3)
                   ∨ (350000 <= e < 450000 ∧ (e + 50000) / 100000 = 4)
                   ∨ (450000 <= e < 500000 ∧ (e + 50000) / 100000 = 5)
                   ∨ (e = 500000 ∧ (e + 50000) / 100000 = 5)).
  { pose proof (Z.div_mod (e + 50000) 100000 ltac:(lia)) as Hd.
    pose proof (Z.mod_pos_bound (e + 50000) 100000 ltac:(lia)) as Hm. lia. }
  destruct Hcases as [[Hr ->]|[[Hr ->]|[[Hr ->]|[[Hr ->]|[[Hr ->]|[[Hr ->]|[Hr ->]]]]]]].
  - apply (elapsedTimeText_subMillisecond 0 0.5 0).
    + intros Hlo Hhi. now apply toFixed_0_below_half.
    + apply (holdsFromBlocks_range _ _ _ _ bucket_0); lia.
  - in_bucket 0.5%float 1.5%float 1%Z bucket_1.
  - in_bucket 1.5%float 2.5%float 2%Z bucket_2.
  - in_bucket 2.5%float 3.5%float 3%Z bucket_3.
  - in_bucket 3.5%float 4.5%float 4%Z bucket_4.
  - in_bucket 4.5%float 5.5%float 5%Z bucket_5.
  - in_bucket 4.5%float 5.5%float 5%Z bucket_5_end.
Qed.

(** Above half a millisecond the text is the whole number of milliseconds. *)
Lemma elapsedTimeText_above_half (e : Z) :
  (500000 < e)%Z →
  elapsedTimeText e
  = chalk.dim (toFixed 0 (PrimFloat.div (ofBigInt e) 1000000) +:+ "ms").
Proof.
  intros He. unfold elapsedTimeText. now rewrite above_half.
Qed.

End Elapsed.

Section Reporter.
Context `{chalk.Chalk} `{path.Path}.
Variable NODE_STDLIB_MODULES : list string.
Variable learnMore : string → string.

(** C7.  A done or failed status message is the coloured tag and status,
    then the elapsed time, then the dimmed path and module count.  With a
    start time recorded for the build, the elapsed time is [0.<d>ms], [<d>]
    being the tenths of a millisecond to no decimals, when the elapsed
    milliseconds are at most 0.5, and the whole milliseconds [<n>ms]
    otherwise.  On the nanoseconds of the clock: up to 500000 ns the digit
    is the nearest number of tenths of a millisecond, from 0 to 5, and above
    500000 ns the whole milliseconds are shown.  0.3 ms gives [0.3ms],
    150 ms gives [150ms].  With no start time recorded, there is no time
    segment. *)
Theorem getBundleStatusMessage_elapsed_time
        (self : t) (hrtime : Z) (progress : BundleProgress) (phase : BuildPhase) :
  phase ≠ in_progress →
  let details := bundleDetails progress in
  let status := match phase with done => "Bundled " | _ => "Bundling failed " end in
  let color := match phase with done => chalk.green | _ => chalk.red end in
  let plural := if (totalFileCount progress =? 1)%N then "" else "s" in
  let front := color (platformTag details +:+ status) in
  let back :=
    chalk.reset_dim (" " +:+ localPathOf self progress +:+ " (" +:+
                     decimal (totalFileCount progress) +:+ " module" +:+ plural +:+ ")") in
  (∀ startTime, _bundleTimers self !! buildID details = Some startTime →
     let elapsed := (hrtime - startTime)%Z in
     let converted := PrimFloat.div (ofBigInt elapsed) 1000000 in
     let tenths := PrimFloat.div (PrimFloat.mul (PrimFloat.div (ofBigInt elapsed) 1000) 10) 1000 in
     _getBundleStatusMessage self hrtime progress phase =
       inr (front +:+
            (if PrimFloat.leb converted 0.5
             then chalk.cyan_bold ("0." +:+ toFixed 0 tenths +:+ "ms")
             else chalk.dim (toFixed 0 converted +:+ "ms")) +:+
            back)
     ∧ ((0 <= elapsed <= 500000)%Z →
          (0 <= (elapsed + 50000) / 100000 <= 5)%Z
          ∧ _getBundleStatusMessage self hrtime progress phase =
              inr (front +:+
                   chalk.cyan_bold
                     ("0." +:+ decimal (Z.to_N ((elapsed + 50000) / 100000)) +:+ "ms") +:+
                   back))
     ∧ ((500000 < elapsed)%Z →
          _getBundleStatusMessage self hrtime progress phase =
            inr (front +:+ chalk.dim (toFixed 0 converted +:+ "ms") +:+ back)))
  ∧ (_bundleTimers self !! buildID details = None →
       _getBundleStatusMessage self hrtime progress phase = inr (front +:+ back))
  ∧ elapsedTimeText 300000 = chalk.cyan_bold "0.3ms"
  ∧ elapsedTimeText 150000000 = chalk.dim "150ms".
Proof.
  intros Hphase. cbv zeta.
  refine (conj _ (conj _ (conj _ _))).
  - intros startTime Hstart.
    assert (Hmessage :
      _getBundleStatusMessage self hrtime progress phase
      = inr (match phase with done => chalk.green | _ => chalk.red end
               (platformTag (bundleDetails progress) +:+
                match phase with done => "Bundled " | _ => "Bundling failed " end) +:+
             elapsedTimeText (hrtime - startTime) +:+
             chalk.reset_dim
               (" " +:+ localPathOf self progress +:+ " (" +:+
                decimal (totalFileCount progress) +:+ " module" +:+
                (if (totalFileCount progress =? 1)%N then "" else "s") +:+ ")"))).
    { unfold _getBundleStatusMessage. rewrite Hstart.
      destruct phase; [now destruct Hphase | reflexivity | reflexivity]. }
    refine (conj _ (conj _ _)).
    + exact Hmessage.
    + intros Helapsed. split.
      * split; [apply Z.div_pos; lia | apply Z.lt_succ_r, Z.div_lt_upper_bound; lia].
      * now rewrite Hmessage, (elapsedTimeText_up_to_half _ Helapsed).
    + intros Helapsed.
      now rewrite Hmessage, (elapsedTimeText_above_half _ Helapsed).
  - intros Hstart.
    unfold _getBundleStatusMessage. rewrite Hstart.
    destruct phase; [now destruct Hphase | reflexivity | reflexivity].
  - reflexivity.
  - reflexivity.
Qed.


(** C10.  [formatUsingNodeStandardLibraryError] returns null exactly when
    the message, the target module name or the origin module path is
    missing (absent or empty).  When the three are there and the target is
    not a Node standard library module, it returns the
    [Unable to resolve] line, and [_logBundlingError] prints a message that
    starts with it on the terminal instead of calling the base reporter. *)
Theorem formatUsingNodeStandardLibraryError_null_iff (self : t) (error : SnippetError) :
  (formatUsingNodeStandardLibraryError NODE_STDLIB_MODULES learnMore (projectRoot self) error
     = None ↔
   missing (message error) ∨ missing (targetModuleName error)
   ∨ missing (originModulePath error))
  ∧ (∀ target origin,
       ¬ missing (message error) →
       targetModuleName error = Some target → target ≠ "" →
       originModulePath error = Some origin → origin ≠ "" →
       isNodeStdLibraryModule NODE_STDLIB_MODULES target = false →
       let line := "Unable to resolve " +:+ QUOTE +:+ target +:+ QUOTE +:+ " from " +:+
                   QUOTE +:+ path.relative (projectRoot self) origin +:+ QUOTE in
       formatUsingNodeStandardLibraryError NODE_STDLIB_MODULES learnMore
         (projectRoot self) error = Some line
       ∧ (∃ printed, _logBundlingError NODE_STDLIB_MODULES learnMore self error
                       = terminal_log printed
                     ∧ startsWith printed line = true)
       ∧ ∀ passed, _logBundlingError NODE_STDLIB_MODULES learnMore self error
                     ≠ super_logBundlingError passed).
Proof.
  split.
  - unfold formatUsingNodeStandardLibraryError.
    rewrite <- !truthy_false.
    destruct (truthy (message error)); simpl.
    2: { split; [now left | reflexivity]. }
    destruct (truthy (targetModuleName error)); simpl.
    2: { split; [right; now left | reflexivity]. }
    destruct (truthy (originModulePath error)); simpl.
    2: { split; [right; now right | reflexivity]. }
    split.
    + destruct (isNodeStdLibraryModule _ _); [destruct (includes _ _)|]; discriminate.
    + intros [Hm | [Hm | Hm]]; discriminate Hm.
  - intros target origin Hmsg Htarget Htne Horigin Hone Hstd. cbv zeta.
    assert (Hfmt : formatUsingNodeStandardLibraryError NODE_STDLIB_MODULES learnMore
                     (projectRoot self) error
                   = Some ("Unable to resolve " +:+ QUOTE +:+ target +:+ QUOTE +:+ " from " +:+
                           QUOTE +:+ path.relative (projectRoot self) origin +:+ QUOTE)).
    { unfold formatUsingNodeStandardLibraryError.
      rewrite <- truthy_false in Hmsg.
      destruct (truthy (message error)); [|now destruct Hmsg]. simpl.
      rewrite Htarget, Horigin.
      destruct target as [|c1 t1]; [now destruct Htne|].
      destruct origin as [|c2 o2]; [now destruct Hone|].
      simpl. simpl in Hstd. now rewrite Hstd. }
    split; [exact Hfmt|].
    unfold _logBundlingError. rewrite Hfmt.
    set (line := "Unable to resolve " +:+ _).
    assert (Hline : ∃ rest, line = String "U" rest) by (eexists; reflexivity).
    destruct Hline as [rest Hline]. clearbody line. subst line. cbv iota.
    destruct (maybeAppendCodeFrame_extends (String "U" rest) (text (message error)))
      as [frame ->].
    split.
    + destruct (importStackOf error) as [stack|]; eexists; (split; [reflexivity|]).
      * rewrite append_assoc. apply prefix_append.
      * apply prefix_append.
    + intros passed. destruct (importStackOf error); discriminate.
Qed.

End Reporter.

(** The sample build, finished 150 ms after its start, with colours off and
    POSIX paths. *)
Lemma getBundleStatusMessage_elapsed_time_witness :
  @_getBundleStatusMessage chalk.plain (path.posix "/") sampleReporter 150001000
     sampleProgress done
  = inr "iOS Bundled 150ms path/to/bundle.js (7922 modules)".
Proof.
  pose proof (@getBundleStatusMessage_elapsed_time chalk.plain (path.posix "/")
                sampleReporter 150001000 sampleProgress done
                ltac:(discriminate)) as Hw.
  cbv zeta in Hw. destruct Hw as [Hrecorded _].
  destruct (Hrecorded 1000%Z eq_refl) as [Hmessage _].
  rewrite Hmessage. vm_compute. reflexivity.
Defined.


(** Other elapsed times, on binary64 values. *)
Example elapsedTimeText_samples :
  @elapsedTimeText chalk.plain 0 = "0.0ms"
  ∧ @elapsedTimeText chalk.plain 49999 = "0.0ms"
  ∧ @elapsedTimeText chalk.plain 50000 = "0.1ms"
  ∧ @elapsedTimeText chalk.plain 449999 = "0.4ms"
  ∧ @elapsedTimeText chalk.plain 500000 = "0.5ms"
  ∧ @elapsedTimeText chalk.plain 500001 = "1ms"
  ∧ @elapsedTimeText chalk.plain 1499999 = "1ms"
  ∧ @elapsedTimeText chalk.plain 1500000 = "2ms".
Proof. vm_compute. repeat split. Qed.

(** A ratio outside of the unit interval makes [repeat] raise. *)
Example progressBar_out_of_range :
  @_getBundleStatusMessage chalk.plain (path.posix "/") sampleReporter 0
     {| bundleDetails := sampleDetails; transformedFileCount := 1;
        totalFileCount := 2; ratio := PrimFloat.div 6 5 |} in_progress
  = inl RangeError.
Proof. vm_compute. reflexivity. Qed.

(** A source-map build is filtered, a bundle build is not. *)
Example shouldFilterBundleEvent_samples :
  shouldFilterBundleEvent
    {| type := "bundle_build_started";
       event_bundleDetails :=
         Held (Some {| entryFile := "index.js"; platform := Some "ios"; buildID := None;
                       customTransformOptions := None; bundleType := "map" |}) |} = true
  ∧ shouldFilterBundleEvent
      {| type := "bundle_build_started"; event_bundleDetails := Held (Some sampleDetails) |}
    = false
  ∧ shouldFilterBundleEvent
      {| type := "bundle_build_done"; event_bundleDetails := Missing |} = false.
Proof. repeat split. Qed.

(** A module that is not part of the standard library, and one that is. *)
Example formatUsingNodeStandardLibraryError_samples :
  @formatUsingNodeStandardLibraryError chalk.plain (path.posix "/")
     sampleStdlibModules sampleLearnMore "/app" (sampleError "lodash")
  = Some ("Unable to resolve " +:+ QUOTE +:+ "lodash" +:+ QUOTE +:+ " from " +:+
          QUOTE +:+ "src/index.js" +:+ QUOTE)
  ∧ @_logBundlingError chalk.plain (path.posix "/")
       sampleStdlibModules sampleLearnMore sampleReporter (sampleError "lodash")
    = terminal_log ("Unable to resolve " +:+ QUOTE +:+ "lodash" +:+ QUOTE +:+ " from " +:+
                    QUOTE +:+ "src/index.js" +:+ QUOTE)
  ∧ @formatUsingNodeStandardLibraryError chalk.plain (path.posix "/")
       sampleStdlibModules sampleLearnMore "/app" (sampleError "node:fs")
    = Some (join (String "010" "")
              [ "You attempted to import the Node standard library module " +:+ QUOTE +:+
                "node:fs" +:+ QUOTE +:+ " from " +:+ QUOTE +:+ "src/index.js" +:+ QUOTE +:+ ".";
                "It failed because the native React runtime does not include the Node standard library.";
                "Learn more: https://docs.expo.dev/workflow/using-libraries/#using-third-party-libraries" ]).
Proof. vm_compute. repeat split. Qed.

End MetroTerminalReporterProps.

(** ** More properties of the string functions *)

Module JsStringFacts.
Import JsString JsStringProps JsLines.
#[local] Arguments String.append : simpl nomatch.

Lemma prefix_nil (s : string) : String.prefix "" s = true.
Proof. now destruct s. Qed.

Lemma prefix_cons (x y : ascii) (a s : string) :
  String.prefix (String x a) (String y s) = Ascii.eqb x y && String.prefix a s.
Proof.
  simpl. destruct (ascii_dec x y) as [->|Hne].
  - now rewrite Ascii.eqb_refl.
  - apply Ascii.eqb_neq in Hne. now rewrite Hne.
Qed.

Lemma prefix_spec (a s : string) : String.prefix a s = true ↔ ∃ b, s = a +:+ b.
Proof.
  split.
  - revert s. induction a as [|x a IH]; intros s Hp.
    + now exists s.
    + destruct s as [|y s]; [discriminate|].
      rewrite prefix_cons in Hp. apply andb_true_iff in Hp as [Hxy Hp].
      apply Ascii.eqb_eq in Hxy as ->. destruct (IH s Hp) as [b ->]. now exists b.
  - intros [b ->]. apply prefix_append.
Qed.

Lemma includes_spec (h n : string) :
  includes h n = true ↔ ∃ a b, h = a +:+ n +:+ b.
Proof.
  split.
  - induction h as [|x h IH]; cbn [includes]; intros Hi.
    + rewrite orb_false_r in Hi. apply prefix_spec in Hi as [b ->]. now exists "", b.
    + apply orb_true_iff in Hi as [Hp|Hr].
      * apply prefix_spec in Hp as [b ->]. now exists "", b.
      * destruct (IH Hr) as (a & b & ->). now exists (String x a), b.
  - intros (a & b & ->). induction a as [|x a IH].
    + change ("" +:+ n +:+ b) with (n +:+ b).
      destruct (n +:+ b) eqn:E; cbn [includes]; rewrite <- ?E, prefix_append; reflexivity.
    + change (String x a +:+ n +:+ b) with (String x (a +:+ n +:+ b)).
      cbn [includes]. rewrite IH. apply orb_true_r.
Qed.

Lemma includes_append_l (a b n : string) : includes a n = true → includes (a +:+ b) n = true.
Proof.
  rewrite !includes_spec. intros (x & y & ->). exists x, (y +:+ b).
  now rewrite !append_assoc.
Qed.

Lemma includes_append_r (a b n : string) : includes b n = true → includes (a +:+ b) n = true.
Proof.
  rewrite !includes_spec. intros (x & y & ->). exists (a +:+ x), y.
  now rewrite !append_assoc.
Qed.

(** *** [split] and [join] *)

Lemma splitOn_nonempty (c : ascii) (s : string) : splitOn c s ≠ [].
Proof.
  destruct s as [|x rest]; cbn [splitOn]; [discriminate|].
  destruct (Ascii.eqb x c); [discriminate|]. now destruct (splitOn c rest).
Qed.

Lemma join_cons (sep x : string) (y : string) (l : list string) :
  join sep (x :: y :: l) = x +:+ sep +:+ join sep (y :: l).
Proof. reflexivity. Qed.

(** Joining the pieces of a split gives the string back. *)
Lemma join_splitOn (c : ascii) (s : string) : join (String c "") (splitOn c s) = s.
Proof.
  induction s as [|x rest IH]; [reflexivity|].
  cbn [splitOn]. pose proof (splitOn_nonempty c rest) as Hne.
  destruct (Ascii.eqb_spec x c) as [->|Hxc].
  - destruct (splitOn c rest) as [|l ls]; [now destruct Hne|].
    rewrite join_cons, IH. reflexivity.
  - destruct (splitOn c rest) as [|l ls]; [now destruct Hne|].
    destruct ls as [|l' ls].
    + cbn in IH |- *. now rewrite IH.
    + rewrite join_cons in IH |- *. rewrite <- IH. reflexivity.
Qed.

Lemma splitOn_lacks (c : ascii) (s : string) : lacks c s = true → splitOn c s = [s].
Proof.
  induction s as [|x rest IH]; [reflexivity|].
  cbn [lacks splitOn]. intros Hl. apply andb_true_iff in Hl as [Hx Hrest].
  apply negb_true_iff in Hx. rewrite Hx, (IH Hrest). reflexivity.
Qed.

Lemma splitOn_append (c : ascii) (a b : string) :
  lacks c a = true → splitOn c (a +:+ String c b) = a :: splitOn c b.
Proof.
  induction a as [|x a IH]; cbn [lacks]; intros Hl.
  - change ("" +:+ String c b) with (String c b). cbn [splitOn].
    now rewrite Ascii.eqb_refl.
  - apply andb_true_iff in Hl as [Hx Ha]. apply negb_true_iff in Hx.
    change (String x a +:+ String c b) with (String x (a +:+ String c b)).
    cbn [splitOn]. rewrite Hx, (IH Ha). reflexivity.
Qed.

(** Splitting the join of pieces without the separator gives the pieces. *)
Lemma splitOn_join (c : ascii) (l : list string) :
  l ≠ [] → Forall (λ s, lacks c s = true) l → splitOn c (join (String c "") l) = l.
Proof.
  intros Hne Hall. induction Hall as [|x l Hx Hall IH]; [now destruct Hne|].
  destruct l as [|y l].
  - now apply splitOn_lacks.
  - rewrite join_cons.
    change (x +:+ String c "" +:+ join (String c "") (y :: l))
      with (x +:+ String c (join (String c "") (y :: l))).
    rewrite (splitOn_append c x _ Hx), IH by discriminate. reflexivity.
Qed.

(** *** A text in a line of a string *)

Lemma prefix_first_line (c : ascii) (n s : string) :
  lacks c n = true → String.prefix n s = true →
  ∃ l ls, splitOn c s = l :: ls ∧ String.prefix n l = true.
Proof.
  revert s. induction n as [|x n IH]; intros s Hl Hp.
  - pose proof (splitOn_nonempty c s) as Hne.
    destruct (splitOn c s) as [|l ls]; [now destruct Hne|]. exists l, ls.
    split; [reflexivity | apply prefix_nil].
  - destruct s as [|y s]; [discriminate|].
    rewrite prefix_cons in Hp. apply andb_true_iff in Hp as [Hxy Hp].
    apply Ascii.eqb_eq in Hxy as <-.
    cbn [lacks] in Hl. apply andb_true_iff in Hl as [Hx Hn].
    apply negb_true_iff in Hx.
    destruct (IH s Hn Hp) as (l & ls & Es & Hpl).
    cbn [splitOn]. rewrite Hx, Es. exists (String x l), ls.
    split; [reflexivity|]. rewrite prefix_cons, Ascii.eqb_refl. exact Hpl.
Qed.

Lemma includes_prefix (s n : string) : String.prefix n s = true → includes s n = true.
Proof. intros Hp. destruct s; cbn [includes]; now rewrite Hp. Qed.

Lemma includes_cons (x : ascii) (s n : string) :
  includes s n = true → includes (String x s) n = true.
Proof. intros Hi. cbn [includes]. rewrite Hi. apply orb_true_r. Qed.

(** A text without the separator that a string includes is included in one
    of the pieces of the string. *)
Lemma includes_some_line (c : ascii) (n s : string) :
  lacks c n = true → includes s n = true →
  existsb (λ line, includes line n) (splitOn c s) = true.
Proof.
  intros Hn. induction s as [|x s IH]; intros Hi.
  - cbn [splitOn existsb]. now rewrite Hi.
  - cbn [includes] in Hi. apply orb_true_iff in Hi as [Hp|Hr].
    + destruct (prefix_first_line c n _ Hn Hp) as (l & ls & -> & Hpl).
      cbn [existsb]. now rewrite (includes_prefix _ _ Hpl).
    + specialize (IH Hr). cbn [splitOn].
      destruct (Ascii.eqb x c).
      * cbn [existsb]. rewrite IH. apply orb_true_r.
      * destruct (splitOn c s) as [|l ls]; [discriminate|].
        cbn [existsb] in IH |- *. apply orb_true_iff in IH as [Hl|Hls].
        -- now rewrite (includes_cons x _ _ Hl).
        -- rewrite Hls. apply orb_true_r.
Qed.

Lemma findIndex_existsb {A} (p : A → bool) (l : list A) :
  existsb p l = true → ∃ i, findIndex p l = Some i.
Proof.
  induction l as [|x l IH]; [discriminate|].
  cbn [existsb findIndex]. destruct (p x); [now exists 0%nat|].
  intros Hl. destruct (IH Hl) as [i ->]. now exists (S i).
Qed.

Lemma findIndex_app {A} (p : A → bool) (before after : list A) (x : A) :
  Forall (λ y, p y = false) before → p x = true →
  findIndex p (before ++ x :: after) = Some (length before).
Proof.
  intros Hb Hx. induction Hb as [|y l Hy Hb IH]; cbn [app findIndex length].
  - now rewrite Hx.
  - now rewrite Hy, IH.
Qed.

End JsStringFacts.

(** ** The code frame of a bundling error *)

Module CodeFrameFacts.
Import JsString JsStringProps JsLines JsStringFacts MetroTerminalReporter.
#[local] Arguments String.append : simpl nomatch.

Lemma findIndex_Some {A} (p : A → bool) (l : list A) (i : nat) :
  findIndex p l = Some i →
  ∃ before x after,
    l = before ++ x :: after ∧ length before = i ∧ p x = true
    ∧ Forall (λ y, p y = false) before.
Proof.
  revert i. induction l as [|y l IH]; intros i; [discriminate|].
  cbn [findIndex]. destruct (p y) eqn:Hy.
  - intros [= <-]. exists [], y, l. now repeat split.
  - destruct (findIndex p l) as [j|]; [|discriminate].
    intros [= <-]. destruct (IH j eq_refl) as (before & x & after & -> & Hlen & Hx & Hall).
    exists (y :: before), x, after. cbn [length]. repeat split; auto.
Qed.

Lemma join_app (sep : string) (a b : list string) :
  a ≠ [] → b ≠ [] → join sep (a ++ b) = join sep a +:+ sep +:+ join sep b.
Proof.
  intros Ha Hb. induction a as [|x a IH]; [now destruct Ha|].
  destruct a as [|y a].
  - destruct b as [|z b]; [now destruct Hb|]. reflexivity.
  - change ((x :: y :: a) ++ b) with (x :: y :: (a ++ b)).
    rewrite !join_cons. change (y :: a ++ b) with ((y :: a) ++ b).
    rewrite IH by discriminate. now rewrite !append_assoc.
Qed.

Lemma includes_join (sep n line : string) (before after : list string) :
  includes line n = true → includes (join sep (before ++ [line])) n = true.
Proof.
  intros Hl. induction before as [|x before IH]; [exact Hl|].
  change ((x :: before) ++ [line]) with (x :: (before ++ [line])).
  destruct (before ++ [line]) as [|y l] eqn:E; [now destruct before|].
  rewrite join_cons. now apply includes_append_r, includes_append_r.
Qed.

Lemma lacks_CACHE_STEP : lacks "010" CACHE_STEP = true.
Proof. reflexivity. Qed.

(** What [stripMetroInfo] answers, on the lines of the message: without a
    line that includes the marker, nothing; otherwise the lines after the
    first such line. *)
Lemma stripMetroInfo_lines (errorMessage : string) :
  (includes errorMessage CACHE_STEP = false ∧ stripMetroInfo errorMessage = None)
  ∨ ∃ before line after,
      splitLines errorMessage = before ++ line :: after
      ∧ Forall (λ l, includes l CACHE_STEP = false) before
      ∧ includes line CACHE_STEP = true
      ∧ includes errorMessage CACHE_STEP = true
      ∧ stripMetroInfo errorMessage = Some (join (String "010" "") after).
Proof.
  unfold stripMetroInfo. fold CACHE_STEP.
  destruct (includes errorMessage CACHE_STEP) eqn:Hi; [right | now left].
  cbn [negb].
  pose proof (includes_some_line "010" CACHE_STEP errorMessage lacks_CACHE_STEP Hi) as He.
  destruct (findIndex_existsb _ _ He) as [i Hfind]. fold (splitLines errorMessage) in Hfind.
  rewrite Hfind.
  destruct (findIndex_Some _ _ _ Hfind) as (before & line & after & El & Hlen & Hline & Hb).
  exists before, line, after. rewrite El, <- Hlen.
  refine (conj eq_refl (conj Hb (conj Hline (conj eq_refl _)))).
  replace (drop (S (length before)) (before ++ line :: after)) with after; [reflexivity|].
  change (line :: after) with ([line] ++ after). rewrite app_assoc.
  symmetry. apply drop_app_length'. rewrite length_app. cbn. lia.
Qed.

Lemma splitOn_join_append (c : ascii) (l : list string) (rest : string) :
  l ≠ [] → Forall (λ s, lacks c s = true) l →
  splitOn c (join (String c "") l +:+ String c rest) = l ++ splitOn c rest.
Proof.
  intros Hne Hall. induction Hall as [|x l Hx Hall IH]; [now destruct Hne|].
  destruct l as [|y l].
  - change (join (String c "") [x]) with x. now rewrite splitOn_append.
  - rewrite join_cons, !append_assoc.
    change (String c "" +:+ ?s) with (String c s).
    rewrite (splitOn_append c x _ Hx), IH by discriminate. reflexivity.
Qed.

Lemma stripMetroInfo_of_lines (before : list string) (line : string)
      (after : list string) (errorMessage : string) :
  splitLines errorMessage = before ++ line :: after →
  Forall (λ l, includes l CACHE_STEP = false) before →
  includes line CACHE_STEP = true →
  includes errorMessage CACHE_STEP = true →
  stripMetroInfo errorMessage = Some (join (String "010" "") after).
Proof.
  intros El Hb Hline Hi. unfold stripMetroInfo. fold CACHE_STEP. rewrite Hi. cbn [negb].
  rewrite El, (findIndex_app _ before after line Hb Hline).
  replace (drop (S (length before)) (before ++ line :: after)) with after; [reflexivity|].
  change (line :: after) with ([line] ++ after). rewrite app_assoc.
  symmetry. apply drop_app_length'. rewrite length_app. cbn. lia.
Qed.

(** The message up to the marker line, then a line break and any text:
    [stripMetroInfo] gives the text. *)
Lemma stripMetroInfo_after (before : list string) (line rest : string) :
  Forall (λ l, lacks "010" l = true) before → lacks "010" line = true →
  Forall (λ l, includes l CACHE_STEP = false) before →
  includes line CACHE_STEP = true →
  stripMetroInfo (join (String "010" "") (before ++ [line]) +:+ String "010" rest)
  = Some rest.
Proof.
  intros Hlb Hll Hb Hline.
  assert (Hne : before ++ [line] ≠ []) by now destruct before.
  assert (Hall : Forall (λ s, lacks "010" s = true) (before ++ [line])).
  { apply Forall_app. split; [exact Hlb | now constructor]. }
  rewrite (stripMetroInfo_of_lines before line (splitLines rest)).
  - unfold splitLines. now rewrite join_splitOn.
  - unfold splitLines. rewrite (splitOn_join_append _ _ rest Hne Hall).
    now rewrite <- app_assoc.
  - exact Hb.
  - exact Hline.
  - apply includes_append_l, (includes_join _ _ _ before []), Hline.
Qed.

Lemma stripMetroInfo_last (before : list string) (line : string) :
  Forall (λ l, lacks "010" l = true) before → lacks "010" line = true →
  Forall (λ l, includes l CACHE_STEP = false) before →
  includes line CACHE_STEP = true →
  stripMetroInfo (join (String "010" "") (before ++ [line])) = Some "".
Proof.
  intros Hlb Hll Hb Hline.
  assert (Hne : before ++ [line] ≠ []) by now destruct before.
  assert (Hall : Forall (λ s, lacks "010" s = true) (before ++ [line])).
  { apply Forall_app. split; [exact Hlb | now constructor]. }
  rewrite (stripMetroInfo_of_lines before line []).
  - reflexivity.
  - unfold splitLines. now rewrite (splitOn_join _ _ Hne Hall).
  - exact Hb.
  - exact Hline.
  - apply (includes_join _ _ _ before []), Hline.
Qed.

(** The code frame is the end of the message, after a line break that
    follows the marker. *)
Lemma stripMetroInfo_suffix (errorMessage frame : string) :
  stripMetroInfo errorMessage = Some frame →
  (frame = "" ∨ ∃ head, errorMessage = head +:+ String "010" frame
                        ∧ includes head CACHE_STEP = true).
Proof.
  intros Hs.
  destruct (stripMetroInfo_lines errorMessage)
    as [[_ Hn]|(before & line & after & El & Hb & Hline & Hi & Hsome)]; [congruence|].
  rewrite Hsome in Hs. injection Hs as <-.
  destruct after as [|a after]; [now left | right].
  exists (join (String "010" "") (before ++ [line])). split.
  - rewrite <- (join_splitOn "010" errorMessage) at 1.
    fold (splitLines errorMessage). rewrite El.
    change (line :: a :: after) with ([line] ++ a :: after).
    rewrite app_assoc, join_app; [reflexivity | now destruct before | discriminate].
  - apply (includes_join _ _ _ before []), Hline.
Qed.

End CodeFrameFacts.

(** ** The path of a DOM component *)

Module LocalPathFacts.
Import JsString JsStringProps JsLines JsStringFacts MetroTerminalReporter MetroTerminalReporterLog.
#[local] Arguments String.append : simpl nomatch.

Ltac each_byte c :=
  let b0 := fresh in let b1 := fresh in let b2 := fresh in let b3 := fresh in
  let b4 := fresh in let b5 := fresh in let b6 := fresh in let b7 := fresh in
  destruct c as [b0 b1 b2 b3 b4 b5 b6 b7];
  destruct b0, b1, b2, b3, b4, b5, b6, b7.

(** The regular expression, one group at a time. *)
Lemma stripLeadingDots_eq (s : string) :
  stripLeadingDots s =
  match s with
  | String c1 (String c2 r2) =>
      if Ascii.eqb c1 "." then
        if (Ascii.eqb c2 "/" || Ascii.eqb c2 "\") then stripLeadingDots r2
        else if Ascii.eqb c2 "." then
          match r2 with
          | String c3 r3 => if (Ascii.eqb c3 "/" || Ascii.eqb c3 "\") then stripLeadingDots r3 else s
          | EmptyString => s
          end
        else s
      else s
  | _ => s
  end.
Proof.
  destruct s as [|c1 [|c2 r2]]; [reflexivity| |].
  - each_byte c1; reflexivity.
  - each_byte c1; try reflexivity.
    each_byte c2; reflexivity.
Qed.

Lemma startsWithDotSegment_cons (c : ascii) (s : string) :
  Ascii.eqb c "." = false → startsWithDotSegment (String c s) = false.
Proof.
  intros Hc. unfold startsWithDotSegment, startsWith.
  rewrite !prefix_cons, (Ascii.eqb_sym "." c), Hc. reflexivity.
Qed.

Lemma startsWithDotSegment_dot (c : ascii) (s : string) :
  startsWithDotSegment (String "." (String c s))
  = (Ascii.eqb c "/" || Ascii.eqb c "\")
    || (Ascii.eqb c "." &&
        match s with
        | String c3 _ => Ascii.eqb c3 "/" || Ascii.eqb c3 "\"
        | EmptyString => false
        end).
Proof.
  unfold startsWithDotSegment, startsWith. rewrite !prefix_cons, !prefix_nil.
  rewrite !(Ascii.eqb_sym _ c). cbn [Ascii.eqb Bool.eqb andb].
  destruct (Ascii.eqb c "/") eqn:E1, (Ascii.eqb c "\") eqn:E2, (Ascii.eqb c ".") eqn:E3;
    cbn [andb orb]; try reflexivity;
    try (apply Ascii.eqb_eq in E1; apply Ascii.eqb_eq in E3; congruence);
    try (apply Ascii.eqb_eq in E2; apply Ascii.eqb_eq in E3; congruence).
  destruct s as [|c3 r3]; [reflexivity|].
  rewrite !prefix_cons, !prefix_nil, !(Ascii.eqb_sym _ c3), !andb_true_r.
  now destruct (Ascii.eqb c3 "/"), (Ascii.eqb c3 "\").
Qed.

(** What is left has no leading group, and is the end of the string. *)
Lemma stripLeadingDots_spec (n : nat) (s : string) :
  (String.length s <= n)%nat →
  startsWithDotSegment (stripLeadingDots s) = false
  ∧ ∃ head, s = head +:+ stripLeadingDots s.
Proof.
  revert s. induction n as [|n IH]; intros s Hlen.
  - destruct s; [|cbn in Hlen; lia]. split; [reflexivity | now exists ""].
  - rewrite stripLeadingDots_eq.
    destruct s as [|c1 [|c2 r2]].
    + split; [reflexivity | now exists ""].
    + split; [|now exists ""].
      destruct (Ascii.eqb c1 ".") eqn:E1; [|now apply startsWithDotSegment_cons].
      apply Ascii.eqb_eq in E1 as ->. reflexivity.
    + destruct (Ascii.eqb c1 ".") eqn:E1.
      2: { split; [now apply startsWithDotSegment_cons | now exists ""]. }
      apply Ascii.eqb_eq in E1 as ->.
      destruct (Ascii.eqb c2 "/" || Ascii.eqb c2 "\") eqn:E2.
      { destruct (IH r2) as [Hno [head Hhead]]; [cbn in Hlen |- *; lia|].
        split; [exact Hno|]. exists (String "." (String c2 head)).
        cbn [String.append]. now rewrite <- Hhead. }
      destruct (Ascii.eqb c2 ".") eqn:E3.
      2: { split; [|now exists ""]. rewrite startsWithDotSegment_dot, E2, E3. reflexivity. }
      destruct r2 as [|c3 r3].
      { split; [|now exists ""]. rewrite startsWithDotSegment_dot, E2, E3. reflexivity. }
      destruct (Ascii.eqb c3 "/" || Ascii.eqb c3 "\") eqn:E4.
      { destruct (IH r3) as [Hno [head Hhead]]; [cbn in Hlen |- *; lia|].
        split; [exact Hno|]. exists (String "." (String c2 (String c3 head))).
        cbn [String.append]. now rewrite <- Hhead. }
      split; [|now exists ""]. rewrite startsWithDotSegment_dot, E2, E3, E4. reflexivity.
Qed.

(** A path without a leading group is left as it is. *)
Lemma stripLeadingDots_fixed (s : string) :
  startsWithDotSegment s = false → stripLeadingDots s = s.
Proof.
  intros Hs. rewrite stripLeadingDots_eq.
  destruct s as [|c1 [|c2 r2]]; [reflexivity|reflexivity|].
  destruct (Ascii.eqb c1 ".") eqn:E1; [|reflexivity].
  apply Ascii.eqb_eq in E1 as ->. rewrite startsWithDotSegment_dot in Hs.
  apply orb_false_iff in Hs as [-> Hs].
  destruct (Ascii.eqb c2 "."); [|reflexivity].
  destruct r2 as [|c3 r3]; [reflexivity|]. cbn [andb] in Hs. now rewrite Hs.
Qed.

End LocalPathFacts.

(** ** Trimming *)

Module TrimFacts.
Import JsString JsStringProps JsLines JsStringFacts.
#[local] Arguments String.append : simpl nomatch.

Lemma rev_app_append (s acc : string) : String.rev_app s acc = String.rev s +:+ acc.
Proof.
  unfold String.rev. revert acc. induction s as [|c s IH]; intros acc; [reflexivity|].
  cbn [String.rev_app]. rewrite (IH (String c acc)), (IH (String c "")).
  now rewrite append_assoc.
Qed.

Lemma rev_append (a b : string) : String.rev (a +:+ b) = String.rev b +:+ String.rev a.
Proof.
  induction a as [|c a IH].
  - change ("" +:+ b) with b. now rewrite append_nil_r.
  - change (String c a +:+ b) with (String c (a +:+ b)).
    unfold String.rev at 1 3. cbn [String.rev_app].
    rewrite !rev_app_append, IH. now rewrite append_assoc.
Qed.

Lemma rev_involutive (s : string) : String.rev (String.rev s) = s.
Proof.
  induction s as [|c s IH]; [reflexivity|].
  change (String c s) with (String c "" +:+ s) at 1.
  rewrite rev_append, rev_append, IH. reflexivity.
Qed.

Lemma length_append (a b : string) :
  String.length (a +:+ b) = (String.length a + String.length b)%nat.
Proof. induction a as [|c a IH]; [reflexivity|]. cbn [String.append String.length]. now rewrite IH. Qed.

(** A space after a text does not make the start of the text a white
    space. *)
Lemma afterSpace_append_space (tag : string) :
  tag ≠ "" → afterSpace tag = None → afterSpace (tag +:+ " ") = None.
Proof.
  intros Hne Hnone.
  destruct tag as [|c [|c2 [|c3 r3]]]; [now destruct Hne| | |].
  - cbn [String.append]. unfold afterSpace in *.
    change (nat_of_ascii " ") with 32%nat.
    destruct (_ || _); [discriminate|].
    cbn [Nat.eqb andb]. now rewrite andb_false_r.
  - cbn [String.append]. unfold afterSpace in *.
    change (nat_of_ascii " ") with 32%nat.
    destruct (_ || _); [discriminate|].
    destruct (_ && _); [discriminate|].
    cbn [Nat.eqb Nat.leb andb orb]. now rewrite !andb_false_r.
  - cbn [String.append]. unfold afterSpace in *. cbv zeta in *.
    repeat match type of Hnone with
           | context [if ?b then _ else _] => destruct b
           end; solve [discriminate Hnone | reflexivity].
Qed.

Lemma trimStartFuel_none (fuel : nat) (s : string) :
  afterSpace s = None → trimStartFuel fuel s = s.
Proof. intros Hs. destruct fuel; cbn [trimStartFuel]; [reflexivity | now rewrite Hs]. Qed.

Lemma trimEndFuel_none (fuel : nat) (s : string) :
  beforeSpace s = None → trimEndFuel fuel s = s.
Proof. intros Hs. destruct fuel; cbn [trimEndFuel]; [reflexivity | now rewrite Hs]. Qed.

(** [(tag + ' ').trim()] is [tag], for a text that neither starts nor ends
    with white space. *)
Lemma trim_append_space (tag : string) :
  tag ≠ "" → afterSpace tag = None → beforeSpace (String.rev tag) = None →
  trim (tag +:+ " ") = tag.
Proof.
  intros Hne Hstart Hend. unfold trim, trimStart.
  rewrite (trimStartFuel_none _ _ (afterSpace_append_space tag Hne Hstart)).
  unfold trimEnd. rewrite rev_append, length_append.
  change (String.rev " ") with " ". change (" " +:+ String.rev tag) with (String " " (String.rev tag)).
  replace (String.length tag + String.length " ")%nat with (S (String.length tag))
    by (cbn [String.length]; lia).
  cbn [trimEndFuel].
  change (beforeSpace (String " " (String.rev tag))) with (Some (String.rev tag)).
  cbv beta iota.
  rewrite (trimEndFuel_none _ _ Hend). apply rev_involutive.
Qed.

End TrimFacts.

(** ** The width of a decimal number *)

Module DecimalWidth.
Import JsString JsStringProps JsNumber TrimFacts.
#[local] Arguments String.append : simpl nomatch.

Lemma length_string_of_uint (d : Decimal.uint) :
  String.length (NilEmpty.string_of_uint d) = Decimal.nb_digits d.
Proof. induction d; cbn [NilEmpty.string_of_uint String.length Decimal.nb_digits]; congruence. Qed.

Lemma to_uint_rev (n : N) : N.to_uint n = Decimal.rev (DecimalPos.Unsigned.to_lu n).
Proof. now destruct n. Qed.

Lemma length_decimal (n : N) :
  String.length (decimal n) = Decimal.nb_digits (DecimalPos.Unsigned.to_lu n).
Proof.
  unfold decimal, NilZero.string_of_uint.
  rewrite <- DecimalFacts.nb_digits_rev, <- to_uint_rev.
  destruct (N.to_uint n) eqn:E; try apply length_string_of_uint.
  destruct n as [|p]; [discriminate E|].
  now destruct (DecimalPos.Unsigned.to_uint_nonnil p).
Qed.

Lemma nb_digits_succ (d : Decimal.uint) :
  (Decimal.nb_digits d <= Decimal.nb_digits (Decimal.Little.succ d))%nat.
Proof. induction d; cbn [Decimal.Little.succ Decimal.nb_digits]; lia. Qed.

(** A larger number has at least as many digits. *)
Lemma length_decimal_mono (a b : N) :
  (a <= b)%N → (String.length (decimal a) <= String.length (decimal b))%nat.
Proof.
  intros Hab. rewrite !length_decimal.
  replace b with (a + N.of_nat (N.to_nat (b - a)))%N by lia.
  induction (N.to_nat (b - a)) as [|k IH].
  - now rewrite N.add_0_r.
  - rewrite Nat2N.inj_succ, N.add_succ_r, DecimalPos.Unsigned.to_lu_succ.
    etransitivity; [exact IH | apply nb_digits_succ].
Qed.

Lemma length_repeatN_space (k : nat) : String.length (repeatN " " k) = k.
Proof. induction k as [|k IH]; [reflexivity|]. cbn [repeatN]. rewrite length_append, IH. reflexivity. Qed.

(** [padStart] fills up to the width and never cuts. *)
Lemma length_padStart (width : nat) (s : string) :
  String.length (padStart width s) = Nat.max width (String.length s).
Proof. unfold padStart. rewrite length_append, length_repeatN_space. lia. Qed.

End DecimalWidth.

(** ** Rounding that does not reach zero *)

Module JsNumberFacts.
Import JsString JsNumber JsNumberProps.
#[local] Open Scope Z_scope.

Lemma shr_nonpositive (mrs : shr_record) (e n : Z) : n <= 0 → shr mrs e n = (mrs, e).
Proof. intros Hn. unfold shr. destruct n as [|p|p]; [reflexivity | lia | reflexivity]. Qed.

Lemma fexp_eq (x : Z) : fexp prec emax x = Z.max (x - 53) (-1074).
Proof. reflexivity. Qed.

(** A mantissa of 53 bits with nothing to round is kept. *)
Lemma binary_round_aux_exact (sx : bool) (m : positive) (e : Z) :
  Zpos (digits2_pos m) = 53 → -1074 <= e <= 971 →
  binary_round_aux prec emax sx (Zpos m) e loc_Exact = S754_finite sx m e.
Proof.
  intros Hd He. unfold binary_round_aux, shr_fexp.
  cbn [Zdigits2 shr_record_of_loc]. rewrite Hd, fexp_eq.
  rewrite shr_nonpositive by lia.
  cbn [loc_of_shr_record shr_m round_nearest_even Zdigits2].
  rewrite Hd, fexp_eq, shr_nonpositive by lia.
  cbn [shr_m]. unfold prec, emax.
  destruct (Z.leb_spec e (1024 - 53)); [reflexivity | lia].
Qed.

(** Rounding a mantissa that the first shift does not exhaust gives a
    number that is not zero, with the sign asked for. *)
Lemma binary_round_aux_nonzero (sx : bool) (mx : positive) (ex : Z) (lx : location) :
  2 ^ (fexp prec emax (Zpos (digits2_pos mx) + ex) - ex) <= Zpos mx →
  binary_round_aux prec emax sx (Zpos mx) ex lx = S754_infinity sx
  ∨ ∃ m e, binary_round_aux prec emax sx (Zpos mx) ex lx = S754_finite sx m e.
Proof.
  intros Hfit. unfold binary_round_aux, shr_fexp. cbn [Zdigits2].
  set (D := Zpos (digits2_pos mx)) in *.
  set (n1 := fexp prec emax (D + ex) - ex) in *.
  assert (Hf1 : -1074 <= fexp prec emax (D + ex)) by (rewrite fexp_eq; lia).
  assert (H1 : ∃ mrs1 e1, shr (shr_record_of_loc (Zpos mx) lx) ex n1 = (mrs1, e1)
                          ∧ 1 <= shr_m mrs1 ∧ -1074 <= e1).
  { destruct (Z_le_gt_dec n1 0) as [Hn|Hn].
    - rewrite shr_nonpositive by exact Hn. eexists _, _. split; [reflexivity|].
      rewrite shr_record_of_loc_m. split; [lia | unfold n1 in Hn; lia].
    - destruct (shr_shift (shr_record_of_loc (Zpos mx) lx) ex n1) as [He1 Hm1];
        [rewrite shr_record_of_loc_m; lia | lia |].
      destruct (shr (shr_record_of_loc (Zpos mx) lx) ex n1) as [mrs1 e1].
      cbn [fst snd] in He1, Hm1. rewrite shr_record_of_loc_m in Hm1.
      exists mrs1, e1. split; [reflexivity|]. split; [|unfold n1 in He1; lia].
      rewrite Hm1. apply Z.div_le_lower_bound; [apply Z.pow_pos_nonneg; lia | lia]. }
  destruct H1 as (mrs1 & e1 & -> & Hm1 & He1).
  set (m1' := round_nearest_even (shr_m mrs1) (loc_of_shr_record mrs1)).
  assert (Hm1' : 1 <= m1').
  { unfold m1'. destruct (round_nearest_even_cases (shr_m mrs1) (loc_of_shr_record mrs1))
      as [->| ->]; lia. }
  destruct m1' as [|p1|p1] eqn:Ep1; [lia| |lia].
  cbn [Zdigits2 shr_record_of_loc].
  set (n2 := fexp prec emax (Zpos (digits2_pos p1) + e1) - e1).
  assert (H2 : ∃ mrs2 e2, shr {| shr_m := Zpos p1; shr_r := false; shr_s := false |} e1 n2
                          = (mrs2, e2) ∧ 1 <= shr_m mrs2).
  { destruct (Z_le_gt_dec n2 0) as [Hn|Hn].
    - rewrite shr_nonpositive by exact Hn. eexists _, _. split; [reflexivity|]. cbn [shr_m]. lia.
    - destruct (shr_shift {| shr_m := Zpos p1; shr_r := false; shr_s := false |} e1 n2)
        as [He2 Hm2]; [cbn [shr_m]; lia | lia |].
      destruct (shr _ e1 n2) as [mrs2 e2]. cbn [fst snd shr_m] in He2, Hm2.
      exists mrs2, e2. split; [reflexivity|]. rewrite Hm2.
      pose proof (mantissa_ge_pow p1) as Hge.
      assert (Hn2 : n2 = Zpos (digits2_pos p1) - 53) by (unfold n2 in *; rewrite fexp_eq in *; lia).
      apply Z.div_le_lower_bound; [apply Z.pow_pos_nonneg; lia|].
      rewrite Z.mul_1_r. etransitivity; [|exact Hge].
      apply Z.pow_le_mono_r; lia. }
  destruct H2 as (mrs2 & e2 & -> & Hm2).
  destruct (shr_m mrs2) as [|m2|m2]; [lia| |lia].
  destruct (e2 <=? emax - prec); [right; now eexists _, _ | now left].
Qed.

(** The decoded 16. *)
Lemma Prim2SF_16 : Prim2SF 16 = sixteen.
Proof. reflexivity. Qed.

(** Sixteen times a negative number is a negative number or minus
    infinity. *)
Lemma mul_16_negative (m : positive) (e : Z) :
  bounded prec emax m e = true →
  SF64mul (S754_finite true m e) sixteen = S754_infinity true
  ∨ ∃ m' e', SF64mul (S754_finite true m e) sixteen = S754_finite true m' e'.
Proof.
  intros Hb. destruct (bounded_range m e Hb) as (He & Hm & _).
  unfold SF64mul, SFmul, sixteen. cbn [xorb].
  apply binary_round_aux_nonzero.
  pose proof (mantissa_ge_pow m) as Hge.
  assert (Hd : Zpos (digits2_pos (m * 4503599627370496))
               = Zpos (digits2_pos m) + 52).
  { change 4503599627370496%positive with (Pos.shiftl_nat 1 52).
    replace (m * Pos.shiftl_nat 1 52)%positive with (Pos.shiftl_nat m 52).
    - rewrite shiftl_nat_digits. lia.
    - apply Pos2Z.inj. rewrite Pos2Z.inj_mul, !shiftl_nat_value. lia. }
  rewrite Hd, fexp_eq, Pos2Z.inj_mul.
  change (Zpos 4503599627370496) with (2 ^ 52).
  set (d := Zpos (digits2_pos m)) in *.
  assert (Hd1 : 1 <= d) by (unfold d; lia).
  destruct (Z_le_gt_dec (-1074) (d + 52 + (e + -48) - 53)) as [Hc|Hc].
  - replace (Z.max (d + 52 + (e + -48) - 53) (-1074) - (e + -48)) with (d - 1) by lia.
    assert (0 < 2 ^ 52) by lia. nia.
  - replace (Z.max (d + 52 + (e + -48) - 53) (-1074) - (e + -48)) with (-1026 - e) by lia.
    assert (2 ^ (-1026 - e) <= 2 ^ 52) by (apply Z.pow_le_mono_r; lia).
    assert (1 <= Zpos m) by lia. nia.
Qed.

(** A count that is a negative number, rounded down, is refused. *)
Lemma repeat_floor_negative (s : string) (x : float) (m : positive) (e : Z) :
  Prim2SF x = S754_finite true m e →
  String_repeat s (Math_floor x) = inl RangeError.
Proof.
  intros Hx. pose proof (Prim2SF_valid x) as Hv. rewrite Hx in Hv.
  cbn [valid_binary] in Hv. destruct (bounded_range m e Hv) as (He & Hm & _).
  unfold Math_floor. rewrite Hx. destruct (Z.leb_spec 0 e) as [Hpos|Hneg].
  - unfold String_repeat. rewrite Hx.
    destruct (Z.leb_spec 0 e); [|lia].
    assert (0 < Zpos m * 2 ^ e) by (apply Z.mul_pos_pos; [lia | apply Z.pow_pos_nonneg; lia]).
    destruct (Z.ltb_spec 0 (Zpos m * 2 ^ e)); [reflexivity | lia].
  - change (cond_Zopp true (Zpos m)) with (Z.neg m).
    assert (Hp : 0 < 2 ^ (- e)) by (apply Z.pow_pos_nonneg; lia).
    assert (HK : Z.neg m / 2 ^ (- e) < 0) by (apply Z.div_lt_upper_bound; lia).
    assert (HKlo : - Zpos m <= Z.neg m / 2 ^ (- e)).
    { apply Z.div_le_lower_bound; [lia|]. assert (1 <= 2 ^ (- e)) by lia. nia. }
    destruct (Z.neg m / 2 ^ (- e)) as [|p|p]; [lia|lia|].
    unfold binary_normalize, binary_round.
    set (d := Zpos (digits2_pos p)).
    assert (Hd : 1 <= d <= 53).
    { split; [unfold d; lia|].
      pose proof (mantissa_ge_pow p) as Hge. fold d in Hge.
      destruct (Z_le_gt_dec d 53); [assumption|].
      assert (2 ^ 53 <= 2 ^ (d - 1)) by (apply Z.pow_le_mono_r; lia). lia. }
    rewrite fexp_eq. replace (Z.max (d + 0 - 53) (-1074)) with (d - 53) by lia.
    destruct (shl_align_spec p 0 (d - 53)) as [Hshift Hkeep].
    destruct (shl_align p 0 (d - 53)) as [mz ez]. cbn [fst snd] in Hshift.
    assert (Hz : Zpos (digits2_pos mz) = 53 ∧ ez = d - 53).
    { destruct (Z_lt_le_dec (d - 53) 0) as [Hlt|Hge].
      - destruct (Hshift Hlt) as [-> ->]. fold d. lia.
      - specialize (Hkeep ltac:(lia)). injection Hkeep as -> ->. fold d. lia. }
    destruct Hz as [Hdz Hez].
    rewrite binary_round_aux_exact by (try exact Hdz; lia).
    unfold String_repeat. rewrite Prim2SF_SF2Prim.
    2: { unfold FloatAxioms.valid_binary. cbn [valid_binary].
         unfold bounded, canonical_mantissa. rewrite Hdz, fexp_eq. apply andb_true_iff.
         split; [apply Z.eqb_eq; lia | apply Z.leb_le; unfold emax, prec; lia]. }
    pose proof (mantissa_ge_pow mz) as Hgz. rewrite Hdz in Hgz. change (53 - 1) with 52 in Hgz.
    destruct (Z.leb_spec 0 ez).
    + assert (0 < Zpos mz * 2 ^ ez) by (apply Z.mul_pos_pos; [lia | apply Z.pow_pos_nonneg; lia]).
      destruct (Z.ltb_spec 0 (Zpos mz * 2 ^ ez)); [reflexivity | lia].
    + assert (1 <= Zpos mz / 2 ^ (- ez)).
      { apply Z.div_le_lower_bound; [apply Z.pow_pos_nonneg; lia|].
        rewrite Z.mul_1_r. etransitivity; [|exact Hgz]. apply Z.pow_le_mono_r; lia. }
      destruct (Z.ltb_spec 0 (Zpos mz / 2 ^ (- ez))); [reflexivity | lia].
Qed.

(** The bar of a negative ratio. *)
Lemma repeat_floor_mul_16_negative (s : string) (r : float) :
  PrimFloat.ltb r 0 = true →
  String_repeat s (Math_floor (PrimFloat.mul r 16)) = inl RangeError.
Proof.
  rewrite FloatAxioms.ltb_spec. change (Prim2SF 0) with (S754_zero false).
  intros Hlt. pose proof (Prim2SF_valid r) as Hv.
  assert (Hmul : Prim2SF (PrimFloat.mul r 16) = S754_infinity true
                 ∨ ∃ m' e', Prim2SF (PrimFloat.mul r 16) = S754_finite true m' e').
  { rewrite FloatAxioms.mul_spec, Prim2SF_16.
    destruct (Prim2SF r) as [sz|[|]| |[|] m e]; try discriminate Hlt.
    - now left.
    - apply mul_16_negative. exact Hv. }
  destruct Hmul as [Hinf|(m' & e' & Hfin)].
  - unfold Math_floor. rewrite Hinf. unfold String_repeat. now rewrite Hinf.
  - exact (repeat_floor_negative s _ m' e' Hfin).
Qed.

(** *** A ratio above one *)

Lemma binary_round_aux_opp (mx ex : Z) (lx : location) :
  binary_round_aux prec emax true mx ex lx
  = SFopp (binary_round_aux prec emax false mx ex lx).
Proof.
  unfold binary_round_aux.
  destruct (shr_fexp prec emax mx ex lx) as [mrs1 e1].
  destruct (shr_fexp prec emax _ e1 loc_Exact) as [mrs2 e2].
  destruct (shr_m mrs2); [reflexivity | | reflexivity].
  now destruct (e2 <=? emax - prec).
Qed.

(** A negative number of magnitude at least one, as a count, is refused. *)
Lemma repeat_below_minus_one (s : string) (x : float) (m : positive) (e : Z) :
  Prim2SF x = S754_finite true m e → -52 <= e → String_repeat s x = inl RangeError.
Proof.
  intros Hx He. pose proof (Prim2SF_valid x) as Hv. rewrite Hx in Hv.
  cbn [valid_binary] in Hv. destruct (bounded_range m e Hv) as (_ & _ & Hn).
  specialize (Hn ltac:(lia)).
  unfold String_repeat. rewrite Hx. destruct (Z.leb_spec 0 e).
  - assert (0 < Zpos m * 2 ^ e) by (apply Z.mul_pos_pos; [lia | apply Z.pow_pos_nonneg; lia]).
    destruct (Z.ltb_spec 0 (Zpos m * 2 ^ e)); [reflexivity | lia].
  - assert (1 <= Zpos m / 2 ^ (- e)).
    { apply Z.div_le_lower_bound; [apply Z.pow_pos_nonneg; lia|].
      rewrite Z.mul_1_r. etransitivity; [|exact Hn]. apply Z.pow_le_mono_r; lia. }
    destruct (Z.ltb_spec 0 (Zpos m / 2 ^ (- e))); [reflexivity | lia].
Qed.

Lemma shl_align_value (mx : positive) (ex ex' : Z) :
  ex' <= ex → Zpos (fst (shl_align mx ex ex')) = Zpos mx * 2 ^ (ex - ex').
Proof.
  intros Hle. unfold shl_align.
  destruct (ex' - ex) as [|d|d] eqn:Ed; cbn [fst].
  - replace (ex - ex') with 0 by lia. lia.
  - lia.
  - rewrite Pos2Nat.inj_iter.
    change (nat_rect (λ _, positive) mx (λ _, xO) (Pos.to_nat d))
      with (Pos.shiftl_nat mx (Pos.to_nat d)).
    rewrite shiftl_nat_value, positive_nat_Z. f_equal. f_equal. lia.
Qed.

(** Rounding a negative integer of magnitude at least 2^-e at exponent e:
    minus infinity, or a negative number of exponent at least -52. *)
Lemma binary_normalize_below_minus_one (q : positive) (ez : Z) :
  -1074 <= ez <= 0 → 2 ^ (- ez) <= Zpos q →
  binary_normalize prec emax (Z.neg q) ez false = S754_infinity true
  ∨ ∃ m e, binary_normalize prec emax (Z.neg q) ez false = S754_finite true m e
           ∧ bounded prec emax m e = true ∧ -52 <= e.
Proof.
  intros Hez Hq. unfold binary_normalize, binary_round.
  pose proof (digits_lower q (- ez) ltac:(lia) Hq) as Hdq.
  set (d := Zpos (digits2_pos q)) in *.
  rewrite fexp_eq. replace (Z.max (d + ez - 53) (-1074)) with (d + ez - 53) by lia.
  destruct (shl_align_spec q ez (d + ez - 53)) as [Hshift Hkeep].
  destruct (shl_align q ez (d + ez - 53)) as [mz ez']. cbn [fst snd] in Hshift.
  assert (Hz : 53 <= Zpos (digits2_pos mz) ∧ -1074 <= ez'
               ∧ -52 <= ez' + Zpos (digits2_pos mz) - 53).
  { destruct (Z_lt_le_dec (d + ez - 53) ez) as [Hlt|Hge].
    - destruct (Hshift Hlt) as [-> ->]. fold d. lia.
    - specialize (Hkeep Hge). injection Hkeep as -> ->. fold d. lia. }
  destruct Hz as (Hdz & Hez' & Hlow).
  rewrite binary_round_aux_opp.
  destruct (binary_round_aux_large mz ez' loc_Exact Hdz Hez') as [->|(m & e & -> & Hb & He)].
  - now left.
  - right. exists m, e. cbn [SFopp negb]. split; [reflexivity|]. split; [exact Hb | lia].
Qed.

(** Sixteen minus a number that is at least 17, as a count, is refused. *)
Lemma repeat_16_minus (s : string) (y : float) (my : positive) (ey : Z) :
  Prim2SF y = S754_finite false my ey →
  17 * 2 ^ 1074 <= scaled my ey →
  String_repeat s (PrimFloat.sub 16 y) = inl RangeError.
Proof.
  intros Hy Hval. pose proof (Prim2SF_valid y) as Hv. rewrite Hy in Hv.
  cbn [valid_binary] in Hv. destruct (bounded_range my ey Hv) as (Hey & Hmy & _).
  assert (Hsub : Prim2SF (PrimFloat.sub 16 y) = S754_infinity true
                 ∨ ∃ m e, Prim2SF (PrimFloat.sub 16 y) = S754_finite true m e ∧ -52 <= e).
  { rewrite FloatAxioms.sub_spec, Hy, Prim2SF_16. unfold SF64sub, SFsub, sixteen.
    cbn [cond_Zopp]. set (ez := Z.min (-48) ey).
    assert (Hez : -1074 <= ez <= -48) by (unfold ez; lia).
    rewrite !shl_align_value by (unfold ez; lia).
    change (Zpos 4503599627370496) with (2 ^ 52).
    assert (Ha : 2 ^ 52 * 2 ^ (-48 - ez) = 16 * 2 ^ (- ez)).
    { replace (- ez) with (-48 - ez + 48) by lia.
      rewrite (Z.pow_add_r 2 (-48 - ez) 48) by lia. lia. }
    assert (Hb : 17 * 2 ^ (- ez) <= Zpos my * 2 ^ (ey - ez)).
    { unfold scaled in Hval.
      assert (Hp : 0 < 2 ^ (ez + 1074)) by (apply Z.pow_pos_nonneg; lia).
      apply (Z.mul_le_mono_pos_r _ _ (2 ^ (ez + 1074)) Hp).
      rewrite <- !Z.mul_assoc, <- !Z.pow_add_r by lia.
      replace (- ez + (ez + 1074)) with 1074 by lia.
      replace (ey - ez + (ez + 1074)) with (ey + 1074) by lia. exact Hval. }
    assert (Hpos : 0 < 2 ^ (- ez)) by (apply Z.pow_pos_nonneg; lia).
    destruct (2 ^ 52 * 2 ^ (-48 - ez) - Zpos my * 2 ^ (ey - ez)) as [|q|q] eqn:Eq; [lia|lia|].
    destruct (binary_normalize_below_minus_one q ez ltac:(lia) ltac:(lia))
      as [->|(m & e & -> & _ & He)]; [now left | right; now exists m, e]. }
  destruct Hsub as [Hinf|(m & e & Hfin & He)].
  - unfold String_repeat. now rewrite Hinf.
  - exact (repeat_below_minus_one s _ m e Hfin He).
Qed.

(** Rounding down keeps a number that is at least 17 at least 17. *)
Lemma floor_at_least_17 (x : float) (mx : positive) (ex : Z) :
  Prim2SF x = S754_finite false mx ex →
  17 * 2 ^ 1074 <= scaled mx ex →
  ∃ my ey, Prim2SF (Math_floor x) = S754_finite false my ey
           ∧ 17 * 2 ^ 1074 <= scaled my ey.
Proof.
  intros Hx Hval. pose proof (Prim2SF_valid x) as Hv. rewrite Hx in Hv.
  cbn [valid_binary] in Hv. destruct (bounded_range mx ex Hv) as (Hex & Hmx & _).
  unfold Math_floor. rewrite Hx. destruct (Z.leb_spec 0 ex) as [Hpos|Hneg].
  - exists mx, ex. now split.
  - cbn [cond_Zopp].
    assert (Hp : 0 < 2 ^ (- ex)) by (apply Z.pow_pos_nonneg; lia).
    assert (HK : 17 <= Zpos mx / 2 ^ (- ex)).
    { apply Z.div_le_lower_bound; [exact Hp|].
      unfold scaled in Hval.
      assert (Hq : 0 < 2 ^ (ex + 1074)) by (apply Z.pow_pos_nonneg; lia).
      apply (Z.mul_le_mono_pos_r _ _ (2 ^ (ex + 1074)) Hq).
      rewrite (Z.mul_comm (2 ^ (- ex)) 17), <- Z.mul_assoc, <- Z.pow_add_r by lia.
      replace (- ex + (ex + 1074)) with 1074 by lia. exact Hval. }
    assert (HKhi : Zpos mx / 2 ^ (- ex) < 2 ^ 53).
    { apply Z.div_lt_upper_bound; [exact Hp|]. assert (1 <= 2 ^ (- ex)) by lia. nia. }
    destruct (Zpos mx / 2 ^ (- ex)) as [|p|p]; [lia| |lia].
    unfold binary_normalize, binary_round.
    set (d := Zpos (digits2_pos p)).
    assert (Hd : 1 <= d <= 53).
    { split; [unfold d; lia|].
      pose proof (mantissa_ge_pow p) as Hge. fold d in Hge.
      destruct (Z_le_gt_dec d 53); [assumption|].
      assert (2 ^ 53 <= 2 ^ (d - 1)) by (apply Z.pow_le_mono_r; lia). lia. }
    rewrite fexp_eq. replace (Z.max (d + 0 - 53) (-1074)) with (d - 53) by lia.
    pose proof (shl_align_value p 0 (d - 53) ltac:(lia)) as Hvalue.
    destruct (shl_align_spec p 0 (d - 53)) as [Hshift Hkeep].
    destruct (shl_align p 0 (d - 53)) as [mz ez]. cbn [fst snd] in Hshift, Hvalue.
    assert (Hz : Zpos (digits2_pos mz) = 53 ∧ ez = d - 53).
    { destruct (Z_lt_le_dec (d - 53) 0) as [Hlt|Hge].
      - destruct (Hshift Hlt) as [-> ->]. fold d. lia.
      - specialize (Hkeep ltac:(lia)). injection Hkeep as -> ->. fold d. lia. }
    destruct Hz as [Hdz Hez].
    rewrite binary_round_aux_exact by (try exact Hdz; lia).
    rewrite Prim2SF_SF2Prim.
    2: { unfold FloatAxioms.valid_binary. cbn [valid_binary].
         unfold bounded, canonical_mantissa. rewrite Hdz, fexp_eq. apply andb_true_iff.
         split; [apply Z.eqb_eq; lia | apply Z.leb_le; unfold emax, prec; lia]. }
    exists mz, ez. split; [reflexivity|].
    unfold scaled. rewrite Hvalue, Hez, <- Z.mul_assoc, <- Z.pow_add_r by lia.
    replace (0 - (d - 53) + (d - 53 + 1074)) with 1074 by lia.
    assert (0 < 2 ^ 1074) by (apply Z.pow_pos_nonneg; lia). nia.
Qed.

(** Comparing with 17. *)
Lemma Prim2SF_17 : Prim2SF 17 = S754_finite false 4785074604081152 (-48).
Proof. reflexivity. Qed.

Lemma at_least_17 (x : float) (mx : positive) (ex : Z) :
  Prim2SF x = S754_finite false mx ex →
  (PrimFloat.leb 17 x = true ↔ 17 * 2 ^ 1074 <= scaled mx ex).
Proof.
  intros Hx. pose proof (Prim2SF_valid x) as Hv. rewrite Hx in Hv.
  cbn [valid_binary] in Hv.
  rewrite FloatAxioms.leb_spec, Prim2SF_17, Hx. unfold SFleb.
  rewrite (SFcompare_value 4785074604081152 mx (-48) ex eq_refl Hv).
  change (scaled 4785074604081152 (-48)) with (17 * 2 ^ 1074).
  destruct (Z.compare_spec (17 * 2 ^ 1074) (scaled mx ex)); split; intros; try lia;
    try reflexivity; discriminate.
Qed.

(** Sixteen times a number of exponent above -52 is at least 17. *)
Lemma mul_16_large (r : float) (m : positive) (e : Z) :
  Prim2SF r = S754_finite false m e → -52 < e →
  PrimFloat.leb 17 (PrimFloat.mul r 16) = true.
Proof.
  intros Hr He. pose proof (Prim2SF_valid r) as Hv. rewrite Hr in Hv.
  cbn [valid_binary] in Hv. destruct (bounded_range m e Hv) as (_ & Hhi & Hlo).
  specialize (Hlo ltac:(lia)).
  assert (Hd : Zpos (digits2_pos (m * 4503599627370496)) = 105).
  { change 4503599627370496%positive with (Pos.shiftl_nat 1 52).
    replace (m * Pos.shiftl_nat 1 52)%positive with (Pos.shiftl_nat m 52)
      by (apply Pos2Z.inj; rewrite Pos2Z.inj_mul, !shiftl_nat_value; lia).
    rewrite shiftl_nat_digits.
    rewrite (digits_of_range m 53); [lia | change (53 - 1) with 52; lia | lia]. }
  rewrite FloatAxioms.leb_spec, Prim2SF_17, FloatAxioms.mul_spec, Hr, Prim2SF_16.
  unfold SF64mul, SFmul, sixteen. cbn [xorb].
  destruct (binary_round_aux_large (m * 4503599627370496) (e + -48) loc_Exact
              ltac:(lia) ltac:(lia)) as [->|(m' & e' & -> & _ & He')]; [reflexivity|].
  rewrite Hd in He'. unfold SFleb, SFcompare.
  destruct (Z.compare_spec (-48) e'); [lia | reflexivity | lia].
Qed.

(** The two [repeat] calls of the progress bar: one of them raises exactly
    for a negative ratio or for sixteen times the ratio at least 17. *)
Lemma bar_blocks (r : float) (dark light : string) :
  let filled := Math_floor (PrimFloat.mul r 16) in
  (PrimFloat.ltb r 0 = true ∨ PrimFloat.leb 17 (PrimFloat.mul r 16) = true →
     String_repeat dark filled = inl RangeError
     ∨ String_repeat light (PrimFloat.sub 16 filled) = inl RangeError)
  ∧ (PrimFloat.ltb r 0 = false → PrimFloat.leb 17 (PrimFloat.mul r 16) = false →
       ∃ a b : nat,
         String_repeat dark filled = inr (repeatN dark a)
         ∧ String_repeat light (PrimFloat.sub 16 filled) = inr (repeatN light b)
         ∧ ((PrimFloat.eqb r r = true ∧ (a + b = 16)%nat
             ∧ (PrimFloat.leb r 1 = false → a = 16%nat))
            ∨ (PrimFloat.eqb r r = false ∧ a = 0%nat ∧ b = 0%nat))).
Proof.
  cbv zeta. split.
  - intros [Hneg|Hbig]; [left; now apply repeat_floor_mul_16_negative|].
    destruct (Prim2SF (PrimFloat.mul r 16)) as [sz|[|]| |[|] mx ex] eqn:Hx;
      try (rewrite FloatAxioms.leb_spec, Prim2SF_17, Hx in Hbig; discriminate Hbig).
    + left. unfold Math_floor. rewrite Hx. unfold String_repeat. now rewrite Hx.
    + right. apply (at_least_17 _ _ _ Hx) in Hbig.
      destruct (floor_at_least_17 _ _ _ Hx Hbig) as (my & ey & Hy & Hval).
      exact (repeat_16_minus light _ my ey Hy Hval).
  - intros Hneg Hbig.
    assert (Hunit : PrimFloat.leb 0 r = true → PrimFloat.leb r 1 = true →
                    PrimFloat.eqb r r = true →
                    ∃ a b : nat,
                      String_repeat dark (Math_floor (PrimFloat.mul r 16)) = inr (repeatN dark a)
                      ∧ String_repeat light
                          (PrimFloat.sub 16 (Math_floor (PrimFloat.mul r 16)))
                        = inr (repeatN light b)
                      ∧ ((PrimFloat.eqb r r = true ∧ (a + b = 16)%nat
                          ∧ (PrimFloat.leb r 1 = false → a = 16%nat))
                         ∨ (PrimFloat.eqb r r = false ∧ a = 0%nat ∧ b = 0%nat))).
    { intros H0 H1 Hself. destruct (floor_mul_16 r H0 H1) as (k & Hk & _ & _ & Hd & Hl).
      exists k, (16 - k)%nat. split; [apply Hd|]. split; [apply Hl|].
      left. split; [exact Hself|]. split; [lia | congruence]. }
    pose proof (Prim2SF_valid r) as Hv.
    destruct (Prim2SF r) as [sz|[|]| |[|] m e] eqn:Hr.
    + apply Hunit; rewrite ?FloatAxioms.leb_spec, ?FloatAxioms.eqb_spec, Hr; now destruct sz.
    + rewrite FloatAxioms.ltb_spec, Hr in Hneg. discriminate Hneg.
    + rewrite FloatAxioms.leb_spec, Prim2SF_17, FloatAxioms.mul_spec, Hr in Hbig.
      discriminate Hbig.
    + assert (Hx : Prim2SF (PrimFloat.mul r 16) = S754_nan)
        by (now rewrite FloatAxioms.mul_spec, Hr).
      assert (Hf : Math_floor (PrimFloat.mul r 16) = PrimFloat.mul r 16)
        by (unfold Math_floor; now rewrite Hx).
      rewrite Hf. exists 0%nat, 0%nat. unfold String_repeat.
      rewrite FloatAxioms.sub_spec, Hx. split; [reflexivity|]. split; [reflexivity|].
      right. rewrite FloatAxioms.eqb_spec, Hr. now repeat split.
    + rewrite FloatAxioms.ltb_spec, Hr in Hneg. discriminate Hneg.
    + cbn [valid_binary] in Hv. destruct (bounded_range m e Hv) as (He & Hm & Hn).
      destruct (PrimFloat.leb r 1) eqn:H1.
      { assert (Hself : PrimFloat.eqb r r = true).
        { rewrite FloatAxioms.eqb_spec, Hr. unfold SFeqb, SFcompare.
          rewrite Z.compare_refl, Pos.compare_cont_refl. reflexivity. }
        apply Hunit; [|reflexivity|exact Hself]. now rewrite FloatAxioms.leb_spec, Hr. }
      destruct (Z_lt_le_dec (-52) e) as [Hlarge|Hsmall].
      { rewrite (mul_16_large r m e Hr Hlarge) in Hbig. discriminate Hbig. }
      rewrite FloatAxioms.leb_spec, Hr in H1.
      change (Prim2SF 1) with (S754_finite false 4503599627370496 (-52)) in H1.
      unfold SFleb in H1. rewrite (SFcompare_value m 4503599627370496 e (-52) Hv eq_refl) in H1.
      change (scaled 4503599627370496 (-52)) with (2 ^ 1074) in H1.
      assert (Habove : 2 ^ 1074 < scaled m e).
      { destruct (Z.compare_spec (scaled m e) (2 ^ 1074)); [discriminate|discriminate|assumption]. }
      assert (He52 : e = -52).
      { destruct (Z.eq_dec e (-52)) as [|Hne]; [assumption|]. exfalso.
        unfold scaled in Habove.
        assert (2 ^ (e + 1074) <= 2 ^ 1021) by (apply Z.pow_le_mono_r; lia).
        assert (0 < 2 ^ (e + 1074)) by (apply Z.pow_pos_nonneg; lia).
        change (2 ^ 1074) with (2 ^ 53 * 2 ^ 1021) in Habove. nia. }
      subst e.
      destruct (SFmul_16 m (-52) Hv ltac:(lia)) as (j & Hj & Hmul).
      assert (Hx : Prim2SF (PrimFloat.mul r 16)
                   = S754_finite false (Pos.shiftl_nat m j) (-52 + 4 - Z.of_nat j))
        by (now rewrite FloatAxioms.mul_spec, Hr, Prim2SF_16).
      assert (H17 : ¬ 17 * 2 ^ 1074 <= scaled (Pos.shiftl_nat m j) (-52 + 4 - Z.of_nat j)).
      { intros Hc. apply (at_least_17 _ _ _ Hx) in Hc. congruence. }
      unfold scaled in Habove, H17. rewrite shiftl_nat_value in H17.
      rewrite <- Z.mul_assoc, <- Z.pow_add_r in H17 by lia.
      replace (Z.of_nat j + (-52 + 4 - Z.of_nat j + 1074)) with 1026 in H17 by lia.
      change (-52 + 1074) with 1022 in Habove.
      assert (Hm16 : 16 * 2 ^ 48 < Zpos m < 17 * 2 ^ 48).
      { change (2 ^ 1074) with (2 ^ 48 * 2 ^ 1026) in H17.
        change (2 ^ 1074) with (16 * 2 ^ 48 * 2 ^ 1022) in Habove.
        assert (0 < 2 ^ 1026) by (apply Z.pow_pos_nonneg; lia).
        assert (0 < 2 ^ 1022) by (apply Z.pow_pos_nonneg; lia).
        split; nia. }
      assert (Hf : Math_floor (PrimFloat.mul r 16) = ofBigInt 16).
      { unfold Math_floor. rewrite Hx.
        destruct (Z.leb_spec 0 (-52 + 4 - Z.of_nat j)); [lia|].
        cbn [cond_Zopp]. unfold ofBigInt. f_equal. f_equal.
        rewrite shiftl_nat_value.
        replace (- (-52 + 4 - Z.of_nat j)) with (48 + Z.of_nat j) by lia.
        rewrite Z.pow_add_r by lia.
        rewrite Z.div_mul_cancel_r by (try apply Z.pow_nonzero; lia).
        symmetry. apply Z.div_unique with (r := Zpos m - 16 * 2 ^ 48); lia. }
      rewrite Hf.
      destruct (small_counts 16 dark ltac:(lia)) as (Hd & _ & _).
      destruct (small_counts 16 light ltac:(lia)) as (_ & Hl & _).
      exists 16%nat, 0%nat. split; [exact Hd|]. split; [exact Hl|].
      left. split; [|split; [reflexivity | reflexivity]].
      rewrite FloatAxioms.eqb_spec, Hr. unfold SFeqb, SFcompare.
      rewrite Z.compare_refl, Pos.compare_cont_refl. reflexivity.
Qed.

End JsNumberFacts.

Module TagFacts.
Import JsString JsStringProps JsLines JsStringFacts LocalPathFacts MetroTerminalReporter MetroTerminalReporterLog.
#[local] Arguments String.append : simpl nomatch.

Ltac next_byte s :=
  let c := fresh "c" in
  destruct s as [|c s]; [reflexivity|]; each_byte c; try reflexivity.

Section Tag.
Context `{chalk.Chalk}.

(** The environment tag, with the two names compared by equality. *)
Lemma getEnvironmentForBuildDetails_eq (bundleDetails : option BundleDetails) :
  getEnvironmentForBuildDetails bundleDetails =
  let options := bundleDetails ≫= customTransformOptions in
  let byDom :=
    match options ≫= dom with
    | Some (MString (String _ _)) => chalk.bold "DOM" +:+ " "
    | _ => ""
    end in
  match options ≫= environment with
  | Some (MString env) =>
      if String.eqb env "node" then chalk.bold "λ" +:+ " "
      else if String.eqb env "react-server" then
        chalk.bold ("RSC(" +:+ trim (getPlatformTagForBuildDetails bundleDetails) +:+ ")")
        +:+ " "
      else byDom
  | _ => byDom
  end.
Proof.
  unfold getEnvironmentForBuildDetails. cbv zeta.
  destruct ((bundleDetails ≫= customTransformOptions) ≫= environment) as [[env|]|];
    [|reflexivity|reflexivity].
  do 13 (try next_byte env).
Qed.


(** The tag of the platform is empty, for a missing platform, or ends with
    a space. *)
Lemma getPlatformTagForBuildDetails_cases (details : BundleDetails) :
  (getPlatformTagForBuildDetails (Some details) = "" ∧ missing (platform details))
  ∨ ((∃ tag, getPlatformTagForBuildDetails (Some details) = tag +:+ " ")
     ∧ ¬ missing (platform details)).
Proof.
  unfold getPlatformTagForBuildDetails, missing. cbn [mbind option_bind].
  destruct (platform details) as [[|c p]|].
  - left. split; [reflexivity | now right].
  - right. split; [eexists; reflexivity | intros [Hc|Hc]; discriminate Hc].
  - left. split; [reflexivity | now left].
Qed.

Lemma append_space_nonempty (tag : string) : tag +:+ " " ≠ "".
Proof. destruct tag; discriminate. Qed.

Lemma platformTag_of_environment (details : BundleDetails) (tag : string) :
  getEnvironmentForBuildDetails (Some details) = tag +:+ " " →
  platformTag details = tag +:+ " ".
Proof.
  intros He. unfold platformTag. rewrite He.
  destruct (tag +:+ " ") eqn:E; [now destruct (append_space_nonempty tag)|reflexivity].
Qed.

End Tag.
End TagFacts.

(** ** Further properties of the terminal reporter *)

Module MetroTerminalReporterFacts.
Import JsString JsStringProps JsLines JsStringFacts CodeFrameFacts LocalPathFacts TrimFacts.
Import JsNumber JsNumberProps DecimalWidth JsNumberFacts TagFacts.
Import MetroTerminalReporter MetroTerminalReporterLog.
#[local] Arguments String.append : simpl nomatch.

(** X1.  [stripMetroInfo] returns null exactly for the messages that do not
    include [4. Remove the cache]: the second [return null] of the source is
    never reached.  A code frame it returns is empty or is the end of the
    message, right after a line break that follows the marker. *)
Theorem stripMetroInfo_null_iff (errorMessage : string) :
  (stripMetroInfo errorMessage = None ↔
     includes errorMessage "4. Remove the cache" = false)
  ∧ ∀ frame, stripMetroInfo errorMessage = Some frame →
      frame = ""
      ∨ ∃ head, errorMessage = head +:+ String "010" "" +:+ frame
                ∧ includes head "4. Remove the cache" = true.
Proof.
  split.
  - destruct (stripMetroInfo_lines errorMessage)
      as [[Hi Hn]|(before & line & after & _ & _ & _ & Hi & Hs)].
    + unfold CACHE_STEP in Hi. now rewrite Hn, Hi.
    + unfold CACHE_STEP in Hi. rewrite Hs, Hi. split; discriminate.
  - intros frame Hs. exact (stripMetroInfo_suffix errorMessage frame Hs).
Qed.

(** X2.  For a message whose lines up to a first line with the marker are
    followed by a line break and any text, [stripMetroInfo] returns that
    text; when the marker line is the last one, it returns the empty
    string. *)
Theorem stripMetroInfo_after_marker_line (before : list string) (line rest : string) :
  Forall (λ l, lacks "010" l = true ∧ includes l "4. Remove the cache" = false) before →
  lacks "010" line = true →
  includes line "4. Remove the cache" = true →
  stripMetroInfo (join (String "010" "") (before ++ [line]) +:+ String "010" "" +:+ rest)
  = Some rest
  ∧ stripMetroInfo (join (String "010" "") (before ++ [line])) = Some "".
Proof.
  intros Hb Hl Hi.
  assert (Hb1 : Forall (λ l, lacks "010" l = true) before)
    by (eapply Forall_impl; [exact Hb | now intros l [H1 _]]).
  assert (Hb2 : Forall (λ l, includes l CACHE_STEP = false) before)
    by (eapply Forall_impl; [exact Hb | now intros l [_ H2]]).
  split.
  - exact (stripMetroInfo_after before line rest Hb1 Hl Hb2 Hi).
  - exact (stripMetroInfo_last before line Hb1 Hl Hb2 Hi).
Qed.

(** X3.  [maybeAppendCodeFrame] leaves the message as it is when the raw
    message has no marker; otherwise it either leaves it as it is or appends
    a line break and a non-empty end of the raw message that follows the
    marker line. *)
Theorem maybeAppendCodeFrame_cases (message rawMessage : string) :
  (includes rawMessage "4. Remove the cache" = false →
     maybeAppendCodeFrame message rawMessage = message)
  ∧ (maybeAppendCodeFrame message rawMessage = message
     ∨ ∃ head frame,
         rawMessage = head +:+ String "010" "" +:+ frame
         ∧ includes head "4. Remove the cache" = true
         ∧ frame ≠ ""
         ∧ maybeAppendCodeFrame message rawMessage
           = message +:+ String "010" "" +:+ frame).
Proof.
  unfold maybeAppendCodeFrame. split.
  - intros Hi.
    destruct (stripMetroInfo_lines rawMessage)
      as [[_ ->]|(before & line & after & _ & _ & _ & Hi' & _)]; [reflexivity|].
    unfold CACHE_STEP in Hi'. congruence.
  - destruct (stripMetroInfo rawMessage) as [[|c frame]|] eqn:Hs; [now left| |now left].
    right. destruct (stripMetroInfo_suffix _ _ Hs) as [Hempty|(head & Hraw & Hhead)];
      [discriminate|].
    exists head, (String c frame). now repeat split.
Qed.

Section Reporter.
Context `{chalk.Chalk} `{path.Path}.
Variable NODE_STDLIB_MODULES : list string.
Variable learnMore : string → string.

(** X4.  For a DOM component, whose [dom] option is a string that contains
    the path separator, the path shown is [dom] without its leading [./] and
    [../] groups: it is an end of [dom], it starts with no such group, and
    it is [dom] itself when [dom] starts with none.  The entry file and the
    project root are not looked at. *)
Theorem localPathOf_dom_component
        (self : t) (progress : BundleProgress) (options : CustomTransformOptions) (d : string) :
  customTransformOptions (bundleDetails progress) = Some options →
  dom options = Some (MString d) →
  includes d path.sep = true →
  localPathOf self progress = stripLeadingDots d
  ∧ startsWithDotSegment (localPathOf self progress) = false
  ∧ (∃ head, d = head +:+ localPathOf self progress)
  ∧ (startsWithDotSegment d = false → localPathOf self progress = d).
Proof.
  intros Ho Hd Hsep.
  assert (Hpath : localPathOf self progress = stripLeadingDots d).
  { unfold localPathOf. rewrite Ho. cbn [mbind option_bind]. now rewrite Hd, Hsep. }
  rewrite Hpath.
  destruct (stripLeadingDots_spec (String.length d) d (le_n _)) as [Hno Hhead].
  refine (conj eq_refl (conj Hno (conj Hhead _))).
  apply stripLeadingDots_fixed.
Qed.

(** X5.  For a React Server bundle (environment [react-server]) the tag of
    the status line is [RSC(<platform>)], styled, and a space, where
    [<platform>] is the platform tag without its final space; without a
    platform it is [RSC()].  The platform tag itself is not shown. *)
Theorem platformTag_react_server (details : BundleDetails) (options : CustomTransformOptions) :
  customTransformOptions details = Some options →
  environment options = Some (MString "react-server") →
  (getPlatformTagForBuildDetails (Some details) = "" →
     platformTag details = chalk.bold "RSC()" +:+ " ")
  ∧ (∀ name,
       getPlatformTagForBuildDetails (Some details) = name +:+ " " →
       name ≠ "" → afterSpace name = None → beforeSpace (String.rev name) = None →
       platformTag details = chalk.bold ("RSC(" +:+ name +:+ ")") +:+ " ").
Proof.
  intros Ho He.
  assert (Henv : getEnvironmentForBuildDetails (Some details)
                 = chalk.bold ("RSC(" +:+ trim (getPlatformTagForBuildDetails (Some details))
                               +:+ ")") +:+ " ").
  { unfold getEnvironmentForBuildDetails. cbn [mbind option_bind].
    rewrite Ho. cbn [mbind option_bind]. now rewrite He. }
  assert (Htag : platformTag details = getEnvironmentForBuildDetails (Some details)).
  { unfold platformTag. rewrite Henv.
    destruct (chalk.bold _) as [|c s]; reflexivity. }
  rewrite Htag, Henv. split.
  - intros ->. reflexivity.
  - intros name -> Hne Hstart Hend. now rewrite trim_append_space.
Qed.


(** The result of the formatter: null when something is missing, a
    non-empty text otherwise. *)
Lemma formatted_cases (root : string) (error : SnippetError) :
  (formatUsingNodeStandardLibraryError NODE_STDLIB_MODULES learnMore root error = None
   ∧ (missing (message error) ∨ missing (targetModuleName error)
      ∨ missing (originModulePath error)))
  ∨ (∃ c line,
       formatUsingNodeStandardLibraryError NODE_STDLIB_MODULES learnMore root error
       = Some (String c line)
       ∧ ¬ missing (message error) ∧ ¬ missing (targetModuleName error)
       ∧ ¬ missing (originModulePath error)).
Proof.
  unfold formatUsingNodeStandardLibraryError, missing.
  destruct (message error) as [[|c0 m]|]; cbn [truthy negb];
    [left; split; [reflexivity | left; now right]
    | | left; split; [reflexivity | left; now left]].
  destruct (targetModuleName error) as [[|c1 t]|]; cbn [truthy negb orb];
    [left; split; [reflexivity | right; left; now right]
    | | left; split; [reflexivity | right; left; now left]].
  destruct (originModulePath error) as [[|c2 o]|]; cbn [truthy negb orb];
    [left; split; [reflexivity | right; right; now right]
    | | left; split; [reflexivity | right; right; now left]].
  right.
  assert (Hpresent : ∀ (x : ascii) (y : string), ¬ (Some (String x y) = None ∨ Some (String x y) = Some ""))
    by (intros x y [Hx|Hx]; discriminate Hx).
  destruct (isNodeStdLibraryModule _ _); [destruct (includes _ _)|];
    eexists _, _; (split; [reflexivity | now repeat split]).
Qed.

(** X6.  [_logBundlingError] prints on the terminal exactly when the
    message, the target module name and the origin module path of the error
    are all there; otherwise it calls the base reporter.  What it prints
    starts with the formatted error.  A non-empty import stack of the cause
    is never lost: the printed message, or the message of the error handed
    to the base reporter, ends with two line breaks and the stack.  Without
    an import stack the base reporter gets the error unchanged. *)
Theorem logBundlingError_cases (self : t) (error : SnippetError) :
  let log := _logBundlingError NODE_STDLIB_MODULES learnMore self error in
  ((∃ printed, log = terminal_log printed) ↔
     ¬ missing (message error) ∧ ¬ missing (targetModuleName error)
     ∧ ¬ missing (originModulePath error))
  ∧ ((∃ passed, log = super_logBundlingError passed) ↔
       missing (message error) ∨ missing (targetModuleName error)
       ∨ missing (originModulePath error))
  ∧ (∀ printed, log = terminal_log printed →
       ∃ line, formatUsingNodeStandardLibraryError NODE_STDLIB_MODULES learnMore
                 (projectRoot self) error = Some line
               ∧ startsWith printed line = true)
  ∧ (∀ c stack, cause error = Some c → _expoImportStack c = Some stack → stack ≠ "" →
       (∀ printed, log = terminal_log printed →
          ∃ head, printed = head +:+ String "010" (String "010" "") +:+ stack)
       ∧ (∀ passed, log = super_logBundlingError passed →
            passed = {| message := Some (text (message error) +:+
                                         String "010" (String "010" "") +:+ stack);
                        targetModuleName := targetModuleName error;
                        originModulePath := originModulePath error;
                        cause := cause error |}))
  ∧ (cause error ≫= _expoImportStack = None ∨ cause error ≫= _expoImportStack = Some "" →
       ∀ passed, log = super_logBundlingError passed → passed = error).
Proof.
  cbv zeta. unfold _logBundlingError.
  destruct (formatted_cases (projectRoot self) error)
    as [[-> Hmiss]|(c0 & line & -> & Hm & Ht & Ho)].
  - refine (conj _ (conj _ (conj _ (conj _ _)))).
    + split.
      * intros [printed Hp]. destruct (importStackOf error); discriminate Hp.
      * intros (Hm & Ht & Ho). tauto.
    + split; [intros _; exact Hmiss|]. intros _.
      destruct (importStackOf error); eexists; reflexivity.
    + intros printed Hp. destruct (importStackOf error); discriminate Hp.
    + intros c stack Hc Hs Hne. unfold importStackOf. rewrite Hc. cbn [mbind option_bind].
      rewrite Hs. destruct stack as [|x stack]; [now destruct Hne|].
      split; [intros printed Hp; discriminate Hp|].
      intros passed [= <-]. reflexivity.
    + intros Hnone passed. unfold importStackOf.
      destruct Hnone as [-> | ->]; now intros [= <-].
  - pose proof (MetroTerminalReporterProps.maybeAppendCodeFrame_extends (String c0 line) (text (message error)))
      as [frame Hframe].
    refine (conj _ (conj _ (conj _ (conj _ _)))).
    + split; [intros _; now repeat split|]. intros _.
      destruct (importStackOf error); eexists; reflexivity.
    + split.
      * intros [passed Hp]. destruct (importStackOf error); discriminate Hp.
      * tauto.
    + intros printed Hp. exists (String c0 line). split; [reflexivity|].
      unfold startsWith. rewrite Hframe in Hp.
      destruct (importStackOf error); injection Hp as <-;
        rewrite ?append_assoc; apply prefix_spec; eexists; reflexivity.
    + intros c stack Hc Hs Hne. unfold importStackOf. rewrite Hc. cbn [mbind option_bind].
      rewrite Hs. destruct stack as [|x stack]; [now destruct Hne|].
      split; [|intros passed Hp; discriminate Hp].
      intros printed [= <-]. eexists. reflexivity.
    + intros _ passed Hp. destruct (importStackOf error); discriminate Hp.
Qed.

(** X7.  With the message, the target and the origin there,
    [formatUsingNodeStandardLibraryError] gives the [Unable to resolve] line
    exactly for a target that neither starts with [node:] nor is in
    [NODE_STDLIB_MODULES].  For the other targets it gives three lines: one
    that names the package for an origin under [node_modules] and the
    importing file otherwise, the explanation, and the link to the
    documentation page. *)
Theorem formatUsingNodeStandardLibraryError_classes
        (root : string) (error : SnippetError) (target origin : string) :
  ¬ missing (message error) →
  targetModuleName error = Some target → target ≠ "" →
  originModulePath error = Some origin → origin ≠ "" →
  let result := formatUsingNodeStandardLibraryError NODE_STDLIB_MODULES learnMore root error in
  let relativePath := path.relative root origin in
  let unresolved := "Unable to resolve " +:+ QUOTE +:+ target +:+ QUOTE +:+ " from " +:+
                    QUOTE +:+ relativePath +:+ QUOTE in
  let first :=
    if includes origin "node_modules" then
      "The package at " +:+ QUOTE +:+ chalk.bold relativePath +:+ QUOTE +:+
      " attempted to import the Node standard library module " +:+ QUOTE +:+
      chalk.bold target +:+ QUOTE +:+ "."
    else
      "You attempted to import the Node standard library module " +:+ QUOTE +:+
      chalk.bold target +:+ QUOTE +:+ " from " +:+ QUOTE +:+
      chalk.bold relativePath +:+ QUOTE +:+ "." in
  (result = Some unresolved ↔
     startsWith target "node:" = false ∧ target ∉ NODE_STDLIB_MODULES)
  ∧ (startsWith target "node:" = true ∨ target ∈ NODE_STDLIB_MODULES →
       result = Some (first +:+ String "010" "" +:+
                      "It failed because the native React runtime does not include the Node standard library."
                      +:+ String "010" "" +:+ learnMore DOCS_PAGE_URL)).
Proof.
  intros Hm Ht Htne Ho Hone. cbv zeta.
  unfold formatUsingNodeStandardLibraryError. rewrite Ht, Ho.
  destruct target as [|ct target]; [now destruct Htne|].
  destruct origin as [|co origin]; [now destruct Hone|].
  assert (Hmsg : truthy (message error) = true).
  { unfold missing in Hm. destruct (message error) as [[|x m]|]; [tauto|reflexivity|tauto]. }
  rewrite Hmsg. cbn [truthy negb orb text default from_option id].
  unfold isNodeStdLibraryModule.
  destruct (startsWith (String ct target) "node:") eqn:Hnode; cbn [orb].
  - split.
    + split; [|intros [Hf _]; discriminate Hf].
      destruct (includes (String co origin) "node_modules"); intros Heq;
        apply (f_equal (λ o, match o with Some (String x _) => Some x | _ => None end)) in Heq;
        cbn in Heq; discriminate Heq.
    + intros _. destruct (includes (String co origin) "node_modules"); reflexivity.
  - destruct (bool_decide_reflect (String ct target ∈ NODE_STDLIB_MODULES)) as [Hin|Hnin].
    + split.
      * split; [|intros [_ Hf]; now destruct Hf].
        destruct (includes (String co origin) "node_modules"); intros Heq;
        apply (f_equal (λ o, match o with Some (String x _) => Some x | _ => None end)) in Heq;
        cbn in Heq; discriminate Heq.
      * intros _. destruct (includes (String co origin) "node_modules"); reflexivity.
    + split.
      * split; [intros _; now split | reflexivity].
      * intros [Hf|Hf]; [discriminate Hf | now destruct Hnin].
Qed.

(** X8.  When the status line of a running build does not raise, its bar
    has 16 blocks, dark ones then light ones, and a ratio above 1 gives 16
    dark blocks; the exception is a ratio that is not a number, for which
    the bar has no block at all. *)
Theorem getBundleStatusMessage_bar_blocks
        (self : t) (hrtime : Z) (progress : BundleProgress) :
  PrimFloat.ltb (ratio progress) 0 = false →
  PrimFloat.leb 17 (PrimFloat.mul (ratio progress) 16) = false →
  let localPath := localPathOf self progress in
  let width := String.length (decimal (totalFileCount progress)) in
  ∃ dark light : nat,
    _getBundleStatusMessage self hrtime progress in_progress =
      inr (platformTag (bundleDetails progress) +:+
           chalk.reset_dim (path.dirname localPath +:+ path.sep) +:+
           chalk.bold (path.basename localPath) +:+
           " " +:+
           (chalk.green_bgGreen (repeatN DARK_BLOCK_CHAR dark) +:+
            chalk.bgWhite_white (repeatN LIGHT_BLOCK_CHAR light) +:+
            chalk.bold (" " +:+
                        padStart 4 (toFixed 1 (PrimFloat.mul 100 (ratio progress))) +:+
                        "% ") +:+
            chalk.dim ("(" +:+
                       padStart width (decimal (transformedFileCount progress)) +:+
                       "/" +:+ decimal (totalFileCount progress) +:+ ")")))
    ∧ ((PrimFloat.eqb (ratio progress) (ratio progress) = true
        ∧ (dark + light = 16)%nat
        ∧ (PrimFloat.leb (ratio progress) 1 = false → dark = 16%nat))
       ∨ (PrimFloat.eqb (ratio progress) (ratio progress) = false
          ∧ dark = 0%nat ∧ light = 0%nat)).
Proof.
  intros Hneg Hbig. cbv zeta.
  destruct (bar_blocks (ratio progress) DARK_BLOCK_CHAR LIGHT_BLOCK_CHAR) as [_ Hfine].
  cbv zeta in Hfine. destruct (Hfine Hneg Hbig) as (a & b & Ha & Hb & Hshape).
  exists a, b. split; [|exact Hshape].
  unfold _getBundleStatusMessage, progressBar, MAX_PROGRESS_BAR_CHAR_WIDTH.
  rewrite Ha, Hb. reflexivity.
Qed.

(** X9.  The tag of the status line is empty or ends with a space.  It is
    empty exactly for a bundle without a [node] or [react-server]
    environment, without a DOM component (a non-empty string as [dom]) and
    without a platform. *)
Theorem platformTag_empty_iff (details : BundleDetails) :
  (platformTag details = "" ∨ ∃ tag, platformTag details = tag +:+ " ")
  ∧ (platformTag details = "" ↔
       customTransformOptions details ≫= environment ≠ Some (MString "node")
       ∧ customTransformOptions details ≫= environment ≠ Some (MString "react-server")
       ∧ (∀ c d, customTransformOptions details ≫= dom ≠ Some (MString (String c d)))
       ∧ missing (platform details)).
Proof.
  assert (Hstyled : ∀ tag,
            getEnvironmentForBuildDetails (Some details) = tag +:+ " " →
            (platformTag details = "" ∨ ∃ tag', platformTag details = tag' +:+ " ")
            ∧ platformTag details ≠ "").
  { intros tag He. rewrite (platformTag_of_environment details tag He).
    split; [right; now exists tag | apply append_space_nonempty]. }
  pose proof (getEnvironmentForBuildDetails_eq (Some details)) as Heq.
  cbv zeta in Heq. cbn [mbind option_bind] in Heq.
  destruct (customTransformOptions details ≫= environment) as [[env|]|] eqn:Henv.
  1: destruct (String.eqb_spec env "node") as [->|Hnode].
  1: { destruct (Hstyled _ Heq) as [Hshape Hne]. split; [exact Hshape|].
       split; [intros Hc; now destruct Hne | intros (Hn & _); now destruct Hn]. }
  1: destruct (String.eqb_spec env "react-server") as [->|Hrsc].
  1: { destruct (Hstyled _ Heq) as [Hshape Hne]. split; [exact Hshape|].
       split; [intros Hc; now destruct Hne | intros (_ & Hn & _); now destruct Hn]. }
  all: assert (Hnode' : customTransformOptions details ≫= environment ≠ Some (MString "node"))
         by (rewrite Henv; congruence).
  all: assert (Hrsc' : customTransformOptions details ≫= environment
                       ≠ Some (MString "react-server"))
         by (rewrite Henv; congruence).
  all: rewrite Henv in Hnode', Hrsc'.
  all: destruct (customTransformOptions details ≫= dom) as [[[|c d]|]|] eqn:Hdom.
  all: try (destruct (Hstyled _ Heq) as [Hshape Hne]; split; [exact Hshape|];
            split; [intros Hc; now destruct Hne
                   | intros (_ & _ & Hn & _); now destruct (Hn c d)]).
  all: assert (Htag : platformTag details = getPlatformTagForBuildDetails (Some details))
         by (unfold platformTag; now rewrite Heq).
  all: rewrite Htag.
  all: destruct (getPlatformTagForBuildDetails_cases details)
         as [[-> Hmiss]|[[tag ->] Hpresent]].
  all: try (split; [now left|]; split; [intros _|reflexivity];
            refine (conj Hnode' (conj Hrsc' (conj _ Hmiss))); intros c' d' Hc; discriminate Hc).
  all: split; [right; now exists tag|];
       split; [intros Hc; now destruct (append_space_nonempty tag)
              | intros (_ & _ & _ & Hm); now destruct Hpresent].
Qed.

(** X10.  While bundling with a ratio between 0 and 1, the status line ends
    with the dimmed counts [(<transformed>/<total>)], where the transformed
    count has spaces in front up to the width of the total count: for a
    transformed count that is at most the total, the field is exactly as
    wide as the total, so the counts keep their width during a build. *)
Theorem getBundleStatusMessage_counts_width
        (self : t) (hrtime : Z) (progress : BundleProgress) :
  PrimFloat.leb 0 (ratio progress) = true →
  PrimFloat.leb (ratio progress) 1 = true →
  let total := decimal (totalFileCount progress) in
  let transformed := decimal (transformedFileCount progress) in
  ∃ front pad,
    _getBundleStatusMessage self hrtime progress in_progress
    = inr (front +:+ chalk.dim ("(" +:+ repeatN " " pad +:+ transformed +:+ "/" +:+ total +:+ ")"))
    ∧ (pad + String.length transformed
       = Nat.max (String.length total) (String.length transformed))%nat
    ∧ ((transformedFileCount progress <= totalFileCount progress)%N →
       (pad + String.length transformed = String.length total)%nat).
Proof.
  intros Hlo Hhi. cbv zeta.
  destruct (floor_mul_16 (ratio progress) Hlo Hhi) as (k & _ & _ & _ & Hdark & Hlight).
  eexists _, (String.length (decimal (totalFileCount progress))
              - String.length (decimal (transformedFileCount progress)))%nat.
  refine (conj _ (conj _ _)).
  - unfold _getBundleStatusMessage, progressBar, MAX_PROGRESS_BAR_CHAR_WIDTH.
    rewrite Hdark, Hlight. unfold padStart.
    rewrite <- !append_assoc. reflexivity.
  - lia.
  - intros Hle. pose proof (length_decimal_mono _ _ Hle). lia.
Qed.

(** X11.  [_getBundleStatusMessage] raises, a [RangeError] of [repeat],
    exactly while bundling with a ratio that is negative or whose product
    with 16 is at least 17.  A finished or failed build never raises, and
    neither does a ratio that is not a number. *)
Theorem getBundleStatusMessage_raises_iff
        (self : t) (hrtime : Z) (progress : BundleProgress) (phase : BuildPhase) :
  _getBundleStatusMessage self hrtime progress phase = inl RangeError ↔
    phase = in_progress
    ∧ (PrimFloat.ltb (ratio progress) 0 = true
       ∨ PrimFloat.leb 17 (PrimFloat.mul (ratio progress) 16) = true).
Proof.
  destruct (bar_blocks (ratio progress) DARK_BLOCK_CHAR LIGHT_BLOCK_CHAR) as [Hraise Hfine].
  cbv zeta in Hraise, Hfine.
  unfold _getBundleStatusMessage, progressBar, MAX_PROGRESS_BAR_CHAR_WIDTH.
  destruct phase.
  2, 3: split; [discriminate | intros [Hp _]; discriminate Hp].
  split.
  - intros Hout. split; [reflexivity|].
    destruct (PrimFloat.ltb (ratio progress) 0) eqn:Hneg; [now left|].
    destruct (PrimFloat.leb 17 (PrimFloat.mul (ratio progress) 16)) eqn:Hbig; [now right|].
    destruct (Hfine eq_refl eq_refl) as (a & b & Ha & Hb & _).
    rewrite Ha, Hb in Hout. discriminate Hout.
  - intros [_ Hcase].
    destruct (String_repeat DARK_BLOCK_CHAR _) as [[]|dark] eqn:Hd; [reflexivity|].
    destruct (Hraise Hcase) as [Hr|Hr]; [discriminate Hr|].
    rewrite Hr. reflexivity.
Qed.

End Reporter.

(** ** Logged events *)

Lemma lowerCase_append (a b : string) : lowerCase (a +:+ b) = lowerCase a +:+ lowerCase b.
Proof.
  induction a as [|c a IH]; [reflexivity|].
  cbn [String.append lowerCase]. now rewrite IH.
Qed.

Lemma modeOf_not_bridge (mode : option string) :
  modeOf mode ≠ "BRIDGE" ∧ modeOf mode ≠ "NOBRIDGE".
Proof.
  unfold modeOf. destruct mode as [m|]; [|split; discriminate].
  destruct (String.eqb_spec m "NOBRIDGE") as [->|Hn]; [split; discriminate|].
  destruct (String.eqb_spec m "BRIDGE") as [->|Hb]; [split; discriminate|].
  cbn [orb]. now split.
Qed.

Ltac each_branch :=
  repeat match goal with
         | |- context [if ?b then _ else _] => destruct b
         | |- context [match ?x with Some _ => _ | None => _ end] => destruct x
         end.

Section Log.
Variable ParsedError : Type.
Variable parseErrorStringToObject : string → option ParsedError.

(** X12.  A server log is either dropped or handed unchanged to the base
    reporter.  It is dropped exactly when its first datum is a string that
    includes [JavaScript logs have moved], or, with [EXPO_DEBUG] off, a
    string that matches the connection notice; the notice is found in any
    letter case, anywhere in the string. *)
Theorem log_server_log (EXPO_DEBUG : bool) (self : t) (data : option (list Datum)) :
  let event := unstable_server_log data in
  let outcome := _log parseErrorStringToObject EXPO_DEBUG self event in
  (outcome = ignored ∨ outcome = super_log event)
  ∧ (outcome = ignored ↔
       ∃ message rest,
         data = Some (DString message :: rest)
         ∧ (includes message "JavaScript logs have moved" = true
            ∨ (EXPO_DEBUG = false ∧ isConnectionNotice message = true)))
  ∧ (∀ before notice after verb rest,
       verb ∈ ["closed"; "established"; "failed"; "terminated"] →
       lowerCase notice = "connection " +:+ verb →
       data = Some (DString (before +:+ notice +:+ after) :: rest) →
       outcome = if EXPO_DEBUG
                 then (if includes (before +:+ notice +:+ after) "JavaScript logs have moved"
                       then ignored else super_log event)
                 else ignored).
Proof.
  cbv zeta. refine (conj _ (conj _ _)).
  - unfold _log. destruct (firstString data) as [message|]; [|now right].
    destruct (isLogsHaveMovedNotice message); [now left|].
    destruct (negb EXPO_DEBUG && isConnectionNotice message); [now left | now right].
  - unfold _log. split.
    + destruct data as [[|[message| | |] rest]|]; cbn [firstString]; try discriminate.
      unfold isLogsHaveMovedNotice. intros Ho. exists message, rest. split; [reflexivity|].
      destruct (includes message "JavaScript logs have moved"); [now left | right].
      destruct EXPO_DEBUG; cbn [negb andb] in Ho; [discriminate|].
      destruct (isConnectionNotice message); [now split | discriminate].
    + intros (message & rest & -> & Hcase). cbn [firstString].
      unfold isLogsHaveMovedNotice.
      destruct Hcase as [-> | [-> ->]]; [reflexivity|].
      now destruct (includes message "JavaScript logs have moved").
  - intros before notice after verb rest Hverb Hnotice ->.
    assert (Hconn : isConnectionNotice (before +:+ notice +:+ after) = true).
    { unfold isConnectionNotice. rewrite !lowerCase_append, Hnotice.
      set (a := lowerCase before). set (b := lowerCase after).
      assert (Hinc : ∀ n, includes (a +:+ n +:+ b) n = true)
        by (intros n; apply includes_spec; now exists a, b).
      repeat (apply elem_of_cons in Hverb as [->|Hverb];
              [rewrite Hinc; now rewrite ?orb_true_r|]).
      now apply elem_of_nil in Hverb. }
    unfold _log. cbn [firstString]. unfold isLogsHaveMovedNotice. rewrite Hconn.
    destruct EXPO_DEBUG, (includes (before +:+ notice +:+ after) "JavaScript logs have moved");
      reflexivity.
Qed.

(** X13.  What [_log] does with a client log does not depend on
    [EXPO_DEBUG].  The log is dropped exactly when its data are the single
    startup message of the app registry.  It reaches the base reporter only
    without a level, and then unchanged.  Otherwise it is logged like Metro
    with its level and data, and a mode that is never [BRIDGE] or
    [NOBRIDGE]; the symbolication is started only for a warning or an error
    whose joined data include [.bundle//&platform=] and parse as an error,
    with the data as fallback. *)
Theorem log_client_log (EXPO_DEBUG : bool) (self : t) (data : list Datum)
        (level mode : option string) :
  let event := client_log data level mode in
  let outcome := _log parseErrorStringToObject EXPO_DEBUG self event in
  let msg := joinData (String "010" "") data in
  outcome = _log parseErrorStringToObject (negb EXPO_DEBUG) self event
  ∧ (outcome = ignored ↔
       ∃ first, data = [first]
         ∧ (startsWith (toText first)
              ("Running application " +:+ QUOTE +:+ "main" +:+ QUOTE +:+ " with appParams:") = true
            ∨ startsWith (toText first)
                ("Running " +:+ QUOTE +:+ "main" +:+ QUOTE +:+ " with {") = true))
  ∧ (∀ passed, outcome = super_log passed → passed = event ∧ missing level)
  ∧ (∀ l m d, outcome = logLikeMetro l m d →
       level = Some l ∧ l ≠ "" ∧ d = data ∧ m = modeOf mode
       ∧ m ≠ "BRIDGE" ∧ m ≠ "NOBRIDGE"
       ∧ ((l = "warn" ∨ l = "error") → includes msg ".bundle//&platform=" = true →
          parseErrorStringToObject msg = None))
  ∧ (∀ root l parsed m d, outcome = symbolicated root l parsed m d →
       root = projectRoot self ∧ level = Some l ∧ (l = "warn" ∨ l = "error")
       ∧ d = data ∧ m = modeOf mode ∧ m ≠ "BRIDGE" ∧ m ≠ "NOBRIDGE"
       ∧ includes msg ".bundle//&platform=" = true
       ∧ parseErrorStringToObject msg = Some parsed).
Proof.
  cbv zeta. pose proof (modeOf_not_bridge mode) as [Hb Hn].
  refine (conj eq_refl (conj _ _)).
  - unfold _log, shouldFilterClientLog, isAppRegistryStartupMessage. split.
    + destruct data as [|first [|second rest]].
      * destruct level as [[|c l]|]; cbv zeta; each_branch; discriminate.
      * destruct (startsWith _ _ || startsWith _ _) eqn:Hstart.
        -- intros _. exists first. split; [reflexivity|]. now apply orb_true_iff in Hstart.
        -- destruct level as [[|c l]|]; cbv zeta; each_branch; discriminate.
      * destruct level as [[|c l]|]; cbv zeta; each_branch; discriminate.
    + intros (first & -> & Hstart). apply orb_true_iff in Hstart. now rewrite Hstart.
  - unfold _log. destruct (shouldFilterClientLog data).
    { refine (conj _ (conj _ _)); intros; discriminate. }
    destruct level as [[|c l]|].
    + refine (conj _ (conj _ _)); try (intros; discriminate).
      intros passed [= <-]. split; [reflexivity | now right].
    + cbv zeta.
      destruct (String.eqb (String c l) "warn" || String.eqb (String c l) "error") eqn:Hlevel.
      * assert (Hl : String c l = "warn" ∨ String c l = "error").
        { apply orb_true_iff in Hlevel as [Hw|He];
            [left; now apply String.eqb_eq | right; now apply String.eqb_eq]. }
        destruct (includes _ _) eqn:Hinc.
        -- destruct (parseErrorStringToObject _) as [parsed|] eqn:Hparse.
           ++ refine (conj _ (conj _ _)); try (intros; discriminate).
              intros root l0 parsed0 m d [= <- <- <- <- <-]. now repeat split.
           ++ refine (conj _ (conj _ _)); try (intros; discriminate).
              intros l0 m d [= <- <- <-]. now repeat split.
        -- refine (conj _ (conj _ _)); try (intros; discriminate).
           intros l0 m d [= <- <- <-]. repeat split; auto. intros _ Hf. discriminate Hf.
      * refine (conj _ (conj _ _)); try (intros; discriminate).
        intros l0 m d [= <- <- <-]. repeat split; auto.
        intros [Hw|He] _.
        -- rewrite Hw in Hlevel. discriminate Hlevel.
        -- rewrite He in Hlevel. discriminate Hlevel.
    + refine (conj _ (conj _ _)); try (intros; discriminate).
      intros passed [= <-]. split; [reflexivity | now left].
Qed.

End Log.

(** The message of a resolution error of Metro, with the cache clearing
    steps and the code frame after them. *)
Lemma stripMetroInfo_after_marker_line_witness :
  stripMetroInfo
    (join (String "010" "")
       (["Unable to resolve module fs"; "3. Reset Metro's cache"] ++
        ["4. Remove the cache: rm -rf /tmp/metro-*"])
     +:+ String "010" "" +:+ "> 1 | import fs from 'fs';")
  = Some "> 1 | import fs from 'fs';".
Proof.
  apply (stripMetroInfo_after_marker_line
           ["Unable to resolve module fs"; "3. Reset Metro's cache"]
           "4. Remove the cache: rm -rf /tmp/metro-*"
           "> 1 | import fs from 'fs';").
  - repeat constructor.
  - reflexivity.
  - reflexivity.
Defined.

(** The path of a DOM component imported as [./../components/Map.tsx]. *)
Lemma localPathOf_dom_component_witness :
  @localPathOf (path.posix "/") sampleReporter sampleDomProgress = "components/Map.tsx".
Proof.
  destruct (@localPathOf_dom_component (path.posix "/") sampleReporter sampleDomProgress
              {| environment := None; dom := Some (MString "./../components/Map.tsx") |}
              "./../components/Map.tsx" eq_refl eq_refl eq_refl) as [Hpath _].
  rewrite Hpath. reflexivity.
Defined.

(** The tag of a React Server bundle for iOS, colours off. *)
Lemma platformTag_react_server_witness :
  @platformTag chalk.plain sampleServerDetails = "RSC(iOS) ".
Proof.
  destruct (@platformTag_react_server chalk.plain sampleServerDetails
              {| environment := Some (MString "react-server"); dom := None |}
              eq_refl eq_refl) as [_ Hname].
  rewrite (Hname "iOS"); [reflexivity | reflexivity | discriminate | reflexivity | reflexivity].
Defined.

(** An import of [node:fs] from a file of the project. *)
Lemma formatUsingNodeStandardLibraryError_classes_witness :
  @formatUsingNodeStandardLibraryError chalk.plain (path.posix "/") [] sampleLearnMore
     "/app" (sampleError "node:fs")
  = Some ("You attempted to import the Node standard library module " +:+ QUOTE +:+
          "node:fs" +:+ QUOTE +:+ " from " +:+ QUOTE +:+ "src/index.js" +:+ QUOTE +:+ "." +:+
          String "010" "" +:+
          "It failed because the native React runtime does not include the Node standard library."
          +:+ String "010" "" +:+
          "Learn more: https://docs.expo.dev/workflow/using-libraries/#using-third-party-libraries").
Proof.
  destruct (@formatUsingNodeStandardLibraryError_classes chalk.plain (path.posix "/") []
              sampleLearnMore "/app" (sampleError "node:fs") "node:fs" "/app/src/index.js")
    as [_ Hstd].
  - intros [Hm|Hm]; discriminate Hm.
  - reflexivity.
  - discriminate.
  - reflexivity.
  - discriminate.
  - cbv zeta in Hstd. rewrite Hstd; [reflexivity | now left].
Defined.

(** The counts of the status line of the comment in the source. *)
Lemma getBundleStatusMessage_counts_width_witness :
  ∃ front,
    @_getBundleStatusMessage chalk.plain (path.posix "/") sampleReporter 0 sampleProgress
       in_progress
    = inr (front +:+ "(4790/7922)").
Proof.
  destruct (@getBundleStatusMessage_counts_width chalk.plain (path.posix "/")
              sampleReporter 0%Z sampleProgress eq_refl eq_refl)
    as (front & pad & Hmessage & _ & Hle).
  specialize (Hle ltac:(vm_compute; discriminate)).
  assert (Hpad : pad = 0%nat).
  { change (String.length (decimal (transformedFileCount sampleProgress))) with 4%nat in Hle.
    change (String.length (decimal (totalFileCount sampleProgress))) with 4%nat in Hle. lia. }
  exists front. rewrite Hmessage, Hpad. reflexivity.
Defined.

(** A ratio of 33/32: the bar is full. *)
Lemma getBundleStatusMessage_bar_blocks_witness :
  @_getBundleStatusMessage chalk.plain (path.posix "/") sampleReporter 0
     {| bundleDetails := sampleDetails; transformedFileCount := 33;
        totalFileCount := 32; ratio := PrimFloat.div 33 32 |} in_progress
  = inr "iOS path/to/bundle.js ▓▓▓▓▓▓▓▓▓▓▓▓▓▓▓▓ 103.1% (33/32)".
Proof.
  destruct (@getBundleStatusMessage_bar_blocks chalk.plain (path.posix "/") sampleReporter 0%Z
              {| bundleDetails := sampleDetails; transformedFileCount := 33;
                 totalFileCount := 32; ratio := PrimFloat.div 33 32 |} eq_refl eq_refl)
    as (dark & light & Hmessage & [(_ & Hsum & Hfull)|(Hnan & _)]).
  - cbv zeta in Hmessage. rewrite Hmessage.
    assert (Hd : dark = 16%nat) by (apply Hfull; reflexivity).
    assert (Hl : light = 0%nat) by lia.
    rewrite Hd, Hl. vm_compute. reflexivity.
  - discriminate Hnan.
Defined.

End MetroTerminalReporterFacts.

(** ** Milliseconds from nanoseconds *)

Module MillisecondFacts.
Import JsString JsNumber JsNumberProps JsNumberFacts.
#[local] Open Scope Z_scope.

(** An integer below 2^53 converts exactly. *)
Lemma binary_normalize_exact (p : positive) :
  Zpos p < 2 ^ 53 →
  ∃ mz ez,
    binary_normalize prec emax (Zpos p) 0 false = S754_finite false mz ez
    ∧ bounded prec emax mz ez = true
    ∧ Zpos (digits2_pos mz) = 53
    ∧ ez = Zpos (digits2_pos p) - 53
    ∧ Zpos mz = Zpos p * 2 ^ (- ez).
Proof.
  intros Hp. unfold binary_normalize, binary_round.
  set (d := Zpos (digits2_pos p)).
  assert (Hd : 1 <= d <= 53).
  { split; [unfold d; lia|].
    pose proof (mantissa_ge_pow p) as Hge. fold d in Hge.
    destruct (Z_le_gt_dec d 53); [assumption|].
    assert (2 ^ 53 <= 2 ^ (d - 1)) by (apply Z.pow_le_mono_r; lia). lia. }
  rewrite fexp_eq. replace (Z.max (d + 0 - 53) (-1074)) with (d - 53) by lia.
  pose proof (shl_align_value p 0 (d - 53) ltac:(lia)) as Hvalue.
  destruct (shl_align_spec p 0 (d - 53)) as [Hshift Hkeep].
  destruct (shl_align p 0 (d - 53)) as [mz ez]. cbn [fst snd] in Hshift, Hvalue.
  assert (Hz : Zpos (digits2_pos mz) = 53 ∧ ez = d - 53).
  { destruct (Z_lt_le_dec (d - 53) 0) as [Hlt|Hge].
    - destruct (Hshift Hlt) as [-> ->]. fold d. lia.
    - specialize (Hkeep ltac:(lia)). injection Hkeep as -> ->. fold d. lia. }
  destruct Hz as [Hdz Hez].
  rewrite binary_round_aux_exact by (try exact Hdz; lia).
  exists mz, ez. split; [reflexivity|]. split.
  - unfold bounded, canonical_mantissa. rewrite Hdz, fexp_eq. apply andb_true_iff.
    split; [apply Z.eqb_eq; lia | apply Z.leb_le; unfold emax, prec; lia].
  - split; [exact Hdz|]. split; [exact Hez|].
    rewrite Hvalue, Hez. now replace (0 - (d - 53)) with (- (d - 53)) by lia.
Qed.

Lemma ofBigInt_exact (e : Z) :
  0 < e < 2 ^ 53 →
  ∃ ma ea,
    Prim2SF (ofBigInt e) = S754_finite false ma ea
    ∧ bounded prec emax ma ea = true
    ∧ Zpos (digits2_pos ma) = 53
    ∧ -52 <= ea <= 0
    ∧ Zpos ma = e * 2 ^ (- ea).
Proof.
  intros He. destruct e as [|p|p]; [lia| |lia].
  destruct (binary_normalize_exact p ltac:(lia)) as (mz & ez & Hn & Hb & Hd & Hez & Hv).
  exists mz, ez. unfold ofBigInt. rewrite Hn.
  split; [now apply Prim2SF_SF2Prim|]. split; [exact Hb|]. split; [exact Hd|].
  split; [|exact Hv].
  pose proof (mantissa_ge_pow p) as Hge. pose proof (mantissa_lt_pow p) as Hlt.
  assert (1 <= Zpos (digits2_pos p)) by lia.
  assert (Zpos (digits2_pos p) <= 53).
  { destruct (Z_le_gt_dec (Zpos (digits2_pos p)) 53); [assumption|].
    assert (2 ^ 53 <= 2 ^ (Zpos (digits2_pos p) - 1)) by (apply Z.pow_le_mono_r; lia). lia. }
  lia.
Qed.

(** The last steps of the rounding, for a mantissa between 2^52 and 2^53. *)
Lemma binary_round_aux_value (mx ex : Z) (lx : location) (mrs1 : shr_record) (e1 : Z)
      (p1 : positive) :
  shr_fexp prec emax mx ex lx = (mrs1, e1) →
  round_nearest_even (shr_m mrs1) (loc_of_shr_record mrs1) = Zpos p1 →
  2 ^ 52 <= Zpos p1 <= 2 ^ 53 → -1074 <= e1 <= 970 →
  ∃ m e,
    binary_round_aux prec emax false mx ex lx = S754_finite false m e
    ∧ e1 <= e <= e1 + 1 ∧ Zpos m * 2 ^ (e - e1) = Zpos p1.
Proof.
  intros H1 H2 Hp He. unfold binary_round_aux. rewrite H1, H2.
  unfold shr_fexp. cbn [Zdigits2 shr_record_of_loc].
  assert (Hd1 : (Zpos p1 < 2 ^ 53 ∧ Zpos (digits2_pos p1) = 53)
                ∨ (Zpos p1 = 2 ^ 53 ∧ Zpos (digits2_pos p1) = 54)).
  { destruct (Z_lt_le_dec (Zpos p1) (2 ^ 53)) as [Hx|Hx].
    - left. split; [exact Hx|]. apply digits_of_range; [|lia]. change (53 - 1) with 52. lia.
    - right. assert (Zpos p1 = 2 ^ 53) as Heq by lia. split; [exact Heq|].
      change (2 ^ 53) with (Zpos 9007199254740992) in Heq. injection Heq as ->. reflexivity. }
  destruct Hd1 as [[Hx Hd]|[Hx Hd]]; rewrite Hd, fexp_eq.
  - rewrite shr_nonpositive by lia. cbn [shr_m]. unfold emax, prec.
    destruct (Z.leb_spec e1 (1024 - 53)); [|lia].
    exists p1, e1. split; [reflexivity|]. split; [lia|].
    rewrite Z.sub_diag. lia.
  - replace (Z.max (54 + e1 - 53) (-1074) - e1) with 1 by lia.
    change (2 ^ 53) with (Zpos 9007199254740992) in Hx. injection Hx as ->.
    cbn [shr SpecFloat.iter_pos shr_1 shr_m]. unfold emax, prec.
    destruct (Z.leb_spec (e1 + 1) (1024 - 53)); [|lia].
    eexists _, (e1 + 1). split; [reflexivity|]. split; [lia|].
    replace (e1 + 1 - e1) with 1 by lia. reflexivity.
Qed.

Lemma loc_of_shr_record_of_loc (m : Z) (l : location) :
  loc_of_shr_record (shr_record_of_loc m l) = l.
Proof. now destruct l as [|[| |]]. Qed.

(** Rounding to nearest after dropping one bit: up only from an odd
    number. *)
Lemma round_after_shr_1 (q : positive) (l : location) :
  let mrs := shr_1 (shr_record_of_loc (Zpos q) l) in
  let V := round_nearest_even (shr_m mrs) (loc_of_shr_record mrs) in
  (V = Zpos q / 2 ∨ (V = Zpos q / 2 + 1 ∧ Z.odd (Zpos q) = true)).
Proof.
  cbv zeta.
  assert (Hx0 : ∀ p, Zpos p~0 / 2 = Zpos p)
    by (intros p; rewrite Pos2Z.inj_xO, Z.mul_comm; apply Z.div_mul; lia).
  assert (Hx1 : ∀ p, Zpos p~1 / 2 = Zpos p).
  { intros p. rewrite Pos2Z.inj_xI. symmetry. apply Z.div_unique with (r := 1); lia. }
  destruct q as [p|p|]; destruct l as [|[| |]];
    cbn [shr_record_of_loc shr_1 orb shr_m loc_of_shr_record round_nearest_even];
    rewrite ?Hx0, ?Hx1; auto;
    try (destruct (Z.even (Zpos p)); auto).
  all: change (1 / 2) with 0; auto.
Qed.

(** Rounding to nearest of a quotient: up only from a remainder of at least
    half the divisor. *)
Lemma round_of_division (q d r : Z) :
  0 < d → Z.even d = true → 0 <= r < d →
  let V := round_nearest_even q (new_location d r) in
  V = q ∨ (V = q + 1 ∧ d <= 2 * r).
Proof.
  intros Hd Heven Hr. cbv zeta. unfold new_location. rewrite Heven.
  unfold new_location_even. destruct (Z.eqb_spec r 0); [now left|].
  cbn [round_nearest_even].
  destruct (Z.compare_spec (2 * r) d).
  - destruct (Z.even q); [now left | right; split; [reflexivity | lia]].
  - now left.
  - right. split; [reflexivity | lia].
Qed.

(** The quotient by a million of the nanoseconds, as [toFixed(0)] shows it:
    the nearest whole number of milliseconds, a half counting upwards. *)
Lemma toFixed_0_millis (e : Z) :
  500000 < e < 2 ^ 53 →
  toFixed 0 (PrimFloat.div (ofBigInt e) 1000000)
  = decimal (Z.to_N ((e + 500000) / 1000000)).
Proof.
  intros He.
  set (k := (e + 500000) / 1000000).
  assert (Hk : 1000000 * k <= e + 500000 < 1000000 * (k + 1)).
  { pose proof (Z.div_mod (e + 500000) 1000000 ltac:(lia)) as Hd.
    pose proof (Z.mod_pos_bound (e + 500000) 1000000 ltac:(lia)) as Hm.
    fold k in Hd. lia. }
  assert (Hk1 : 1 <= k) by lia.
  destruct (ofBigInt_exact e ltac:(lia)) as (ma & ea & Hx & Hb & Hda & Hea & Hma).
  pose proof (mantissa_ge_pow ma) as Hmlo. pose proof (mantissa_lt_pow ma) as Hmhi.
  rewrite Hda in Hmlo, Hmhi. change (53 - 1) with 52 in Hmlo.
  set (S := 2 ^ (- ea)) in *.
  assert (HS : 1 <= S) by (unfold S; assert (0 < 2 ^ (- ea)) by (apply Z.pow_pos_nonneg; lia); lia).
  set (KS := k * S).
  assert (Hlo : 1000000 * KS - 500000 * S <= Zpos ma) by (unfold KS; nia).
  assert (Hhi : Zpos ma <= 1000000 * KS + 500000 * S - S) by (unfold KS; nia).
  assert (HKS : S <= KS) by (unfold KS; nia).
  (* the division *)
  assert (Hdiv : ∃ q r,
            Zpos ma * 2 ^ 53 = 8589934592000000 * q + r ∧ 0 <= r < 8589934592000000
            ∧ Prim2SF (PrimFloat.div (ofBigInt e) 1000000)
              = binary_round_aux prec emax false q (ea - 20)
                  (new_location 8589934592000000 r)).
  { rewrite FloatAxioms.div_spec, Hx.
    change (Prim2SF 1000000) with (S754_finite false 8589934592000000 (-33)).
    unfold SF64div, SFdiv, SFdiv_core_binary. cbn [Zdigits2 xorb].
    rewrite Hda. change (Zpos (digits2_pos 8589934592000000)) with 53.
    rewrite fexp_eq.
    replace (Z.min (Z.max (53 + ea - (53 + -33) - 53) (-1074)) (ea - -33)) with (ea - 20) by lia.
    replace (ea - -33 - (ea - 20)) with 53 by lia.
    rewrite Z.shiftl_mul_pow2 by lia.
    pose proof (Z_div_mod (Zpos ma * 2 ^ 53) (Zpos 8589934592000000) ltac:(lia)) as Hd.
    destruct (Z.div_eucl (Zpos ma * 2 ^ 53) (Zpos 8589934592000000)) as [q r].
    destruct Hd as [Heq Hr]. exists q, r. now repeat split. }
  destruct Hdiv as (q & r & Heq & Hr & Ht).
  set (Tlo := (2 * KS - S) * 2 ^ 19).
  set (Thi := (2 * KS + S) * 2 ^ 19).
  assert (Hq1 : Tlo <= q) by (unfold Tlo; lia).
  assert (Hq2 : q <= Thi - 2) by (unfold Thi; lia).
  assert (Hq3 : 2 ^ 52 <= q < 2 ^ 54) by lia.
  destruct q as [|qp|qp]; [lia| |lia].
  (* the rounded mantissa and its exponent *)
  assert (Hround : ∃ m e2 e1 V,
            binary_round_aux prec emax false (Zpos qp) (ea - 20)
              (new_location 8589934592000000 r) = S754_finite false m e2
            ∧ e1 <= e2 <= e1 + 1 ∧ ea - 20 <= e1 <= ea - 19
            ∧ Zpos m * 2 ^ (e2 - e1) = V
            ∧ Tlo * 2 ^ (ea - 20 + 1074) <= V * 2 ^ (e1 + 1074)
            ∧ V * 2 ^ (e1 + 1074) < Thi * 2 ^ (ea - 20 + 1074)).
  { destruct (Z_lt_le_dec (Zpos qp) (2 ^ 53)) as [Hsmall|Hbig].
    - assert (Hdq : Zpos (digits2_pos qp) = 53)
        by (apply digits_of_range; [change (53 - 1) with 52; lia | lia]).
      set (l := new_location 8589934592000000 r).
      assert (H1 : shr_fexp prec emax (Zpos qp) (ea - 20) l
                   = (shr_record_of_loc (Zpos qp) l, ea - 20)).
      { unfold shr_fexp. cbn [Zdigits2]. rewrite Hdq, fexp_eq. apply shr_nonpositive. lia. }
      destruct (round_nearest_even_cases (Zpos qp) l) as [HV|HV].
      + destruct (binary_round_aux_value (Zpos qp) (ea - 20) l _ _ qp H1)
          as (m & e2 & Hres & He2 & Hval);
          [now rewrite shr_record_of_loc_m, loc_of_shr_record_of_loc | lia | lia |].
        exists m, e2, (ea - 20), (Zpos qp). rewrite Hres.
        assert (0 < 2 ^ (ea - 20 + 1074)) by (apply Z.pow_pos_nonneg; lia).
        repeat split; try lia; try assumption; nia.
      + assert (Hp : ∃ p1, Zpos qp + 1 = Zpos p1) by (exists (qp + 1)%positive; lia).
        destruct Hp as [p1 Hp1].
        destruct (binary_round_aux_value (Zpos qp) (ea - 20) l _ _ p1 H1)
          as (m & e2 & Hres & He2 & Hval);
          [rewrite shr_record_of_loc_m, loc_of_shr_record_of_loc; congruence | lia | lia |].
        exists m, e2, (ea - 20), (Zpos p1). rewrite Hres.
        assert (0 < 2 ^ (ea - 20 + 1074)) by (apply Z.pow_pos_nonneg; lia).
        repeat split; try lia; try assumption; nia.
    - assert (Hdq : Zpos (digits2_pos qp) = 54)
        by (apply digits_of_range; [change (54 - 1) with 53; lia | lia]).
      set (l := new_location 8589934592000000 r).
      assert (H1 : shr_fexp prec emax (Zpos qp) (ea - 20) l
                   = (shr_1 (shr_record_of_loc (Zpos qp) l), ea - 20 + 1)).
      { unfold shr_fexp. cbn [Zdigits2]. rewrite Hdq, fexp_eq.
        replace (Z.max (54 + (ea - 20) - 53) (-1074) - (ea - 20)) with 1 by lia.
        reflexivity. }
      pose proof (round_after_shr_1 qp l) as HV. cbv zeta in HV.
      assert (Heven : ∃ T, Thi = 2 * T ∧ Tlo = 2 * (T - S * 2 ^ 19))
        by (exists ((2 * KS + S) * 2 ^ 18); unfold Thi, Tlo; lia).
      destruct Heven as (T & HT & HT').
      assert (Hhalf : T - S * 2 ^ 19 <= Zpos qp / 2 <= T - 1).
      { split; [apply Z.div_le_lower_bound; lia | apply Z.lt_succ_r, Z.div_lt_upper_bound; lia]. }
      assert (HVb : ∃ p1, round_nearest_even (shr_m (shr_1 (shr_record_of_loc (Zpos qp) l)))
                            (loc_of_shr_record (shr_1 (shr_record_of_loc (Zpos qp) l)))
                          = Zpos p1
                          ∧ T - S * 2 ^ 19 <= Zpos p1 <= T - 1
                          ∧ 2 ^ 52 <= Zpos p1 <= 2 ^ 53).
      { assert (Hh : 2 ^ 52 <= Zpos qp / 2 < 2 ^ 53).
        { split; [apply Z.div_le_lower_bound; lia | apply Z.div_lt_upper_bound; lia]. }
        destruct HV as [HV|[HV Hodd]].
        - destruct (Zpos qp / 2) as [|p1|p1] eqn:Eh; [lia| |lia].
          exists p1. rewrite HV. repeat split; lia.
        - exists (Z.to_pos (Zpos qp / 2 + 1)). rewrite HV, Z2Pos.id by lia.
          split; [reflexivity|]. split; [|lia]. split; [lia|].
          destruct (Z.eq_dec (Zpos qp / 2) (T - 1)) as [Hedge|]; [exfalso|lia].
          assert (Hq : Zpos qp = 2 * (Zpos qp / 2) + Zpos qp mod 2) by (apply Z.div_mod; lia).
          pose proof (Z.mod_pos_bound (Zpos qp) 2 ltac:(lia)) as Hmod.
          apply Z.odd_spec in Hodd as [z Hz]. lia. }
      destruct HVb as (p1 & HV1 & HVrange & HV52).
      destruct (binary_round_aux_value (Zpos qp) (ea - 20) l _ _ p1 H1 HV1 HV52 ltac:(lia))
        as (m & e2 & Hres & He2 & Hval).
      exists m, e2, (ea - 20 + 1), (Zpos p1). rewrite Hres.
      assert (Hpow : 2 ^ (ea - 20 + 1 + 1074) = 2 * 2 ^ (ea - 20 + 1074)).
      { replace (ea - 20 + 1 + 1074) with (Z.succ (ea - 20 + 1074)) by lia.
        apply Z.pow_succ_r. lia. }
      assert (0 < 2 ^ (ea - 20 + 1074)) by (apply Z.pow_pos_nonneg; lia).
      repeat split; try lia; try assumption; rewrite Hpow; nia. }
  destruct Hround as (m & e2 & e1 & V & Hres & He2 & He1 & Hval & HVlo & HVhi).
  rewrite Hres in Ht.
  rewrite (toFixed_0_value _ m e2 Ht) by lia.
  do 2 f_equal.
  assert (Hscaled : scaled m e2 = V * 2 ^ (e1 + 1074)).
  { unfold scaled. rewrite <- Hval, <- Z.mul_assoc, <- Z.pow_add_r by lia.
    do 2 f_equal. lia. }
  assert (Hunit : S * 2 ^ 19 * 2 ^ (ea - 20 + 1074) = 2 ^ 1073).
  { unfold S. rewrite <- !Z.pow_add_r by lia. f_equal. lia. }
  assert (HTlo : Tlo * 2 ^ (ea - 20 + 1074) = (2 * k - 1) * 2 ^ 1073).
  { unfold Tlo, KS. rewrite <- Hunit. ring. }
  assert (HThi : Thi * 2 ^ (ea - 20 + 1074) = (2 * k + 1) * 2 ^ 1073).
  { unfold Thi, KS. rewrite <- Hunit. ring. }
  rewrite HTlo in HVlo. rewrite HThi in HVhi. rewrite <- Hscaled in HVlo, HVhi.
  change (2 ^ 1075) with (4 * 2 ^ 1073). change (2 ^ 1074) with (2 * 2 ^ 1073).
  assert (0 < 2 ^ 1073) by (apply Z.pow_pos_nonneg; lia).
  symmetry.
  apply Z.div_unique with (r := 2 * scaled m e2 + 2 * 2 ^ 1073 - 4 * 2 ^ 1073 * k); lia.
Qed.

End MillisecondFacts.

(** ** The elapsed time in whole milliseconds *)

Module ElapsedTimeFacts.
Import JsString JsStringProps JsNumber MillisecondFacts MetroTerminalReporter.
#[local] Arguments String.append : simpl nomatch.

Section Reporter.
Context `{chalk.Chalk} `{path.Path}.

(** X14.  For a finished or failed build with a recorded start time, an
    elapsed time above 500000 ns and below 2^53 ns is shown dimmed as the
    whole number of milliseconds nearest to it, a half counting upwards,
    followed by [ms]. *)
Theorem getBundleStatusMessage_whole_milliseconds
        (self : t) (hrtime startTime : Z) (progress : BundleProgress) (phase : BuildPhase) :
  phase ≠ in_progress →
  _bundleTimers self !! buildID (bundleDetails progress) = Some startTime →
  (500000 < hrtime - startTime < 2 ^ 53)%Z →
  let details := bundleDetails progress in
  let status := match phase with done => "Bundled " | _ => "Bundling failed " end in
  let color := match phase with done => chalk.green | _ => chalk.red end in
  let plural := if (totalFileCount progress =? 1)%N then "" else "s" in
  let milliseconds := ((hrtime - startTime + 500000) / 1000000)%Z in
  _getBundleStatusMessage self hrtime progress phase
  = inr (color (platformTag details +:+ status) +:+
         chalk.dim (decimal (Z.to_N milliseconds) +:+ "ms") +:+
         chalk.reset_dim (" " +:+ localPathOf self progress +:+ " (" +:+
                          decimal (totalFileCount progress) +:+ " module" +:+ plural +:+ ")")).
Proof.
  intros Hphase Hstart Helapsed. cbv zeta.
  rewrite <- (toFixed_0_millis _ Helapsed).
  rewrite <- (MetroTerminalReporterProps.elapsedTimeText_above_half (hrtime - startTime))
    by lia.
  unfold _getBundleStatusMessage. rewrite Hstart.
  destruct phase; [now destruct Hphase | reflexivity | reflexivity].
Qed.

End Reporter.

(** The finished build of 150 ms. *)
Lemma getBundleStatusMessage_whole_milliseconds_witness :
  @_getBundleStatusMessage chalk.plain (path.posix "/") sampleReporter 150499999
     sampleProgress done
  = inr "iOS Bundled 150ms path/to/bundle.js (7922 modules)".
Proof.
  rewrite (@getBundleStatusMessage_whole_milliseconds chalk.plain (path.posix "/")
             sampleReporter 150499999 1000 sampleProgress done);
    [reflexivity | discriminate | reflexivity | split; reflexivity].
Defined.

End ElapsedTimeFacts.
